(** * Cover-range reconstruction and page classification of the IIIF scripts

    A shallow embedding of the Python scripts that classify the pages of a
    IIIF manifest as covers and rebuild the manifest's [structures]:

    - [app4_koncowe.py] (class [ManifestApp]) and [app4.py] (class
      [CoverFinderApp]): the desktop variants with [run_analysis] and
      [save_manifest] / [save_manifest_with_structure], the methods behind
      the other buttons ([fetch_manifest], [start_analysis],
      [show_summary], [open_editor]) and [toggle_ui];
    - [ocr_and_clip.py] and [laion_grupowanie_zdjec.py]: the hybrid
      CLIP + OCR command line variants with [analizuj_manifest], the OCR
      heuristic [analizuj_strukture_tekstu_ocr] and the batch classifier
      [klasyfikuj_obraz_clip_wsadowo].

    Decoded JSON is modelled by [json], Python dictionaries by [gmap],
    Python integers by [Z], list indices by [nat], floats that are only
    stored and compared by [Q].  A Python [str] is a [string] whose
    characters are the code points below 256.  The list of canvases is a
    list of dictionaries, as a IIIF manifest has it; what the dictionaries
    hold is any JSON.  The network, the CLIP model, the OCR engine and the
    file dialog are oracles: Section variables or arguments of the
    functions that call them.  Console output and widget calls other than
    the log box and the state option of the buttons and entries are left
    out. *)

From Stdlib Require Import ZArith QArith Lia Lqa Ascii String.
From stdpp Require Import base gmap strings list pretty sorting.

#[local] Set Warnings "-register-all".

(** ** Python built-ins used by the scripts *)

Module Py.
Local Open Scope Z_scope.

(** Normalisation of one bound of [l[start:stop]] for a list of length
    [len]: a negative bound counts from the end, and the result is clamped
    to [0 .. len]. *)
Definition slice_index (len i : Z) : Z :=
  if decide (i < 0) then Z.max 0 (i + len) else Z.min i len.

(** [l[start:stop]] *)
Definition slice {A : Type} (l : list A) (start stop : Z) : list A :=
  let len := Z.of_nat (length l) in
  let a := slice_index len start in
  let b := slice_index len stop in
  take (Z.to_nat (b - a)) (drop (Z.to_nat a) l).

(** [str.isspace] on one character with code point below 256. *)
Definition isspace (c : ascii) : bool :=
  let n := Z.of_nat (nat_of_ascii c) in
  bool_decide (9 ≤ n ≤ 13) || bool_decide (28 ≤ n ≤ 32)
  || bool_decide (n = 133) || bool_decide (n = 160).

Fixpoint lstrip (p : ascii → bool) (s : string) : string :=
  match s with
  | EmptyString => EmptyString
  | String c s' => if p c then lstrip p s' else s
  end.

Fixpoint rstrip (p : ascii → bool) (s : string) : string :=
  match s with
  | EmptyString => EmptyString
  | String c s' =>
      match rstrip p s' with
      | EmptyString => if p c then EmptyString else String c EmptyString
      | r => String c r
      end
  end.

(** [s.strip()] *)
Definition strip (s : string) : string := rstrip isspace (lstrip isspace s).

(** [s.rstrip('/')] *)
Definition rstrip_slash (s : string) : string :=
  rstrip (λ c, Ascii.eqb c "/"%char) s.

(** The exceptions the modelled code can raise. *)
Inductive exn : Set :=
  | AttributeError | IndexError | KeyError | TypeError | ValueError.

Inductive outcome (A : Type) : Type :=
  | Ret (a : A)
  | Raise (e : exn).
Arguments Ret {A} a.
Arguments Raise {A} e.

Definition raised {A : Type} (o : outcome A) : bool :=
  match o with Ret _ => false | Raise _ => true end.
End Py.

(** ** Decoded JSON documents *)

Inductive json : Type :=
  | JNull
  | JBool (b : bool)
  | JNum (n : Z)
  | JStr (s : string)
  | JArr (l : list json)
  | JObj (m : gmap string json).

#[export] Instance json_inhabited : Inhabited json := populate JNull.
#[export] Instance Q_inhabited : Inhabited Q := populate 0%Q.

Module Json.
Import Py.

(** Truth value of a decoded JSON value ([if not x]). *)
Definition truthy (v : json) : bool :=
  match v with
  | JNull => false
  | JBool b => b
  | JNum n => negb (Z.eqb n 0)
  | JStr s => negb (String.eqb s "")
  | JArr l => match l with [] => false | _ => true end
  | JObj m => negb (bool_decide (m = ∅))
  end.

(** [v.get(k, d)]: only dictionaries have the method. *)
Definition get (v : json) (k : string) (d : json) : outcome json :=
  match v with
  | JObj m => Ret (default d (m !! k))
  | _ => Raise AttributeError
  end.

(** [v[0]] *)
Definition getitem0 (v : json) : outcome json :=
  match v with
  | JArr (x :: _) => Ret x
  | JArr [] => Raise IndexError
  | JStr (String c _) => Ret (JStr (String c EmptyString))
  | JStr EmptyString => Raise IndexError
  | JObj _ => Raise KeyError
  | _ => Raise TypeError
  end.

Definition bind {A B : Type} (o : outcome A) (k : A → outcome B) : outcome B :=
  match o with
  | Ret a => k a
  | Raise e => Raise e
  end.

(** [canvas.get('images', [{}])[0].get('resource', {}).get('service', {}).get('@id')] *)
Definition image_service_id (canvas : gmap string json) : outcome json :=
  bind (getitem0 (default (JArr [JObj ∅]) (canvas !! "images"))) (λ image,
  bind (get image "resource" (JObj ∅)) (λ resource,
  bind (get resource "service" (JObj ∅)) (λ service,
  get service "@id" JNull))).
End Json.

(** ** [app4_koncowe.py]: class [ManifestApp] *)

Module Koncowe.
Import Py.
Local Open Scope Z_scope.

(** The dictionary [page_data] of [run_analysis]; its keys are fixed. *)
Record page_data : Type := PageData {
  id_text : string;
  page_num : Z;
  canvas_id : json;
  is_cover : bool;
  prob : Q
}.

(** The lines written to the log box, without their wording. *)
Inductive log_line : Type :=
  | LogAnalysisStart (start_page end_page : Z)
  | LogSkippedPage (page_num : Z)
  | LogNoManifest
  | LogNoCovers
  | LogChosenCovers (cover_pages : list Z)
  | LogGenerating
  | LogDefaultIdWarning
  | LogGenerated
  | LogSaved (file_path : string)
  | LogSaveFailed
  | LogSaveCancelled.

(** The attributes of [self] the modelled methods use, the log box, and
    the documents written to disk by [json.dump]. *)
Record app : Type := App {
  canvases : list (gmap string json);
  total_pages : Z;
  manifest : option (gmap string json);
  analysis_results : list page_data;
  log_box : list log_line;
  written : list (string * gmap string json)
}.

(** Methods run over [self] and may raise. *)
Definition M (A : Type) : Type := app → outcome A * app.

#[export] Instance M_ret : MRet M := λ A a self, (Ret a, self).
#[export] Instance M_bind : MBind M := λ A B k m self,
  match m self with
  | (Ret a, self') => k a self'
  | (Raise e, self') => (Raise e, self')
  end.

Definition this : M app := λ self, (Ret self, self).
Definition raise {A : Type} (e : exn) : M A := λ self, (Raise e, self).
Definition lift {A : Type} (o : outcome A) : M A := λ self, (o, self).

(** [self.log(...)] *)
Definition log (line : log_line) : M unit := λ self,
  (Ret (), App (canvases self) (total_pages self) (manifest self)
               (analysis_results self) (log_box self ++ [line]) (written self)).

Definition set_manifest (m : gmap string json) : M unit := λ self,
  (Ret (), App (canvases self) (total_pages self) (Some m)
               (analysis_results self) (log_box self) (written self)).

Definition set_analysis_results (rs : list page_data) : M unit := λ self,
  (Ret (), App (canvases self) (total_pages self) (manifest self)
               rs (log_box self) (written self)).

(** [self.analysis_results.append(page_data)] *)
Definition append_result (pd : page_data) : M unit := λ self,
  (Ret (), App (canvases self) (total_pages self) (manifest self)
               (analysis_results self ++ [pd]) (log_box self) (written self)).

(** The state with more results and more log lines, as some turns of the
    loop of [run_analysis] leave it. *)
Definition extended (self : app) (results : list page_data) (lines : list log_line) : app :=
  App (canvases self) (total_pages self) (manifest self)
      (analysis_results self ++ results) (log_box self ++ lines) (written self).

(** [json.dump(self.manifest, f)] on the file at [file_path] *)
Definition dump (file_path : string) (m : gmap string json) : M unit := λ self,
  (Ret (), App (canvases self) (total_pages self) (manifest self)
               (analysis_results self) (log_box self)
               (written self ++ [(file_path, m)])).

(** [for x in l: body(x)] *)
Fixpoint for_each {A : Type} (l : list A) (body : A → M unit) : M unit :=
  match l with
  | [] => mret ()
  | x :: l' => body x ;; for_each l' body
  end.

(** [enumerate(l)] *)
Definition enumerate {A : Type} (l : list A) : list (nat * A) :=
  imap (λ i x, (i, x)) l.

(** *** Saving: [save_manifest] *)

(** What one turn of the loop over [cover_pages] computes. *)
Record range : Type := Range {
  start_page : Z;
  end_page : Z;
  label : string;
  range_id : string;
  range_canvas_ids : list json
}.

Definition default_base_id : string := "http://example.com/manifest".

(** The body of [for i, start_page in enumerate(cover_pages)] up to the
    test [if range_canvas_ids]. *)
Definition range_at (canvases : list (gmap string json)) (total_pages : Z)
    (base_id : string) (cover_pages : list Z) (i : nat) (start_page : Z) : range :=
  let label := "zakres od strony " +:+ pretty start_page in
  let range_id := rstrip_slash base_id +:+ "/range/r" +:+ pretty i in
  let end_page :=
    if decide (i + 1 < length cover_pages)%nat
    then cover_pages !!! (i + 1)%nat - 1
    else total_pages in
  let start_index := start_page - 1 in
  let end_index := end_page in
  let range_canvas_ids :=
    omap (λ c : gmap string json, c !! "@id")
         (slice canvases start_index end_index) in
  Range start_page end_page label range_id range_canvas_ids.

(** The dictionary appended to [structures]. *)
Definition structure_of (r : range) : json :=
  JObj {[ "@id" := JStr (range_id r);
          "@type" := JStr "sc:Range";
          "label" := JStr (label r);
          "canvases" := JArr (range_canvas_ids r) ]}.

(** [entry['@id']] of an entry of [structures]. *)
Definition structure_id (entry : json) : option json :=
  match entry with JObj m => m !! "@id" | _ => None end.

(** The loop that fills [structures]. *)
Definition build_structures (canvases : list (gmap string json)) (total_pages : Z)
    (base_id : string) (cover_pages : list Z) : list json :=
  foldl (λ structures '(i, start_page),
           let r := range_at canvases total_pages base_id cover_pages i start_page in
           match range_canvas_ids r with
           | [] => structures
           | _ => structures ++ [structure_of r]
           end)
        [] (enumerate cover_pages).

(** The values the loop computes, one [range] per turn, before the test
    [if range_canvas_ids] leaves out those without identifiers. *)
Definition generated_ranges (canvases : list (gmap string json)) (total_pages : Z)
    (base_id : string) (cover_pages : list Z) : list range :=
  imap (range_at canvases total_pages base_id cover_pages) cover_pages.

(** The test [if range_canvas_ids] fails. *)
Definition omitted (r : range) : bool :=
  match range_canvas_ids r with [] => true | _ => false end.

(** Canvases for the worked scenarios: one that has an ['@id'] and one
    that has none. *)
Definition canvas_with_id (s : string) : gmap string json := {[ "@id" := JStr s ]}.
Definition canvas_without_id : gmap string json := {[ "label" := JStr "-" ]}.

(** [sorted([num for num, var in check_vars.items() if var.get()])] *)
Definition checked_pages (check_vars : gmap Z bool) : list Z :=
  merge_sort Z.le (filter (λ kv, kv.2 = true) (map_to_list check_vars)).*1.

(** [self.manifest.get('@id', 'http://example.com/manifest')], then the
    test [if not base_id.strip()]. *)
Definition effective_base_id (m : gmap string json) : M string :=
  match default (JStr default_base_id) (m !! "@id") with
  | JStr base_id =>
      if String.eqb (strip base_id) ""
      then log LogDefaultIdWarning ;; mret default_base_id
      else mret base_id
  | _ => raise AttributeError
  end.

(** What [effective_base_id] returns for a manifest whose ['@id'] is
    absent or a string, the only manifests for which it returns. *)
Definition base_id_of (m : gmap string json) : string :=
  match m !! "@id" with
  | Some (JStr b) => if String.eqb (strip b) "" then default_base_id else b
  | _ => default_base_id
  end.

Definition id_is_string (m : gmap string json) : Prop :=
  m !! "@id" = None ∨ ∃ b, m !! "@id" = Some (JStr b).

(** The manifest after [save_manifest] has run to its end on the
    non-empty manifest [m]. *)
Definition saved_manifest (canvases : list (gmap string json)) (total_pages : Z)
    (check_vars : gmap Z bool) (m : gmap string json) : gmap string json :=
  match checked_pages check_vars with
  | [] => delete "structures" m
  | cover_pages =>
      <["structures" :=
          JArr (build_structures canvases total_pages (base_id_of m) cover_pages)]> m
  end.

(** The statements of [save_manifest] from [cover_pages = sorted(...)] to
    the log line after [self.manifest['structures'] = structures]; [m] is
    the dictionary [self.manifest]. *)
Definition update_structures (m : gmap string json) (check_vars : gmap Z bool)
    : M unit :=
  self ← this;
  let cover_pages := checked_pages check_vars in
  match cover_pages with
  | [] =>
      log LogNoCovers ;;
      set_manifest (delete "structures" m)
  | _ =>
      log (LogChosenCovers cover_pages) ;;
      log LogGenerating ;;
      base_id ← effective_base_id m;
      let structures :=
        build_structures (canvases self) (total_pages self) base_id cover_pages in
      set_manifest (<["structures" := JArr structures]> m) ;;
      log LogGenerated
  end.

(** The rest of [save_manifest]: [file_path] is what the save dialog
    returns (empty when cancelled), [write_ok] whether opening and writing
    the file succeeds. *)
Definition write_manifest (file_path : string) (write_ok : bool) : M unit :=
  if String.eqb file_path "" then log LogSaveCancelled
  else if write_ok then
    self ← this;
    dump file_path (default ∅ (manifest self)) ;;
    log (LogSaved file_path)
  else log LogSaveFailed.

(** [save_manifest(self, check_vars, editor_win)] *)
Definition save_manifest (check_vars : gmap Z bool) (file_path : string)
    (write_ok : bool) : M unit :=
  self ← this;
  match manifest self with
  | None => log LogNoManifest
  | Some m =>
      if bool_decide (m = ∅) then log LogNoManifest
      else update_structures m check_vars ;; write_manifest file_path write_ok
  end.

(** *** Classification: [classify] and [run_analysis] *)

(** Index of the first largest entry ([prob.argmax()]). *)
Fixpoint argmax_from (best : nat) (top : Q) (i : nat) (l : list Q) : nat :=
  match l with
  | [] => best
  | x :: l' =>
      if Qle_bool x top then argmax_from best top (S i) l'
      else argmax_from i x (S i) l'
  end.

Definition argmax (l : list Q) : option nat :=
  match l with
  | [] => None
  | x :: l' => Some (argmax_from 0%nat x 1%nat l')
  end.

(** What [classify] returns: the dictionary with ["prob"] and
    ["is_cover"], or the one with ["error"]. *)
Inductive classification : Type :=
  | Classified (prob : Q) (is_cover : bool)
  | ClassifyError.

Section Analysis.
(** The raw bytes of a downloaded image. *)
Context {image_bytes : Type}.
(** [str(v)] of a decoded JSON value that is not a string. *)
Variable py_repr : json → string.
(** [requests.get(url, timeout=30)] followed by [raise_for_status()]:
    the content, or [None] when either raises. *)
Variable requests_get : string → option image_bytes.
(** The CLIP model on an image and the five descriptions: the softmax
    row, or [None] when opening the image or the model raises. *)
Variable clip_probs : image_bytes → option (list Q).

Definition py_str (v : json) : string :=
  match v with JStr s => s | _ => py_repr v end.

Definition classify (content : image_bytes) : classification :=
  match clip_probs content with
  | Some prob =>
      match argmax prob with
      | Some best => Classified (prob !!! best) (bool_decide (best = 0%nat))
      | None => ClassifyError
      end
  | None => ClassifyError
  end.

(** [page_data.update(result)] *)
Definition update (pd : page_data) (p : Q) (c : bool) : page_data :=
  PageData (id_text pd) (page_num pd) (canvas_id pd) c p.

(** The [try] block of the loop with its [except Exception] handler. *)
Definition fetch_and_classify (page_data : page_data) (img_service_url : json)
    : M Koncowe.page_data :=
  match img_service_url with
  | JStr url =>
      let image_url := rstrip_slash url +:+ "/full/1200,/0/default.jpg" in
      match requests_get image_url with
      | Some content =>
          match classify content with
          | Classified p c => mret (update page_data p c)
          | ClassifyError => mret page_data
          end
      | None => log (LogSkippedPage (page_num page_data)) ;; mret page_data
      end
  | _ => log (LogSkippedPage (page_num page_data)) ;; mret page_data
  end.

(** The dictionary [page_data] as first built for a page. *)
Definition new_page_data (page_num : Z) (canvas : gmap string json) : page_data :=
  PageData ("Strona " +:+ pretty page_num +:+ " (Etykieta: '"
              +:+ py_str (default (JStr "[Brak]") (canvas !! "label")) +:+ "')")
           page_num (default JNull (canvas !! "@id")) false 0%Q.

(** One turn of [for i, canvas in enumerate(canvases_subset)]. *)
Definition analyse_page (start_page : Z) (ic : nat * gmap string json) : M unit :=
  let page_num := start_page + Z.of_nat ic.1 in
  let page_data := new_page_data page_num ic.2 in
  img_service_url ← lift (Json.image_service_id ic.2);
  if Json.truthy img_service_url then
    page_data ← fetch_and_classify page_data img_service_url;
    append_result page_data
  else append_result page_data.

(** The dictionary a turn of the loop appends for a canvas whose image
    service lookup does not raise: a function of that page alone. *)
Definition page_result (start_page : Z) (ic : nat * gmap string json) : page_data :=
  let page_data := new_page_data (start_page + Z.of_nat ic.1) ic.2 in
  match Json.image_service_id ic.2 with
  | Ret (JStr url) =>
      if Json.truthy (JStr url) then
        match requests_get (rstrip_slash url +:+ "/full/1200,/0/default.jpg") with
        | Some content =>
            match classify content with
            | Classified p c => update page_data p c
            | ClassifyError => page_data
            end
        | None => page_data
        end
      else page_data
  | _ => page_data
  end.


Definition run_analysis (start_page end_page : Z) : M unit :=
  log (LogAnalysisStart start_page end_page) ;;
  self ← this;
  let start_index := start_page - 1 in
  let end_index := end_page in
  let canvases_subset := slice (canvases self) start_index end_index in
  set_analysis_results [] ;;
  for_each (enumerate canvases_subset) (analyse_page start_page).
End Analysis.
End Koncowe.

(** ** [app4.py]: class [CoverFinderApp]

    The same statements as [ManifestApp] up to the names
    ([analysed_pages] for [analysis_results], [manifest_data] for
    [manifest], [liczba_wszystkich_stron] for [total_pages], and the keys
    [numer_strony], [jest_okladka], [prawdopodobienstwo] of [page_info]),
    except for what [classify] returns on failure and how [run_analysis]
    meets it. *)

Module App4.
Import Py Koncowe.
Local Open Scope Z_scope.

(** What [classify] returns: the dictionary, or on failure a set whose
    only element is the message
    [f"Błąd przetwarzania obrazu: {e}"]. *)
Inductive classification : Type :=
  | Classified (prawdopodobienstwo : Q) (jest_okladka : bool)
  | MessageSet.

Section Analysis.
Context {image_bytes : Type}.
Variable py_repr : json → string.
Variable requests_get : string → option image_bytes.
Variable clip_probs : image_bytes → option (list Q).

Definition classify (content : image_bytes) : classification :=
  match clip_probs content with
  | Some prob =>
      match argmax prob with
      | Some best => Classified (prob !!! best) (bool_decide (best = 0%nat))
      | None => MessageSet
      end
  | None => MessageSet
  end.

(** The [try] block with its handler.  For a [MessageSet] the test
    ['błąd' not in wynik_analizy] holds, the message being the only
    element, and [page_info.update] raises [ValueError] on an element
    that is a string of more than two characters; the handler logs it
    and [page_info] is as it was. *)
Definition fetch_and_classify (page_info : page_data) (image_service_url : json)
    : M page_data :=
  match image_service_url with
  | JStr url =>
      let image_url := rstrip_slash url +:+ "/full/1200,/0/default.jpg" in
      match requests_get image_url with
      | Some content =>
          match classify content with
          | Classified p c => mret (update page_info p c)
          | MessageSet =>
              log (LogSkippedPage (page_num page_info)) ;; mret page_info
          end
      | None => log (LogSkippedPage (page_num page_info)) ;; mret page_info
      end
  | _ => log (LogSkippedPage (page_num page_info)) ;; mret page_info
  end.

Definition analyse_page (start_page : Z) (ic : nat * gmap string json) : M unit :=
  let current_page_number := start_page + Z.of_nat ic.1 in
  let page_info := new_page_data py_repr current_page_number ic.2 in
  image_service_url ← lift (Json.image_service_id ic.2);
  if Json.truthy image_service_url then
    page_info ← fetch_and_classify page_info image_service_url;
    append_result page_info
  else append_result page_info.

Definition run_analysis (start_page end_page : Z) : M unit :=
  log (LogAnalysisStart start_page end_page) ;;
  self ← this;
  let start_index := start_page - 1 in
  let end_index := end_page in
  let canvases_to_analyze := slice (canvases self) start_index end_index in
  set_analysis_results [] ;;
  for_each (enumerate canvases_to_analyze) (analyse_page start_page).
End Analysis.

Definition save_manifest_with_structure := save_manifest.
End App4.

(** ** [ocr_and_clip.py]: the hybrid variant

    [laion_and_ocr!.py] runs the same loop with another CLIP model. *)

Module OcrClip.
Import Py.
Local Open Scope Z_scope.

(** What [klasyfikuj_obraz_clip] returns: the dictionary with
    ["kategoria"] (here the index of the description),
    ["prawdopodobienstwo"] and ["jest_okladka_wg_clip"], or the one with
    ["błąd"]. *)
Inductive ocena_clip : Type :=
  | OcenaClip (najlepszy_indeks : nat) (prawdopodobienstwo : Q)
              (jest_okladka_wg_clip : bool)
  | BladClip.

(** What [analizuj_strukture_tekstu_ocr] returns: the dictionary with
    ["info"] when no text was read, the one with ["liczba_duzych_blokow"],
    or the one with ["błąd"]. *)
Inductive analiza_ocr : Type :=
  | BrakTekstu
  | AnalizaOcr (large_text_count : nat)
  | BladOcr.

(** [analiza_ocr['znaleziono_duzy_tekst']] *)
Definition znaleziono_duzy_tekst (a : analiza_ocr) : bool :=
  match a with
  | AnalizaOcr large_text_count => bool_decide (0 < large_text_count)%nat
  | _ => false
  end.

(** The three result lists of [analizuj_manifest]. *)
Record wyniki : Type := Wyniki {
  wyniki_koncowe_okladki : list string;
  wyniki_clip_okladki : list string;
  wyniki_ocr_okladki : list string
}.

Section Analiza.
Context {image_bytes : Type}.
Variable py_repr : json → string.
Variable requests_get : string → option image_bytes.
Variable clip_probs : image_bytes → option (list Q).
(** The OCR engine and the height heuristic over its boxes. *)
Variable analizuj_strukture_tekstu_ocr : image_bytes → analiza_ocr.

Definition klasyfikuj_obraz_clip (content : image_bytes) : ocena_clip :=
  match clip_probs content with
  | Some probs =>
      match Koncowe.argmax probs with
      | Some najlepszy_indeks =>
          OcenaClip najlepszy_indeks (probs !!! najlepszy_indeks)
                    (bool_decide (najlepszy_indeks = 0%nat))
      | None => BladClip
      end
  | None => BladClip
  end.

(** Steps 1 to 3 of the [try] block, once the image is there. *)
Definition ocen_strone (w : wyniki) (identyfikator_strony : string)
    (content : image_bytes) : wyniki :=
  match klasyfikuj_obraz_clip content with
  | BladClip => w
  | OcenaClip _ _ jest_okladka_wg_clip =>
      match analizuj_strukture_tekstu_ocr content with
      | BladOcr => w
      | analiza =>
          let wyniki_clip :=
            if jest_okladka_wg_clip
            then wyniki_clip_okladki w ++ [identyfikator_strony]
            else wyniki_clip_okladki w in
          let wyniki_ocr :=
            if znaleziono_duzy_tekst analiza
            then wyniki_ocr_okladki w ++ [identyfikator_strony]
            else wyniki_ocr_okladki w in
          let jest_okladka :=
            if znaleziono_duzy_tekst analiza then true
            else if jest_okladka_wg_clip then true
            else false in
          let wyniki_koncowe :=
            if jest_okladka
            then wyniki_koncowe_okladki w ++ [identyfikator_strony]
            else wyniki_koncowe_okladki w in
          Wyniki wyniki_koncowe wyniki_clip wyniki_ocr
      end
  end.

(** [f"Strona {i+1} (Etykieta z manifestu: '{label}')"] *)
Definition identyfikator_strony (i : nat) (label : json) : string :=
  "Strona " +:+ pretty (Z.of_nat i + 1) +:+ " (Etykieta z manifestu: '"
    +:+ Koncowe.py_str py_repr label +:+ "')".

(** One turn of [for i, canvas in enumerate(canvases[:limit_stron])]. *)
Definition analizuj_strone (w : wyniki) (ic : nat * gmap string json)
    : outcome wyniki :=
  let label := default (JStr "[Brak etykiety]") (ic.2 !! "label") in
  Json.bind (Json.image_service_id ic.2) (λ image_service_url,
    if Json.truthy image_service_url then
      match image_service_url with
      | JStr url =>
          let image_url := rstrip_slash url +:+ "/full/1200,/0/default.jpg" in
          match requests_get image_url with
          | Some content =>
              Ret (ocen_strone w (identyfikator_strony ic.1 label) content)
          | None => Ret w
          end
      | _ => Raise AttributeError
      end
    else Ret w).

Fixpoint petla (w : wyniki) (l : list (nat * gmap string json)) : outcome wyniki :=
  match l with
  | [] => Ret w
  | ic :: l' => Json.bind (analizuj_strone w ic) (λ w', petla w' l')
  end.

(** [analizuj_manifest] from the decoded list of canvases on; the
    result is the three lists the summary prints, [None] when the
    function returns before the loop. *)
Definition analizuj_manifest (canvases : list (gmap string json))
    (limit_stron : Z) : outcome (option wyniki) :=
  match canvases with
  | [] => Ret None
  | _ =>
      Json.bind
        (petla (Wyniki [] [] [])
               (Koncowe.enumerate (slice canvases 0 limit_stron)))
        (λ w, Ret (Some w))
  end.
End Analiza.
End OcrClip.

(** ** [laion_grupowanie_zdjec.py]: the hybrid variant with batches *)

Module Grupowanie.
Import Py OcrClip.
Local Open Scope Z_scope.

(** One entry of [batch_danych]. *)
Record dane (image_bytes : Type) : Type := Dane {
  dane_image_bytes : image_bytes;
  dane_label : json;
  numer_strony : Z
}.
Arguments Dane {image_bytes} _ _ _.
Arguments dane_image_bytes {image_bytes} _.
Arguments dane_label {image_bytes} _.
Arguments numer_strony {image_bytes} _.

Section Analiza.
Context {image_bytes : Type}.
Variable py_repr : json → string.
Variable analizuj_strukture_tekstu_ocr : image_bytes → analiza_ocr.
(** [f" (Prawdopodobieństwo: {p:.2%})"] *)
Variable procent : Q → string.

(** [f"Strona {dane['numer_strony']} (Etykieta: '{dane['label']}')"] *)
Definition identyfikator_strony_podstawowy (d : dane image_bytes) : string :=
  "Strona " +:+ pretty (numer_strony d) +:+ " (Etykieta: '"
    +:+ Koncowe.py_str py_repr (dane_label d) +:+ "')".

(** One turn of [for j, dane in enumerate(batch_danych)], with
    [ocena_clip = wyniki_clip_wsadu[j]] already read. *)
Definition analizuj_wynik (w : wyniki) (d : dane image_bytes)
    (ocena : ocena_clip) : wyniki :=
  match ocena with
  | BladClip => w
  | OcenaClip _ prawdopodobienstwo_clip jest_okladka_wg_clip =>
      match analizuj_strukture_tekstu_ocr (dane_image_bytes d) with
      | BladOcr => w
      | analiza =>
          let wyniki_clip :=
            if jest_okladka_wg_clip
            then wyniki_clip_okladki w
                   ++ [identyfikator_strony_podstawowy d
                         +:+ procent prawdopodobienstwo_clip]
            else wyniki_clip_okladki w in
          let wyniki_ocr :=
            if znaleziono_duzy_tekst analiza
            then wyniki_ocr_okladki w ++ [identyfikator_strony_podstawowy d]
            else wyniki_ocr_okladki w in
          let wyniki_koncowe :=
            if znaleziono_duzy_tekst analiza || jest_okladka_wg_clip
            then wyniki_koncowe_okladki w ++ [identyfikator_strony_podstawowy d]
            else wyniki_koncowe_okladki w in
          Wyniki wyniki_koncowe wyniki_clip wyniki_ocr
      end
  end.

(** The loop over a batch and the CLIP results of its images. *)
Definition analizuj_wsad (w : wyniki) (batch_danych : list (dane image_bytes))
    (wyniki_clip_wsadu : list ocena_clip) : wyniki :=
  foldl (λ w '(d, ocena), analizuj_wynik w d ocena) w
        (zip batch_danych wyniki_clip_wsadu).
End Analiza.
End Grupowanie.


(** ** [app4_koncowe.py]: the other methods of [ManifestApp]

    [fetch_manifest], [start_analysis], [show_summary] and [open_editor]
    write lines of their own to the log box; each is modelled with these
    lines returned beside what it does to [self].  [app4.py] has the same
    methods under the names [start_fetch_thread], [fetch_manifest_data],
    [start_analysis_thread], [finalize_analysis], [open_edit_window] and
    [toggle_all_off]. *)

Module Gui.
Import Py Koncowe.
Local Open Scope Z_scope.

Inductive line : Type :=
  | LineUrlEmpty
  | LineFetching (url : string)
  | LineNoPages
  | LinePagesFound (total_pages : Z)
  | LineFetchFailed
  | LineBadStart (total_pages : Z)
  | LineBadEnd (total_pages : Z)
  | LineStartAfterEnd
  | LineNotNumbers
  | LineSummaryHeader
  | LineSummaryNoCovers
  | LineSummaryCount (n : nat)
  | LineSummaryCover (id_text : string) (prob : Q)
  | LineSummaryDone.

(** [manifest.get('sequences', [{}])[0].get('canvases', [])] *)
Definition canvases_entry (m : gmap string json) : outcome json :=
  Json.bind (Json.getitem0 (default (JArr [JObj ∅]) (m !! "sequences")))
            (λ sequence, Json.get sequence "canvases" (JArr [])).

(** A list of decoded values as a list of dictionaries, when all are. *)
Definition as_canvases (l : list json) : option (list (gmap string json)) :=
  mapM (λ v, match v with JObj canvas => Some canvas | _ => None end) l.

Definition without_manifest (self : app) : app :=
  App (canvases self) (total_pages self) None
      (analysis_results self) (log_box self) (written self).

(** [fetch_manifest(self)]: [url_text] is what the URL entry holds and
    [response] the decoded body of the answer, [None] when the request, its
    status check or the decoding raises.  The result is [None] when the
    canvases entry of the manifest is not an array of dictionaries:
    [self.canvases] then holds a value [app] has no type for. *)
Definition fetch_manifest (url_text : string) (response : option json)
    (self : app) : option (app * list line) :=
  let url := strip url_text in
  if String.eqb url "" then Some (self, [LineUrlEmpty])
  else
    match response with
    | Some (JObj m) =>
        match canvases_entry m with
        | Ret (JArr l) =>
            match as_canvases l with
            | Some cs =>
                let total := Z.of_nat (length cs) in
                Some (App cs total (Some m)
                          (analysis_results self) (log_box self) (written self),
                      [LineFetching url;
                       if Z.eqb total 0 then LineNoPages else LinePagesFound total])
            | None => None
            end
        | Ret _ => None
        | Raise _ => Some (without_manifest self, [LineFetching url; LineFetchFailed])
        end
    | _ => Some (without_manifest self, [LineFetching url; LineFetchFailed])
    end.

(** [start_fetch(self)] *)
Definition start_fetch (url_text : string) (response : option json)
    (self : app) : option (app * list line) :=
  fetch_manifest url_text response
    (App (canvases self) (total_pages self) (manifest self) []
         (log_box self) (written self)).

(** The checks of [start_analysis]: [start_text] and [end_text] are what
    [int] makes of the two entries, [None] for a [ValueError]. *)
Definition checked_range (total_pages : Z) (start_text end_text : option Z)
    : list line + Z * Z :=
  match start_text with
  | None => inl [LineNotNumbers]
  | Some start_page =>
      match end_text with
      | None => inl [LineNotNumbers]
      | Some end_page =>
          if negb (bool_decide (1 ≤ start_page ≤ total_pages))
          then inl [LineBadStart total_pages]
          else if negb (bool_decide (1 ≤ end_page ≤ total_pages))
          then inl [LineBadEnd total_pages]
          else if bool_decide (start_page > end_page)
          then inl [LineStartAfterEnd]
          else inr (start_page, end_page)
      end
  end.

(** Stable sorting by page number ([covers.sort(key=lambda x: x['page_num'])]). *)
Fixpoint insert_by_page (p : page_data) (l : list page_data) : list page_data :=
  match l with
  | [] => [p]
  | q :: l' =>
      if decide (page_num p < page_num q) then p :: q :: l'
      else q :: insert_by_page p l'
  end.

Definition sort_by_page (l : list page_data) : list page_data :=
  foldl (λ sorted p, insert_by_page p sorted) [] l.

(** [show_summary(self)]: the lines it logs. *)
Definition show_summary (self : app) : list line :=
  let covers := filter (λ p, is_cover p = true) (analysis_results self) in
  [LineSummaryHeader]
  ++ match covers with
     | [] => [LineSummaryNoCovers]
     | _ =>
         LineSummaryCount (length covers)
         :: ((λ cover, LineSummaryCover (id_text cover) (prob cover))
               <$> sort_by_page covers)
     end
  ++ [LineSummaryDone].

(** [{p['page_num']: p for p in self.analysis_results}]: a later result
    replaces an earlier one of the same page. *)
Definition results_map (results : list page_data) : gmap Z page_data :=
  list_to_map ((λ p, (page_num p, p)) <$> reverse results).

(** [open_editor(self)]: the dictionary [check_vars] the window starts
    with, or [None] when there are no results and the window is not
    opened. *)
Definition open_editor (self : app) : option (gmap Z bool) :=
  match analysis_results self with
  | [] => None
  | results =>
      Some (list_to_map
              (imap (λ (i : nat) (_ : gmap string json),
                       let page_num := Z.of_nat i + 1 in
                       (page_num,
                        match results_map results !! page_num with
                        | Some result_data => is_cover result_data
                        | None => false
                        end))
                    (canvases self)))
  end.

(** [deselect_all()] *)
Definition deselect_all (check_vars : gmap Z bool) : gmap Z bool :=
  (λ _, false) <$> check_vars.

(** The user checks and unchecks boxes: the pages stay, the values change. *)
Definition edited (check_vars check_vars' : gmap Z bool) : Prop :=
  dom check_vars' = dom check_vars.

(** The pages of [self] are those of its manifest, when it has one. *)
Definition coherent (self : app) : Prop :=
  total_pages self = Z.of_nat (length (canvases self)) ∧
  ∀ m, manifest self = Some m →
       ∃ l, canvases_entry m = Ret (JArr l) ∧ as_canvases l = Some (canvases self).

Section Analysis.
Context {image_bytes : Type}.
Variable py_repr : json → string.
Variable requests_get : string → option image_bytes.
Variable clip_probs : image_bytes → option (list Q).

(** [start_analysis(self)] with the run of the thread it starts. *)
Definition start_analysis (start_text end_text : option Z) (self : app)
    : list line * (outcome unit * app) :=
  match checked_range (total_pages self) start_text end_text with
  | inl lines => (lines, (Ret (), self))
  | inr (start_page, end_page) =>
      ([], run_analysis py_repr requests_get clip_probs start_page end_page self)
  end.
End Analysis.
End Gui.

(** ** The OCR heuristic: [analizuj_strukture_tekstu_ocr]

    [ocr_and_clip.py] collects the heights with a loop and counts with a
    loop; [laion_grupowanie_zdjec.py] (and [laion_and_ocr!.py]) do both
    with comprehensions. *)

Module Ocr.
Import Py OcrClip.
Local Open Scope Z_scope.

(** The dictionary [pytesseract.image_to_data] returns: three lists read
    by index.  [conf] holds what [int] makes of each confidence, [None]
    standing for a [ValueError]. *)
Record ocr_data : Type := OcrData {
  text : list string;
  conf : list (option Z);
  height : list Z
}.

Definition MIN_LARGE_TEXT_HEIGHT_PIXELS : Z := 50.
Definition LARGE_TEXT_TO_NORMAL_RATIO : Q := 4.

(** [np.median] of a list that is not empty. *)
Definition median (l : list Z) : Q :=
  let sorted := merge_sort Z.le l in
  let n := length l in
  if Nat.even n
  then (inject_Z (sorted !!! (n / 2 - 1)%nat) + inject_Z (sorted !!! (n / 2)%nat)) / 2
  else inject_Z (sorted !!! (n / 2)%nat).

(** [h > MIN_LARGE_TEXT_HEIGHT_PIXELS or h > median_height * LARGE_TEXT_TO_NORMAL_RATIO] *)
Definition is_large (median_height : Q) (h : Z) : bool :=
  bool_decide (h > MIN_LARGE_TEXT_HEIGHT_PIXELS)
  || negb (Qle_bool (inject_Z h) (median_height * LARGE_TEXT_TO_NORMAL_RATIO)).

(** The loop [for i in range(n_boxes)] of [ocr_and_clip.py]; [None] when
    an index is out of range or [int] raises. *)
Fixpoint heights_loop (d : ocr_data) (indices : list nat) (all_heights : list Z)
    : option (list Z) :=
  match indices with
  | [] => Some all_heights
  | i :: indices' =>
      match conf d !! i with
      | Some (Some c) =>
          if bool_decide (c > 60) then
            match text d !! i with
            | Some t =>
                if String.eqb (strip t) "" then heights_loop d indices' all_heights
                else
                  match height d !! i with
                  | Some h => heights_loop d indices' (all_heights ++ [h])
                  | None => None
                  end
            | None => None
            end
          else heights_loop d indices' all_heights
      | _ => None
      end
  end.

(** The loop [for h in all_heights] that counts the large boxes. *)
Definition count_loop (median_height : Q) (all_heights : list Z) : nat :=
  foldl (λ large_text_count h,
           if is_large median_height h then S large_text_count else large_text_count)
        0%nat all_heights.

(** [analizuj_strukture_tekstu_ocr] of [ocr_and_clip.py], from the
    dictionary of the OCR engine on; [None] when the engine or the
    decoding of the image raises. *)
Definition analizuj_petla (data : option ocr_data) : analiza_ocr :=
  match data with
  | None => BladOcr
  | Some d =>
      match heights_loop d (seq 0 (length (text d))) [] with
      | None => BladOcr
      | Some [] => BrakTekstu
      | Some all_heights => AnalizaOcr (count_loop (median all_heights) all_heights)
      end
  end.

(** The comprehension
    [[height[i] for i, conf in enumerate(conf) if int(conf) > 60 and text[i].strip()]]. *)
Fixpoint heights_comprehension (d : ocr_data) (l : list (nat * option Z))
    : option (list Z) :=
  match l with
  | [] => Some []
  | (i, c) :: l' =>
      match c with
      | Some c =>
          if bool_decide (c > 60) then
            match text d !! i with
            | Some t =>
                if String.eqb (strip t) "" then heights_comprehension d l'
                else
                  match height d !! i with
                  | Some h => cons h <$> heights_comprehension d l'
                  | None => None
                  end
            | None => None
            end
          else heights_comprehension d l'
      | None => None
      end
  end.

(** [analizuj_strukture_tekstu_ocr] of [laion_grupowanie_zdjec.py]. *)
Definition analizuj_skladane (data : option ocr_data) : analiza_ocr :=
  match data with
  | None => BladOcr
  | Some d =>
      match heights_comprehension d (Koncowe.enumerate (conf d)) with
      | None => BladOcr
      | Some [] => BrakTekstu
      | Some all_heights =>
          AnalizaOcr (length (filter (λ h, is_large (median all_heights) h = true)
                                     all_heights))
      end
  end.
End Ocr.

(** ** [laion_grupowanie_zdjec.py]: the batch classifier and the loop over
       the canvases *)

Module Wsad.
Import Py OcrClip Grupowanie.
Local Open Scope Z_scope.

(** How [analizuj_manifest] ends: with its three lists, with an exception
    of the image service lookup, or with the exception of [Image.open] on
    bytes that are no image. *)
Inductive przebieg (A : Type) : Type :=
  | Koniec (a : A)
  | Wyjatek (e : exn)
  | NieObraz.
Arguments Koniec {A} a.
Arguments Wyjatek {A} e.
Arguments NieObraz {A}.

Section Analiza.
Context {image_bytes image : Type}.
Variable py_repr : json → string.
Variable requests_get : string → option image_bytes.
(** [Image.open(io.BytesIO(b))], [None] when it raises. *)
Variable image_open : image_bytes → option image.
(** The CLIP model on a batch: one softmax row per image, or [None] when
    the processor or the model raises. *)
Variable clip_probs_wsad : list image → option (list (list Q)).
Variable analizuj_strukture_tekstu_ocr : image_bytes → analiza_ocr.
Variable procent : Q → string.

(** [klasyfikuj_obraz_clip_wsadowo(images)] *)
Definition klasyfikuj_obraz_clip_wsadowo (images : list image) : list ocena_clip :=
  let bledy := replicate (length images) BladClip in
  match clip_probs_wsad images with
  | Some probs =>
      match mapM (λ i : nat,
                    prawdopodobienstwa_obrazu ← probs !! i;
                    najlepszy_indeks ← Koncowe.argmax prawdopodobienstwa_obrazu;
                    Some (OcenaClip najlepszy_indeks
                            (prawdopodobienstwa_obrazu !!! najlepszy_indeks)
                            (bool_decide (najlepszy_indeks = 0%nat))))
                 (seq 0 (length images)) with
      | Some wyniki => wyniki
      | None => bledy
      end
  | None => bledy
  end.

(** The block under [if len(batch_danych) == rozmiar_wsadu or ...]; [None]
    when [Image.open] raises. *)
Definition przetworz_wsad (w : wyniki) (batch_danych : list (dane image_bytes))
    : option wyniki :=
  obrazy_do_klasyfikacji ← mapM (λ d, image_open (dane_image_bytes d)) batch_danych;
  Some (analizuj_wsad py_repr analizuj_strukture_tekstu_ocr procent w batch_danych
          (klasyfikuj_obraz_clip_wsadowo obrazy_do_klasyfikacji)).

(** One turn of [for i, canvas in enumerate(canvases_do_analizy)] over
    the lists and the pending batch; [n] is [len(canvases_do_analizy)]. *)
Definition obrot (n : nat) (rozmiar_wsadu : Z)
    (st : wyniki * list (dane image_bytes)) (ic : nat * gmap string json)
    : przebieg (wyniki * list (dane image_bytes)) :=
  let label := default (JStr "[Brak etykiety]") (ic.2 !! "label") in
  match Json.image_service_id ic.2 with
  | Raise e => Wyjatek e
  | Ret image_service_url =>
      if Json.truthy image_service_url then
        match image_service_url with
        | JStr url =>
            let image_url := rstrip_slash url +:+ "/full/1200,/0/default.jpg" in
            let batch_danych :=
              match requests_get image_url with
              | Some content => st.2 ++ [Dane content label (Z.of_nat ic.1 + 1)]
              | None => st.2
              end in
            if bool_decide (Z.of_nat (length batch_danych) = rozmiar_wsadu)
               || bool_decide (Z.of_nat ic.1 = Z.of_nat n - 1)
            then
              match przetworz_wsad st.1 batch_danych with
              | Some w => Koniec (w, [])
              | None => NieObraz
              end
            else Koniec (st.1, batch_danych)
        | _ => Wyjatek AttributeError
        end
      else Koniec st
  end.

Fixpoint petla (n : nat) (rozmiar_wsadu : Z)
    (st : wyniki * list (dane image_bytes)) (l : list (nat * gmap string json))
    : przebieg (wyniki * list (dane image_bytes)) :=
  match l with
  | [] => Koniec st
  | ic :: l' =>
      match obrot n rozmiar_wsadu st ic with
      | Koniec st' => petla n rozmiar_wsadu st' l'
      | Wyjatek e => Wyjatek e
      | NieObraz => NieObraz
      end
  end.

(** [analizuj_manifest] from the decoded list of canvases on: the lists
    of the summary, [None] when it returns before the loop. *)
Definition analizuj_manifest (canvases : list (gmap string json))
    (limit_stron rozmiar_wsadu : Z) : przebieg (option wyniki) :=
  match canvases with
  | [] => Koniec None
  | _ =>
      let canvases_do_analizy := slice canvases 0 limit_stron in
      match petla (length canvases_do_analizy) rozmiar_wsadu (Wyniki [] [] [], [])
                  (Koncowe.enumerate canvases_do_analizy) with
      | Koniec st => Koniec (Some st.1)
      | Wyjatek e => Wyjatek e
      | NieObraz => NieObraz
      end
  end.
End Analiza.
End Wsad.

(** ** Reading the entries of [structures] back *)

Module Structures.
(** [entry['canvases']] of an entry of [structures]. *)
Definition canvases_of (entry : json) : list json :=
  match entry with
  | JObj m => match m !! "canvases" with Some (JArr l) => l | _ => [] end
  | _ => []
  end.

(** [entry['label']] of an entry of [structures]. *)
Definition label_of (entry : json) : option json :=
  match entry with JObj m => m !! "label" | _ => None end.
End Structures.

(** ** The three lists of the hybrid variants *)

Module Hybrid.
Import OcrClip.

(** After [n] pages of [ocr_and_clip.py]: the final list holds the pages
    of the CLIP list and those of the OCR list, in the order of the
    pages, and no other page. *)
Definition consistent (n : nat) (w : wyniki) : Prop :=
  wyniki_clip_okladki w `sublist_of` wyniki_koncowe_okladki w ∧
  wyniki_ocr_okladki w `sublist_of` wyniki_koncowe_okladki w ∧
  (∀ id, id ∈ wyniki_koncowe_okladki w →
         id ∈ wyniki_clip_okladki w ∨ id ∈ wyniki_ocr_okladki w) ∧
  (length (wyniki_koncowe_okladki w) ≤ n)%nat.
End Hybrid.

(** ** [laion_grupowanie_zdjec.py]: the loops page by page *)

Module Strona.
Import Py OcrClip Grupowanie.
Local Open Scope Z_scope.

(** The body of [for i in range(len(images))] of
    [klasyfikuj_obraz_clip_wsadowo] on the row of one image; an empty row
    makes [argmax] raise. *)
Definition ocena_wiersza (prawdopodobienstwa_obrazu : list Q) : ocena_clip :=
  match Koncowe.argmax prawdopodobienstwa_obrazu with
  | Some najlepszy_indeks =>
      OcenaClip najlepszy_indeks (prawdopodobienstwa_obrazu !!! najlepszy_indeks)
                (bool_decide (najlepszy_indeks = 0%nat))
  | None => BladClip
  end.

Section Analiza.
Context {image_bytes image : Type}.
Variable py_repr : json → string.
Variable requests_get : string → option image_bytes.
Variable analizuj_strukture_tekstu_ocr : image_bytes → analiza_ocr.
Variable procent : Q → string.
(** [Image.open] and the CLIP model where neither raises: the image of
    the bytes and the softmax row of an image. *)
Variable obraz : image_bytes → image.
Variable wiersz : image → list Q.

(** What a turn of [for i, canvas in enumerate(canvases_do_analizy)]
    appends to [batch_danych], if anything. *)
Definition pobierz (ic : nat * gmap string json) : option (dane image_bytes) :=
  let label := default (JStr "[Brak etykiety]") (ic.2 !! "label") in
  match Json.image_service_id ic.2 with
  | Ret (JStr url) =>
      if Json.truthy (JStr url) then
        match requests_get (rstrip_slash url +:+ "/full/1200,/0/default.jpg") with
        | Some content => Some (Dane content label (Z.of_nat ic.1 + 1))
        | None => None
        end
      else None
  | _ => None
  end.

(** A turn of [for j, dane in enumerate(batch_danych)] for an entry
    whose image has the row [wiersz]. *)
Definition analizuj_dane (w : wyniki) (d : dane image_bytes) : wyniki :=
  analizuj_wynik py_repr analizuj_strukture_tekstu_ocr procent w d
    (ocena_wiersza (wiersz (obraz (dane_image_bytes d)))).
End Analiza.
End Strona.

(** ** The widgets and the commands of the buttons

    [toggle_ui] ([set_ui_state] in [app4.py]) sets the state option of
    the widgets; a button runs its command only while its state is
    [NORMAL].  A command is taken together with the thread it starts, as
    one step.  The editor windows are not modal: each stays open with its
    own [check_vars] until it is saved from or closed. *)

Module Ui.
Import Py Koncowe Gui.
Local Open Scope Z_scope.

Inductive state : Type := NORMAL | DISABLED.

Record widgets : Type := Widgets {
  fetch_btn : state;
  analyze_btn : state;
  url_entry : state;
  start_entry : state;
  end_entry : state;
  edit_btn : state
}.

(** The options [__init__] creates the widgets with. *)
Definition initial : widgets :=
  Widgets NORMAL DISABLED NORMAL DISABLED DISABLED DISABLED.

(** [toggle_ui(self, state)] *)
Definition toggle_ui (st : state) (self : app) (w : widgets) : widgets :=
  let w := Widgets st st st st st (edit_btn w) in
  let w := Widgets (fetch_btn w) (analyze_btn w) (url_entry w)
                   (start_entry w) (end_entry w) DISABLED in
  let w :=
    match st, analysis_results self with
    | NORMAL, _ :: _ =>
        Widgets (fetch_btn w) (analyze_btn w) (url_entry w)
                (start_entry w) (end_entry w) NORMAL
    | _, _ => w
    end in
  match st with
  | NORMAL =>
      if Z.eqb (total_pages self) 0
      then Widgets (fetch_btn w) DISABLED (url_entry w) DISABLED DISABLED (edit_btn w)
      else w
  | DISABLED => w
  end.

(** The attributes of the application, its widgets, and the [check_vars]
    of the editor windows that are open. *)
Record window : Type := Window {
  attrs : app;
  ui : widgets;
  editors : list (gmap Z bool)
}.


Section Commands.
(** [run_analysis] of either variant. *)
Variable run_analysis : Z → Z → M unit.

(** What the user can do, and what it leads to. *)
Inductive step : window → window → Prop :=
  | click_fetch g url_text response self' lines :
      fetch_btn (ui g) = NORMAL →
      start_fetch url_text response (attrs g) = Some (self', lines) →
      step g (Window self'
                (toggle_ui NORMAL self' (toggle_ui DISABLED (attrs g) (ui g)))
                (editors g))
  | click_analyze_refused g start_text end_text lines :
      analyze_btn (ui g) = NORMAL →
      checked_range (total_pages (attrs g)) start_text end_text = inl lines →
      step g g
  | click_analyze g start_text end_text start_page end_page self' :
      analyze_btn (ui g) = NORMAL →
      checked_range (total_pages (attrs g)) start_text end_text
        = inr (start_page, end_page) →
      run_analysis start_page end_page (attrs g) = (Ret (), self') →
      step g (Window self'
                (toggle_ui NORMAL self' (toggle_ui DISABLED (attrs g) (ui g)))
                (editors g))
  | click_analyze_raises g start_text end_text start_page end_page e self' :
      analyze_btn (ui g) = NORMAL →
      checked_range (total_pages (attrs g)) start_text end_text
        = inr (start_page, end_page) →
      run_analysis start_page end_page (attrs g) = (Raise e, self') →
      step g (Window self' (toggle_ui DISABLED (attrs g) (ui g)) (editors g))
  | click_edit g check_vars :
      edit_btn (ui g) = NORMAL →
      open_editor (attrs g) = Some check_vars →
      step g (Window (attrs g) (ui g) (check_vars :: editors g))
  | click_edit_refused g :
      edit_btn (ui g) = NORMAL →
      open_editor (attrs g) = None →
      step g g
  | check_boxes g (i : nat) check_vars check_vars' :
      editors g !! i = Some check_vars →
      edited check_vars check_vars' →
      step g (Window (attrs g) (ui g) (<[i := check_vars']> (editors g)))
  | click_deselect_all g (i : nat) check_vars :
      editors g !! i = Some check_vars →
      step g (Window (attrs g) (ui g) (<[i := deselect_all check_vars]> (editors g)))
  | click_save g (i : nat) check_vars file_path write_ok :
      editors g !! i = Some check_vars →
      let out := save_manifest check_vars file_path write_ok (attrs g) in
      step g (Window out.2 (ui g)
                (match out.1 with
                 | Ret _ => delete i (editors g)
                 | Raise _ => editors g
                 end))
  | close_editor g (i : nat) :
      step g (Window (attrs g) (ui g) (delete i (editors g))).
End Commands.


Definition all_disabled : widgets :=
  Widgets DISABLED DISABLED DISABLED DISABLED DISABLED DISABLED.
End Ui.

(** * Properties *)

(** ** The model at work *)

Example slice_examples :
  Py.slice [1; 2; 3; 4; 5]%Z 1 3 = [2; 3]%Z ∧
  Py.slice [1; 2; 3; 4; 5]%Z 3 10 = [4; 5]%Z ∧
  Py.slice [1; 2; 3; 4; 5]%Z 2 0 = [] ∧
  Py.slice [1; 2; 3; 4; 5]%Z (-1) 5 = [5%Z] ∧
  Py.slice [1; 2; 3; 4; 5]%Z 1 (-1) = [2; 3; 4]%Z.
Proof. by split_and!. Qed.

Example strip_examples :
  Py.strip "  a b  " = "a b" ∧ Py.strip "   " = "" ∧ Py.strip "" = "" ∧
  Py.rstrip_slash "http://x/m//" = "http://x/m" ∧ Py.rstrip_slash "///" = "".
Proof. by split_and!. Qed.

Example checked_pages_example :
  Koncowe.checked_pages {[ 8%Z := true; 1%Z := true; 3%Z := false; 5%Z := true ]}
    = [1; 5; 8]%Z.
Proof. reflexivity. Qed.

Example argmax_examples :
  Koncowe.argmax [(1 # 10)%Q; (7 # 10)%Q; (2 # 10)%Q] = Some 1%nat ∧
  Koncowe.argmax [(4 # 10)%Q; (4 # 10)%Q; (2 # 10)%Q] = Some 0%nat ∧
  Koncowe.argmax [] = None.
Proof. by split_and!. Qed.

Example image_service_id_examples :
  Json.image_service_id
    {[ "images" := JArr [JObj {[ "resource" :=
          JObj {[ "service" := JObj {[ "@id" := JStr "http://img/1" ]} ]} ]}] ]}
    = Py.Ret (JStr "http://img/1") ∧
  Json.image_service_id {[ "label" := JStr "1" ]} = Py.Ret JNull ∧
  Json.image_service_id {[ "images" := JArr [] ]} = Py.Raise Py.IndexError ∧
  Json.image_service_id {[ "images" := JArr [JNull] ]} = Py.Raise Py.AttributeError.
Proof. by split_and!. Qed.

(** A manifest whose ['@id'] is a number: [strip] raises, the manifest
    stays as it was and nothing is written. *)
Example save_manifest_non_string_id :
  let m : gmap string json := {[ "@id" := JNum 7 ]} in
  let self := Koncowe.App [Koncowe.canvas_with_id "p1"] 1 (Some m) [] [] [] in
  let out := Koncowe.save_manifest {[ 1%Z := true ]} "manifest.json" true self in
  out.1 = Py.Raise Py.AttributeError ∧
  Koncowe.manifest out.2 = Some m ∧ Koncowe.written out.2 = [].
Proof. by split_and!. Qed.

(** Two pages in [ocr_and_clip.py]: on the first CLIP chooses the cover
    description and the OCR analysis fails, on the second CLIP chooses
    another description and the OCR analysis sees large text.  Only the
    second page is in the final list; the first is in none. *)
Example analizuj_manifest_example :
  let canvas (n : string) : gmap string json :=
    {[ "label" := JStr n;
       "images" := JArr [JObj {[ "resource" :=
          JObj {[ "service" := JObj {[ "@id" := JStr ("http://img/" +:+ n) ]} ]} ]}] ]} in
  let requests_get (url : string) : option nat :=
    if String.eqb url "http://img/1/full/1200,/0/default.jpg" then Some 1%nat
    else Some 2%nat in
  let clip_probs (content : nat) : option (list Q) :=
    if Nat.eqb content 1 then Some [(9 # 10)%Q; (1 # 10)%Q]
    else Some [(2 # 10)%Q; (8 # 10)%Q] in
  let ocr (content : nat) : OcrClip.analiza_ocr :=
    if Nat.eqb content 1 then OcrClip.BladOcr else OcrClip.AnalizaOcr 3 in
  OcrClip.analizuj_manifest (λ _, "?") requests_get clip_probs ocr
    [canvas "1"; canvas "2"] 5 =
  Py.Ret (Some (OcrClip.Wyniki
                  ["Strona 2 (Etykieta z manifestu: '2')"]
                  []
                  ["Strona 2 (Etykieta z manifestu: '2')"])).
Proof. reflexivity. Qed.

(** A batch of [laion_grupowanie_zdjec.py] with a CLIP cover without large
    text and a page on which CLIP failed. *)
Example analizuj_wsad_example :
  Grupowanie.analizuj_wsad (image_bytes := nat) (λ _, "?")
    (λ _, OcrClip.BrakTekstu) (λ _, " (90%)") (OcrClip.Wyniki [] [] [])
    [Grupowanie.Dane 1%nat (JStr "a") 1; Grupowanie.Dane 2%nat (JStr "b") 2]
    [OcrClip.OcenaClip 0 (9 # 10)%Q true; OcrClip.BladClip] =
  OcrClip.Wyniki ["Strona 1 (Etykieta: 'a')"]
                 ["Strona 1 (Etykieta: 'a') (90%)"] [].
Proof. reflexivity. Qed.

(** ** Slices *)

Section SliceFacts.
Context {A : Type}.
Implicit Types (l : list A) (a b : Z).
Local Open Scope Z_scope.

Lemma slice_index_nonneg (len i : Z) :
  0 ≤ len → 0 ≤ i → Py.slice_index len i = Z.min i len.
Proof. intros _ Hi. unfold Py.slice_index. case_decide; lia. Qed.

(** With bounds that are not negative, [l[a:b]] holds the elements at the
    indices from [a] up to [b], [b] left out. *)
Lemma slice_lookup l a b (j : nat) :
  0 ≤ a → 0 ≤ b →
  Py.slice l a b !! j =
    if decide (a + Z.of_nat j < b) then l !! Z.to_nat (a + Z.of_nat j) else None.
Proof.
  intros Ha Hb. unfold Py.slice.
  rewrite !slice_index_nonneg by lia.
  rewrite lookup_take, lookup_drop.
  set (len := Z.of_nat (length l)).
  destruct (Z.min_spec a len) as [[? ->]|[? ->]],
           (Z.min_spec b len) as [[? ->]|[? ->]];
    repeat case_decide; try lia;
    first [ f_equal; lia
          | done
          | apply lookup_ge_None_2; lia
          | symmetry; apply lookup_ge_None_2; lia ].
Qed.

Lemma slice_length l a b :
  0 ≤ a ≤ b → b ≤ Z.of_nat (length l) →
  Z.of_nat (length (Py.slice l a b)) = b - a.
Proof.
  intros Hab Hb. unfold Py.slice.
  rewrite !slice_index_nonneg by lia.
  rewrite length_take, length_drop. lia.
Qed.

(** With bounds that are not negative, a slice whose upper bound is not
    above its lower bound is empty. *)
Lemma slice_empty l a b : 0 ≤ b ≤ a → Py.slice l a b = [].
Proof.
  intros Hb. unfold Py.slice.
  rewrite !slice_index_nonneg by lia.
  replace (Z.to_nat _) with 0%nat by lia. done.
Qed.
(** For bounds in order, the slice is the usual prefix of a suffix. *)
Lemma slice_take_drop l a b :
  0 ≤ a ≤ b → Py.slice l a b = take (Z.to_nat (b - a)) (drop (Z.to_nat a) l).
Proof.
  intros Hab. apply list_eq. intros j.
  rewrite slice_lookup by lia. rewrite lookup_take, lookup_drop.
  replace (Z.to_nat a + j)%nat with (Z.to_nat (a + Z.of_nat j)) by lia.
  repeat case_decide; try done; lia.
Qed.

Lemma Forall_slice (P : A → Prop) l a b : Forall P l → Forall P (Py.slice l a b).
Proof. intros H. unfold Py.slice. by apply Forall_take, Forall_drop. Qed.

(** Dropping nothing: when [f] is defined on every element, [omap f] is
    [f] element by element. *)
Lemma omap_lookup_all {B : Type} (f : A → option B) l (j : nat) :
  Forall (λ x, is_Some (f x)) l → omap f l !! j = l !! j ≫= f.
Proof.
  intros H. revert j. induction H as [|x l [y Hy] _ IH]; intros j; [done|].
  simpl. rewrite Hy. destruct j as [|j]; simpl; [done|apply IH].
Qed.
Lemma filter_all (P : A → Prop) `{!∀ x, Decision (P x)} l :
  (∀ x, x ∈ l → P x) → filter P l = l.
Proof.
  induction l as [|x l IH]; intros Hall; [done|].
  rewrite filter_cons_True by (apply Hall; left).
  f_equal. apply IH. intros y Hy. apply Hall. by right.
Qed.
End SliceFacts.

(** ** Strictly ascending lists *)

Section Ascending.
Local Open Scope Z_scope.

Lemma ascending_lookup_lt (l : list Z) (i j : nat) (a b : Z) :
  Sorted Z.lt l → l !! i = Some a → l !! j = Some b → (i < j)%nat → a < b.
Proof.
  intros Hs%Sorted_StronglySorted; [|intros x y z; lia].
  revert i j. induction Hs as [|x l Hs IH Hall]; intros i j Hi Hj Hij; [done|].
  destruct j as [|j]; [lia|]. destruct i as [|i]; simplify_eq/=.
  - rewrite List.Forall_forall in Hall. apply Hall.
    apply list_elem_of_In. by eapply list_elem_of_lookup_2.
  - apply (IH i j); [done..|lia].
Qed.

(** Below any [p] from the first element on there is a last element. *)
Lemma ascending_floor (l : list Z) (c0 p : Z) :
  l !! 0%nat = Some c0 → c0 ≤ p →
  ∃ (i : nat) (c : Z), l !! i = Some c ∧ c ≤ p ∧
    ∀ c', l !! S i = Some c' → p < c'.
Proof.
  revert c0. induction l as [|x l IH]; intros c0 H0 Hp; simplify_eq/=.
  destruct l as [|y l].
  - exists 0%nat, c0. by split_and!.
  - destruct (decide (p < y)) as [Hlt|Hge].
    + exists 0%nat, c0. split_and!; [done..|]. intros c' ?. by simplify_eq/=.
    + destruct (IH y eq_refl ltac:(lia)) as (i & c & Hi & Hc & Hnext).
      exists (S i), c. by split_and!.
Qed.
End Ascending.

(** ** The ranges of [save_manifest] *)

Section RangeFacts.
Import Koncowe.
Local Open Scope Z_scope.
Variable cs : list (gmap string json).
Variable tp : Z.
Variable base : string.
Variable cp : list Z.

Lemma enumerate_snoc {A : Type} (l : list A) (x : A) :
  enumerate (l ++ [x]) = enumerate l ++ [(length l, x)].
Proof.
  unfold enumerate. rewrite imap_app. simpl. by rewrite Nat.add_0_r.
Qed.

Lemma generated_ranges_lookup (i : nat) :
  generated_ranges cs tp base cp !! i = range_at cs tp base cp i <$> cp !! i.
Proof. apply list_lookup_imap. Qed.

Lemma generated_ranges_length :
  length (generated_ranges cs tp base cp) = length cp.
Proof. apply length_imap. Qed.

Lemma generated_ranges_elem (r : range) :
  r ∈ generated_ranges cs tp base cp ↔
  ∃ (i : nat) (c : Z), cp !! i = Some c ∧ r = range_at cs tp base cp i c.
Proof.
  unfold generated_ranges. rewrite elem_of_lookup_imap.
  split; intros (i & c & H1 & H2); eauto.
Qed.

(** The end page by the next cover page, if any. *)
Lemma end_page_range_at (i : nat) (c : Z) :
  end_page (range_at cs tp base cp i c) =
    match cp !! S i with Some c' => c' - 1 | None => tp end.
Proof.
  unfold range_at. simpl. replace (i + 1)%nat with (S i) by lia.
  case_decide as Hlt.
  - destruct (lookup_lt_is_Some_2 cp (S i) Hlt) as [c' Hc'].
    by rewrite Hc', (list_lookup_total_correct _ _ _ Hc').
  - by rewrite lookup_ge_None_2 by lia.
Qed.

(** The loop appends, in order, the entries of the ranges that are not
    omitted. *)
Lemma build_structures_generated :
  build_structures cs tp base cp =
    structure_of <$> filter (λ r, omitted r = false) (generated_ranges cs tp base cp).
Proof.
  unfold build_structures, generated_ranges.
  generalize (range_at cs tp base cp). intros g.
  induction cp as [|c l IH] using rev_ind; [done|].
  rewrite enumerate_snoc, foldl_snoc, IH, imap_app, filter_app, fmap_app.
  simpl. rewrite Nat.add_0_r. unfold omitted at 2.
  destruct (range_canvas_ids (g (length l) c)) eqn:E.
  - rewrite filter_cons_False; [|by unfold omitted; rewrite E].
    by rewrite filter_nil, app_nil_r.
  - rewrite filter_cons_True; [|by unfold omitted; rewrite E]. done.
Qed.
End RangeFacts.

Section RangeBounds.
Import Koncowe.
Local Open Scope Z_scope.
Variable cs : list (gmap string json).
Variable tp : Z.
Variable base : string.
Variable cp : list Z.
Hypothesis ascending : Sorted Z.lt cp.
Hypothesis in_range : Forall (λ c, 1 ≤ c ≤ tp) cp.

Lemma cover_in_range (i : nat) (c : Z) : cp !! i = Some c → 1 ≤ c ≤ tp.
Proof.
  intros Hi. rewrite List.Forall_forall in in_range. apply in_range.
  apply list_elem_of_In. by eapply list_elem_of_lookup_2.
Qed.

(** A range starts at its cover page and does not end before it, nor
    after the last page. *)
Lemma range_at_bounds (i : nat) (c : Z) :
  cp !! i = Some c →
  start_page (range_at cs tp base cp i c) = c ∧
  c ≤ end_page (range_at cs tp base cp i c) ≤ tp.
Proof.
  intros Hi. split; [done|]. rewrite end_page_range_at.
  pose proof (cover_in_range _ _ Hi).
  destruct (cp !! S i) as [c'|] eqn:Hn; [|lia].
  pose proof (cover_in_range _ _ Hn).
  pose proof (ascending_lookup_lt cp i (S i) c c' ascending Hi Hn ltac:(lia)).
  lia.
Qed.
End RangeBounds.

(** C10. For a strictly ascending list of cover pages within
    [1 .. total_pages], every range the loop of [save_manifest] computes
    has [start_page <= end_page]: it starts at its cover page and covers at
    least that page.  Two adjacent cover pages give a range of one page, and
    so does a last cover page that is the last page. *)
Theorem C10_generated_range_not_inverted
    (cs : list (gmap string json)) (tp : Z) (base : string) (cp : list Z) :
  Sorted Z.lt cp → Forall (λ c, (1 ≤ c ≤ tp)%Z) cp →
  (∀ r, r ∈ Koncowe.generated_ranges cs tp base cp →
        (Koncowe.start_page r ≤ Koncowe.end_page r)%Z) ∧
  (∀ (i : nat) (c : Z), cp !! i = Some c →
     let r := Koncowe.range_at cs tp base cp i c in
     Koncowe.start_page r = c ∧
     (cp !! S i = Some (c + 1)%Z → Koncowe.end_page r = c) ∧
     (cp !! S i = None → c = tp → Koncowe.end_page r = tp)).
Proof.
  intros Hs Hr. split.
  - intros r (i & c & Hi & ->)%generated_ranges_elem.
    destruct (range_at_bounds cs tp base cp Hs Hr i c Hi) as [-> ?]. lia.
  - intros i c Hi r. subst r. split; [done|].
    rewrite end_page_range_at. split; intros ->; [lia|done].
Qed.

Lemma C10_generated_range_not_inverted_witness :
  (∀ r, r ∈ Koncowe.generated_ranges [] 3 "m" [1; 2; 3]%Z →
        (Koncowe.start_page r ≤ Koncowe.end_page r)%Z) ∧
  (∀ (i : nat) (c : Z), [1; 2; 3]%Z !! i = Some c →
     let r := Koncowe.range_at [] 3 "m" [1; 2; 3]%Z i c in
     Koncowe.start_page r = c ∧
     ([1; 2; 3]%Z !! S i = Some (c + 1)%Z → Koncowe.end_page r = c) ∧
     ([1; 2; 3]%Z !! S i = None → c = 3%Z → Koncowe.end_page r = 3%Z)).
Proof.
  apply (C10_generated_range_not_inverted [] 3 "m" [1; 2; 3]%Z).
  - repeat constructor; lia.
  - repeat constructor; lia.
Defined.

(** C2. For a non-empty strictly ascending list of cover pages within
    [1 .. total_pages], the intervals [start_page .. end_page] of the ranges
    the loop computes (before the ones without identifiers are left out)
    follow one another without a gap, are pairwise disjoint, and together
    hold exactly the pages from the first cover page to [total_pages]; a
    page before the first cover page is in no range. *)
Theorem C2_generated_ranges_tile
    (cs : list (gmap string json)) (tp : Z) (base : string) (cp : list Z) (c0 : Z) :
  Sorted Z.lt cp → Forall (λ c, (1 ≤ c ≤ tp)%Z) cp → cp !! 0%nat = Some c0 →
  let rs := Koncowe.generated_ranges cs tp base cp in
  let covers (r : Koncowe.range) (p : Z) :=
    (Koncowe.start_page r ≤ p ≤ Koncowe.end_page r)%Z in
  (∀ (i : nat) r r', rs !! i = Some r → rs !! S i = Some r' →
     (Koncowe.end_page r + 1)%Z = Koncowe.start_page r') ∧
  (∀ (i j : nat) r r' p, i ≠ j → rs !! i = Some r → rs !! j = Some r' →
     ¬ (covers r p ∧ covers r' p)) ∧
  (∀ p, (∃ r, r ∈ rs ∧ covers r p) ↔ (c0 ≤ p ≤ tp)%Z) ∧
  (∀ p r, (p < c0)%Z → r ∈ rs → ¬ covers r p).
Proof.
  intros Hs Hr H0 rs covers.
  assert (Hunion : ∀ p, (∃ r, r ∈ rs ∧ covers r p) ↔ (c0 ≤ p ≤ tp)%Z).
  { intros p. split.
    - intros (r & (i & c & Hi & ->)%generated_ranges_elem & Hp).
      unfold covers in Hp.
      destruct (range_at_bounds cs tp base cp Hs Hr i c Hi) as [Hst Hen].
      rewrite Hst in Hp. split; [|lia].
      destruct i as [|i]; [simplify_eq; lia|].
      pose proof (ascending_lookup_lt cp 0 (S i) c0 c Hs H0 Hi ltac:(lia)). lia.
    - intros [Hlo Hhi].
      destruct (ascending_floor cp c0 p H0 Hlo) as (i & c & Hi & Hc & Hnext).
      exists (Koncowe.range_at cs tp base cp i c). split.
      + apply generated_ranges_elem. eauto.
      + unfold covers. rewrite end_page_range_at. simpl. split; [done|].
        destruct (cp !! S i) as [c'|]; [|done].
        specialize (Hnext c' eq_refl). lia. }
  split_and!; [| |done|].
  - intros i r r'. unfold rs. rewrite !generated_ranges_lookup.
    intros Hi Hj.
    destruct (cp !! i) as [c|] eqn:Ei; [|done].
    destruct (cp !! S i) as [c'|] eqn:Ej; [|done].
    simpl in Hi, Hj. simplify_eq. rewrite end_page_range_at, Ej. simpl. lia.
  - assert (Hlt : ∀ (i j : nat) r r' p, (i < j)%nat →
              rs !! i = Some r → rs !! j = Some r' →
              ¬ (covers r p ∧ covers r' p)).
    { intros i j r r' p Hij. unfold rs. rewrite !generated_ranges_lookup.
      intros Hi Hj [Hp Hp']. unfold covers in *.
      destruct (cp !! i) as [c|] eqn:Ei; [|done].
      destruct (cp !! j) as [c'|] eqn:Ej; [|done].
      simpl in Hi, Hj. simplify_eq. rewrite end_page_range_at in Hp.
      simpl in Hp'.
      destruct (lookup_lt_is_Some_2 cp (S i)) as [d Ed].
      { apply lookup_lt_Some in Ej. lia. }
      rewrite Ed in Hp.
      destruct (decide (S i = j)) as [<-|Hne]; [simplify_eq; lia|].
      pose proof (ascending_lookup_lt cp (S i) j d c' Hs Ed Ej ltac:(lia)). lia. }
    intros i j r r' p Hne Hi Hj.
    destruct (decide (i < j)%nat); [by eapply Hlt|].
    intros [? ?]. eapply (Hlt j i r' r p); [lia|done..].
  - intros p r Hp Hin Hc. assert (c0 ≤ p ≤ tp)%Z; [|lia].
    apply Hunion. eauto.
Qed.

Lemma C2_generated_ranges_tile_witness :
  let rs := Koncowe.generated_ranges [] 10 "m" [3; 5; 8]%Z in
  let covers (r : Koncowe.range) (p : Z) :=
    (Koncowe.start_page r ≤ p ≤ Koncowe.end_page r)%Z in
  (∀ (i : nat) r r', rs !! i = Some r → rs !! S i = Some r' →
     (Koncowe.end_page r + 1)%Z = Koncowe.start_page r') ∧
  (∀ (i j : nat) r r' p, i ≠ j → rs !! i = Some r → rs !! j = Some r' →
     ¬ (covers r p ∧ covers r' p)) ∧
  (∀ p, (∃ r, r ∈ rs ∧ covers r p) ↔ (3 ≤ p ≤ 10)%Z) ∧
  (∀ p r, (p < 3)%Z → r ∈ rs → ¬ covers r p).
Proof.
  apply (C2_generated_ranges_tile [] 10 "m" [3; 5; 8]%Z 3).
  - repeat constructor; lia.
  - repeat constructor; lia.
  - reflexivity.
Defined.

Section RangeCanvases.
Import Koncowe.
Local Open Scope Z_scope.
Variable cs : list (gmap string json).
Variable tp : Z.
Variable base : string.
Variable cp : list Z.

(** The identifiers of a range are those of the canvases at the pages from
    [start_page] to [end_page] that have the key ['@id'], in page order. *)
Lemma range_canvas_ids_slice (i : nat) (c : Z) :
  range_canvas_ids (range_at cs tp base cp i c) =
    omap (λ canvas : gmap string json, canvas !! "@id")
         (Py.slice cs (c - 1) (end_page (range_at cs tp base cp i c))).
Proof. done. Qed.

Hypothesis ascending : Sorted Z.lt cp.
Hypothesis in_range : Forall (λ c, 1 ≤ c ≤ tp) cp.
Hypothesis all_pages : tp = Z.of_nat (length cs).

(** The canvas of the cover page is in the slice of its range. *)
Lemma cover_canvas_in_slice (i : nat) (c : Z) :
  cp !! i = Some c →
  ∃ canvas, cs !! Z.to_nat (c - 1) = Some canvas ∧
    canvas ∈ Py.slice cs (c - 1) (end_page (range_at cs tp base cp i c)).
Proof.
  intros Hi.
  destruct (range_at_bounds cs tp base cp ascending in_range i c Hi) as [_ Hen].
  pose proof (cover_in_range tp cp in_range i c Hi) as Hc.
  destruct (lookup_lt_is_Some_2 cs (Z.to_nat (c - 1))) as [canvas Hcanvas]; [lia|].
  exists canvas. split; [done|].
  apply list_elem_of_lookup. exists 0%nat.
  rewrite slice_lookup by lia. rewrite decide_True by lia.
  by rewrite Z.add_0_r.
Qed.

Hypothesis all_ids : Forall (λ canvas : gmap string json, is_Some (canvas !! "@id")) cs.

Lemma no_range_omitted (r : range) :
  r ∈ generated_ranges cs tp base cp → omitted r = false.
Proof.
  intros (i & c & Hi & ->)%generated_ranges_elem.
  destruct (cover_canvas_in_slice i c Hi) as (canvas & Hcanvas & Hin).
  rewrite List.Forall_forall in all_ids.
  destruct (all_ids canvas) as [v Hv].
  { apply list_elem_of_In. by eapply list_elem_of_lookup_2. }
  unfold omitted. rewrite range_canvas_ids_slice.
  assert (v ∈ omap (λ canvas : gmap string json, canvas !! "@id")
                (Py.slice cs (c - 1) (end_page (range_at cs tp base cp i c))))
    as Hvin by (apply list_elem_of_omap; eauto).
  destruct (omap _ _); [by apply elem_of_nil in Hvin|done].
Qed.

Lemma range_canvas_ids_all (i : nat) (c : Z) (j : nat) :
  cp !! i = Some c →
  let r := range_at cs tp base cp i c in
  range_canvas_ids r !! j =
    if decide (start_page r + Z.of_nat j ≤ end_page r)
    then cs !! Z.to_nat (start_page r - 1 + Z.of_nat j) ≫= (λ canvas, canvas !! "@id")
    else None.
Proof.
  intros Hi r.
  destruct (range_at_bounds cs tp base cp ascending in_range i c Hi) as [Hst Hen].
  pose proof (cover_in_range tp cp in_range i c Hi) as Hc.
  unfold r. rewrite range_canvas_ids_slice, Hst.
  rewrite omap_lookup_all by by apply Forall_slice.
  rewrite slice_lookup by lia.
  repeat case_decide; try done; lia.
Qed.
End RangeCanvases.

(** ** The entries of [structures], key by key *)

Section Entries.
Import Koncowe.
Local Open Scope Z_scope.
Variable cs : list (gmap string json).
Variable tp : Z.
Variable base : string.
Variable cp : list Z.

(** The dictionary appended for the cover page at position [i]. *)
Lemma structure_of_range_at (i : nat) (c : Z) :
  structure_of (range_at cs tp base cp i c) =
    JObj {[ "@id" := JStr (Py.rstrip_slash base +:+ "/range/r" +:+ pretty i);
            "@type" := JStr "sc:Range";
            "label" := JStr ("zakres od strony " +:+ pretty c);
            "canvases" :=
              JArr (omap (λ canvas : gmap string json, canvas !! "@id")
                      (Py.slice cs (c - 1)
                         (match cp !! S i with Some c' => c' - 1 | None => tp end))) ]}.
Proof.
  unfold structure_of. by rewrite range_canvas_ids_slice, end_page_range_at.
Qed.

Lemma fmap_filter_imap {A B C : Type} (f : B → C) (P : B → Prop)
    `{!∀ x, Decision (P x)} (g : nat → A → B) (l : list A) :
  f <$> filter P (imap g l) =
    omap id (imap (λ i x, if decide (P (g i x)) then Some (f (g i x)) else None) l).
Proof.
  revert g. induction l as [|x l IH]; intros g; [done|].
  simpl. rewrite filter_cons. case_decide; simpl; by rewrite IH.
Qed.

(** [structures], written out: one entry for each cover page whose pages
    have an identifier, in the order of the cover pages. *)
Lemma build_structures_entries :
  build_structures cs tp base cp =
    omap id
      (imap (λ (i : nat) (c : Z),
         let ids :=
           omap (λ canvas : gmap string json, canvas !! "@id")
             (Py.slice cs (c - 1)
                (match cp !! S i with Some c' => c' - 1 | None => tp end)) in
         match ids with
         | [] => None
         | _ =>
             Some (JObj {[ "@id" := JStr (Py.rstrip_slash base +:+ "/range/r" +:+ pretty i);
                           "@type" := JStr "sc:Range";
                           "label" := JStr ("zakres od strony " +:+ pretty c);
                           "canvases" := JArr ids ]})
         end) cp).
Proof.
  rewrite build_structures_generated. unfold generated_ranges.
  rewrite fmap_filter_imap. f_equal. apply imap_ext. intros i c _. simpl.
  rewrite structure_of_range_at. unfold omitted.
  rewrite range_canvas_ids_slice, end_page_range_at.
  by destruct (omap _ _).
Qed.
End Entries.

(** C1. For a strictly ascending list of cover pages within
    [1 .. total_pages], the loop of [save_manifest] computes one range per
    cover page, in the order of the cover pages; the range of the cover
    page at position [i] starts at that page and ends at
    [cover_pages[i+1] - 1] when there is a next cover page and at
    [total_pages] otherwise.  [structures] holds the entries of these
    ranges, those without identifiers left out (C5); when every page has an
    identifier none is left out: [structures] has one dictionary per cover
    page, in order, with the label of the cover page, the identifier with
    the position of the cover page, and under ['canvases'] the identifiers
    of the pages from the start to the end of the range, and no other.
    With ten pages [p1 .. p10] and the cover pages 1, 5 and 8 the three
    entries list the identifiers of the pages 1-4, 5-7 and 8-10. *)
Theorem C1_one_range_per_cover_page :
  (∀ (cs : list (gmap string json)) (tp : Z) (base : string) (cp : list Z),
     Sorted Z.lt cp → Forall (λ c, (1 ≤ c ≤ tp)%Z) cp →
     let rs := Koncowe.generated_ranges cs tp base cp in
     length rs = length cp ∧
     (∀ (i : nat) (c : Z), cp !! i = Some c →
        ∃ r, rs !! i = Some r ∧ Koncowe.start_page r = c ∧
             Koncowe.end_page r =
               match cp !! S i with Some c' => (c' - 1)%Z | None => tp end) ∧
     Koncowe.build_structures cs tp base cp =
       Koncowe.structure_of <$> filter (λ r, Koncowe.omitted r = false) rs ∧
     (tp = Z.of_nat (length cs) →
      Forall (λ canvas : gmap string json, is_Some (canvas !! "@id")) cs →
      Koncowe.build_structures cs tp base cp =
        imap (λ (i : nat) (c : Z),
                let end_page :=
                  match cp !! S i with Some c' => (c' - 1)%Z | None => tp end in
                JObj {[ "@id" := JStr (Py.rstrip_slash base +:+ "/range/r" +:+ pretty i);
                        "@type" := JStr "sc:Range";
                        "label" := JStr ("zakres od strony " +:+ pretty c);
                        "canvases" :=
                          JArr (omap (λ canvas : gmap string json, canvas !! "@id")
                                  (take (Z.to_nat (end_page - c + 1))
                                     (drop (Z.to_nat (c - 1)) cs))) ]})
             cp ∧
      Koncowe.build_structures cs tp base cp = Koncowe.structure_of <$> rs ∧
      (∀ (i : nat) (c : Z), cp !! i = Some c →
         let end_page :=
           match cp !! S i with Some c' => (c' - 1)%Z | None => tp end in
         let ids :=
           omap (λ canvas : gmap string json, canvas !! "@id")
             (take (Z.to_nat (end_page - c + 1)) (drop (Z.to_nat (c - 1)) cs)) in
         Z.of_nat (length ids) = (end_page - c + 1)%Z ∧
         ∀ (j : nat), (c + Z.of_nat j ≤ end_page)%Z →
           ∃ canvas, cs !! Z.to_nat (c - 1 + Z.of_nat j) = Some canvas ∧
             ids !! j = canvas !! "@id") ∧
      ∀ (r : Koncowe.range) (j : nat), r ∈ rs →
        Koncowe.range_canvas_ids r !! j =
          if decide (Koncowe.start_page r + Z.of_nat j ≤ Koncowe.end_page r)%Z
          then cs !! Z.to_nat (Koncowe.start_page r - 1 + Z.of_nat j)
                 ≫= (λ canvas, canvas !! "@id")
          else None)) ∧
  (∀ base : string,
     Koncowe.build_structures
       (Koncowe.canvas_with_id <$>
          ["p1"; "p2"; "p3"; "p4"; "p5"; "p6"; "p7"; "p8"; "p9"; "p10"])
       10 base [1; 5; 8]%Z =
     [ JObj {[ "@id" := JStr (Py.rstrip_slash base +:+ "/range/r0");
               "@type" := JStr "sc:Range";
               "label" := JStr "zakres od strony 1";
               "canvases" := JArr [JStr "p1"; JStr "p2"; JStr "p3"; JStr "p4"] ]};
       JObj {[ "@id" := JStr (Py.rstrip_slash base +:+ "/range/r1");
               "@type" := JStr "sc:Range";
               "label" := JStr "zakres od strony 5";
               "canvases" := JArr [JStr "p5"; JStr "p6"; JStr "p7"] ]};
       JObj {[ "@id" := JStr (Py.rstrip_slash base +:+ "/range/r2");
               "@type" := JStr "sc:Range";
               "label" := JStr "zakres od strony 8";
               "canvases" := JArr [JStr "p8"; JStr "p9"; JStr "p10"] ]} ]).
Proof.
  split.
  - intros cs tp base cp Hs Hr rs. split_and!.
    + apply generated_ranges_length.
    + intros i c Hi. exists (Koncowe.range_at cs tp base cp i c). split_and!.
      * unfold rs. by rewrite generated_ranges_lookup, Hi.
      * done.
      * apply end_page_range_at.
    + apply build_structures_generated.
    + intros Htp Hids.
      assert (Hall : Koncowe.build_structures cs tp base cp =
                Koncowe.structure_of <$> rs).
      { rewrite build_structures_generated. f_equal.
        apply filter_all. intros r Hin. by eapply no_range_omitted. }
      assert (Hbounds : ∀ (i : nat) (c : Z), cp !! i = Some c →
                (1 ≤ c)%Z ∧
                (c ≤ match cp !! S i with Some c' => c' - 1 | None => tp end ≤ tp)%Z).
      { intros i c Hi.
        destruct (range_at_bounds cs tp base cp Hs Hr i c Hi) as [_ Hen].
        rewrite end_page_range_at in Hen.
        pose proof (cover_in_range tp cp Hr i c Hi). lia. }
      split_and!.
      * rewrite Hall. unfold rs, Koncowe.generated_ranges.
        rewrite fmap_imap. apply imap_ext. intros i c Hi. simpl.
        destruct (Hbounds i c Hi) as [Hc Hen].
        rewrite structure_of_range_at, slice_take_drop by lia.
        do 8 f_equal. lia.
      * done.
      * intros i c Hi end_page ids.
        destruct (Hbounds i c Hi) as [Hc Hen]. fold end_page in Hen.
        assert (Hids' : ∀ j : nat,
                  ids !! j =
                    if decide (c + Z.of_nat j ≤ end_page)%Z
                    then cs !! Z.to_nat (c - 1 + Z.of_nat j)
                           ≫= (λ canvas, canvas !! "@id")
                    else None).
        { intros j. unfold ids.
          replace (Z.to_nat (end_page - c + 1)) with (Z.to_nat (end_page - (c - 1)))
            by lia.
          rewrite <- slice_take_drop by lia.
          rewrite omap_lookup_all by by apply Forall_slice.
          rewrite slice_lookup by lia.
          repeat case_decide; try done; lia. }
        split.
        -- assert (Hlen : ∀ n : nat, (n < length ids)%nat ↔ (c + Z.of_nat n ≤ end_page)%Z).
           { intros n. rewrite <- lookup_lt_is_Some, Hids'. case_decide.
             - split; [done|]. intros _.
               destruct (lookup_lt_is_Some_2 cs (Z.to_nat (c - 1 + Z.of_nat n)))
                 as [canvas Hcanvas]; [lia|].
               rewrite Hcanvas. simpl.
               rewrite List.Forall_forall in Hids. apply Hids.
               apply list_elem_of_In. by eapply list_elem_of_lookup_2.
             - split; [by intros []|done]. }
           destruct (decide (Z.of_nat (length ids) = end_page - c + 1)%Z); [done|].
           destruct (decide (Z.of_nat (length ids) < end_page - c + 1)%Z).
           ++ pose proof (proj2 (Hlen (length ids)) ltac:(lia)). lia.
           ++ pose proof (proj1 (Hlen (Z.to_nat (end_page - c + 1))) ltac:(lia)). lia.
        -- intros j Hj.
           destruct (lookup_lt_is_Some_2 cs (Z.to_nat (c - 1 + Z.of_nat j)))
             as [canvas Hcanvas]; [lia|].
           exists canvas. split; [done|].
           rewrite Hids', decide_True by done. by rewrite Hcanvas.
      * intros r j (i & c & Hi & ->)%generated_ranges_elem.
        by apply range_canvas_ids_all.
  - intros base. reflexivity.
Qed.

Lemma C1_one_range_per_cover_page_witness :
  let cs := Koncowe.canvas_with_id <$> ["a"; "b"; "c"] in
  let rs := Koncowe.generated_ranges cs 3 "m" [1; 3]%Z in
  length rs = 2%nat ∧
  Koncowe.build_structures cs 3 "m" [1; 3]%Z =
    [ JObj {[ "@id" := JStr "m/range/r0"; "@type" := JStr "sc:Range";
              "label" := JStr "zakres od strony 1";
              "canvases" := JArr [JStr "a"; JStr "b"] ]};
      JObj {[ "@id" := JStr "m/range/r1"; "@type" := JStr "sc:Range";
              "label" := JStr "zakres od strony 3";
              "canvases" := JArr [JStr "c"] ]} ].
Proof.
  intros cs rs.
  destruct (proj1 C1_one_range_per_cover_page cs 3%Z "m" [1; 3]%Z)
    as (Hlen & _ & _ & Hall).
  - repeat constructor; lia.
  - repeat constructor; lia.
  - split; [exact Hlen|].
    destruct Hall as (Hentries & _); [reflexivity| |].
    + repeat constructor; eexists; reflexivity.
    + rewrite Hentries. reflexivity.
Defined.

(** ** Omission and identifiers *)

Section Omission.
Import Koncowe.
Local Open Scope Z_scope.
Variable cs : list (gmap string json).
Variable tp : Z.
Variable base : string.
Variable cp : list Z.

Lemma structure_id_of (r : range) : structure_id (structure_of r) = Some (JStr (range_id r)).
Proof. unfold structure_id, structure_of. apply lookup_insert_eq. Qed.

(** The identifier of a range tells its position in [cover_pages]. *)
Lemma range_id_inj (i j : nat) (c d : Z) :
  range_id (range_at cs tp base cp i c) = range_id (range_at cs tp base cp j d) →
  i = j.
Proof.
  unfold range_at. simpl. intros H.
  apply String.app_inj, String.app_inj in H. by apply pretty_nat_inj in H.
Qed.

Lemma build_structures_elem (e : json) :
  e ∈ build_structures cs tp base cp ↔
  ∃ (i : nat) (c : Z), cp !! i = Some c ∧
    omitted (range_at cs tp base cp i c) = false ∧
    e = structure_of (range_at cs tp base cp i c).
Proof.
  rewrite build_structures_generated, list_elem_of_fmap. split.
  - intros (r & -> & [Hom (i & c & Hi & ->)%generated_ranges_elem]%list_elem_of_filter).
    eauto.
  - intros (i & c & Hi & Hom & ->). eexists. split; [done|].
    apply list_elem_of_filter. split; [done|].
    apply generated_ranges_elem. eauto.
Qed.
End Omission.

(** C5. Omission law.  A range whose list of identifiers is empty after
    the filtering contributes no entry to [structures]: no entry carries
    its identifier.  Every other range contributes its own dictionary, with
    the label of its cover page, its identifiers under ['canvases'], and
    under ['@id'] the index [i] that is the position of its cover page in
    [cover_pages]; [structures] is the list of these dictionaries in the
    order of the cover pages, and holds nothing else.  The start page, the
    end page, the label and the identifier of a range do not depend on
    which pages have identifiers, so no boundary shifts when a range is
    omitted: after an omission the indices of [structures] have a gap.
    With three pages, the second without identifier, and the cover pages
    1, 2 and 3, the entries are [r0] and [r2]. *)
Theorem C5_omission_law :
  (∀ (cs : list (gmap string json)) (tp : Z) (base : string) (cp : list Z)
     (i : nat) (c : Z),
     cp !! i = Some c →
     let r := Koncowe.range_at cs tp base cp i c in
     let structures := Koncowe.build_structures cs tp base cp in
     let ids (j : nat) (d : Z) : list json :=
       omap (λ canvas : gmap string json, canvas !! "@id")
         (Py.slice cs (d - 1)
            (match cp !! S j with Some d' => (d' - 1)%Z | None => tp end)) in
     let entry (j : nat) (d : Z) : json :=
       JObj {[ "@id" := JStr (Py.rstrip_slash base +:+ "/range/r" +:+ pretty j);
               "@type" := JStr "sc:Range";
               "label" := JStr ("zakres od strony " +:+ pretty d);
               "canvases" := JArr (ids j d) ]} in
     Koncowe.range_canvas_ids r = ids i c ∧
     (ids i c = [] →
        ∀ e, e ∈ structures →
          Koncowe.structure_id e ≠
            Some (JStr (Py.rstrip_slash base +:+ "/range/r" +:+ pretty i))) ∧
     (ids i c ≠ [] →
        entry i c ∈ structures ∧
        Koncowe.structure_id (entry i c) =
          Some (JStr (Py.rstrip_slash base +:+ "/range/r" +:+ pretty i)) ∧
        ∀ (j : nat) (d : Z), entry j d = entry i c → j = i) ∧
     (∀ e, e ∈ structures ↔
        ∃ (j : nat) (d : Z), cp !! j = Some d ∧ ids j d ≠ [] ∧ e = entry j d) ∧
     structures =
       omap id (imap (λ (j : nat) (d : Z),
                        match ids j d with [] => None | _ => Some (entry j d) end) cp) ∧
     structures =
       Koncowe.structure_of <$>
         filter (λ r, Koncowe.omitted r = false) (Koncowe.generated_ranges cs tp base cp) ∧
     Koncowe.range_id r = Py.rstrip_slash base +:+ "/range/r" +:+ pretty i ∧
     (∀ cs' : list (gmap string json),
        let r' := Koncowe.range_at cs' tp base cp i c in
        Koncowe.start_page r' = Koncowe.start_page r ∧
        Koncowe.end_page r' = Koncowe.end_page r ∧
        Koncowe.label r' = Koncowe.label r ∧
        Koncowe.range_id r' = Koncowe.range_id r)) ∧
  (∀ base : string,
     Koncowe.build_structures
       [Koncowe.canvas_with_id "p1"; Koncowe.canvas_without_id;
        Koncowe.canvas_with_id "p3"]
       3 base [1; 2; 3]%Z =
     [ JObj {[ "@id" := JStr (Py.rstrip_slash base +:+ "/range/r0");
               "@type" := JStr "sc:Range";
               "label" := JStr "zakres od strony 1";
               "canvases" := JArr [JStr "p1"] ]};
       JObj {[ "@id" := JStr (Py.rstrip_slash base +:+ "/range/r2");
               "@type" := JStr "sc:Range";
               "label" := JStr "zakres od strony 3";
               "canvases" := JArr [JStr "p3"] ]} ]).
Proof.
  split; [|intros base; reflexivity].
  intros cs tp base cp i c Hi r structures ids entry.
  assert (Hids : ∀ j d, Koncowe.range_canvas_ids (Koncowe.range_at cs tp base cp j d)
                        = ids j d).
  { intros j d. by rewrite range_canvas_ids_slice, end_page_range_at. }
  assert (Hentry : ∀ j d, Koncowe.structure_of (Koncowe.range_at cs tp base cp j d)
                          = entry j d).
  { intros j d. apply structure_of_range_at. }
  assert (Hid : ∀ j d, Koncowe.structure_id (entry j d) =
                  Some (JStr (Py.rstrip_slash base +:+ "/range/r" +:+ pretty j))).
  { intros j d. unfold Koncowe.structure_id, entry. apply lookup_insert_eq. }
  assert (Hinj : ∀ j d j' d', entry j d = entry j' d' → j = j').
  { intros j d j' d' Heq. apply (f_equal Koncowe.structure_id) in Heq.
    rewrite !Hid in Heq.
    apply (range_id_inj cs tp base cp j j' d d'). simpl. congruence. }
  assert (Helem : ∀ e, e ∈ structures ↔
            ∃ (j : nat) (d : Z), cp !! j = Some d ∧ ids j d ≠ [] ∧ e = entry j d).
  { intros e. unfold structures. rewrite build_structures_elem. split.
    - intros (j & d & Hj & Hom & ->). exists j, d. split_and!; [done| |done].
      unfold Koncowe.omitted in Hom. rewrite Hids in Hom. by destruct (ids j d).
    - intros (j & d & Hj & Hne & ->). exists j, d. split_and!; [done| |done].
      unfold Koncowe.omitted. rewrite Hids. by destruct (ids j d). }
  split_and!.
  - apply Hids.
  - intros Hempty e (j & d & Hj & Hne & ->)%Helem. rewrite Hid. intros Heq.
    assert (j = i) as ->.
    { apply (range_id_inj cs tp base cp j i d c). simpl. congruence. }
    by simplify_eq.
  - intros Hne. split_and!.
    + apply Helem. eauto.
    + apply Hid.
    + intros j d Heq. by eapply Hinj.
  - apply Helem.
  - apply build_structures_entries.
  - apply build_structures_generated.
  - done.
  - done.
Qed.

Lemma C5_omission_law_witness :
  let cs := [Koncowe.canvas_with_id "p1"; Koncowe.canvas_without_id;
             Koncowe.canvas_with_id "p3"] in
  let structures := Koncowe.build_structures cs 3 "m" [1; 2; 3]%Z in
  (∀ e, e ∈ structures → Koncowe.structure_id e ≠ Some (JStr "m/range/r1")) ∧
  JObj {[ "@id" := JStr "m/range/r2"; "@type" := JStr "sc:Range";
          "label" := JStr "zakres od strony 3";
          "canvases" := JArr [JStr "p3"] ]} ∈ structures.
Proof.
  intros cs structures. split.
  - apply (proj1 C5_omission_law cs 3%Z "m" [1; 2; 3]%Z 1%nat 2%Z); reflexivity.
  - destruct (proj1 C5_omission_law cs 3%Z "m" [1; 2; 3]%Z 2%nat 3%Z eq_refl)
      as (_ & _ & Hkept & _).
    destruct Hkept as [Hin _]; [vm_compute; discriminate|exact Hin].
Defined.

(** C6 as stated fails: a page whose ['@id'] is the empty string, or
    [null], has no non-empty identifier and is kept all the same, the test
    being ['@id' in c]. *)
Lemma C6_empty_identifier_is_kept :
  Koncowe.build_structures
    [Koncowe.canvas_with_id ""; {[ "@id" := JNull ]}] 2 "http://x" [1%Z] =
  [ Koncowe.structure_of
      (Koncowe.Range 1 2 "zakres od strony 1" "http://x/range/r0"
         [JStr ""; JNull]) ] ∧
  Json.truthy (JStr "") = false ∧ Json.truthy JNull = false.
Proof. split_and!; reflexivity. Qed.

(** C6, amended.  The identifiers of a computed range are the values of
    ['@id'] of the canvases at the pages from [start_page] to [end_page]
    (1-based, both included) that have the key ['@id'], whatever its value,
    in page order; the canvases without the key are dropped, and the start
    and the end of the range do not depend on which canvases have it.  With
    six pages, identifiers on the pages 3 and 4 only, and the cover page 3,
    the one entry spans the pages 3-6 and lists [p3] and [p4]. *)
Theorem C6_canvases_with_id_key :
  (∀ (cs : list (gmap string json)) (tp : Z) (base : string) (cp : list Z)
     (i : nat) (c : Z),
     Sorted Z.lt cp → Forall (λ c, (1 ≤ c ≤ tp)%Z) cp → cp !! i = Some c →
     let r := Koncowe.range_at cs tp base cp i c in
     let first := Z.to_nat (Koncowe.start_page r - 1) in
     let count := Z.to_nat (Koncowe.end_page r - Koncowe.start_page r + 1) in
     Koncowe.range_canvas_ids r =
       omap (λ canvas : gmap string json, canvas !! "@id")
            (take count (drop first cs)) ∧
     (∀ v, v ∈ Koncowe.range_canvas_ids r ↔
        ∃ (p : Z) (canvas : gmap string json),
          (Koncowe.start_page r ≤ p ≤ Koncowe.end_page r)%Z ∧
          cs !! Z.to_nat (p - 1) = Some canvas ∧ canvas !! "@id" = Some v) ∧
     (∀ cs' : list (gmap string json),
        let r' := Koncowe.range_at cs' tp base cp i c in
        Koncowe.start_page r' = Koncowe.start_page r ∧
        Koncowe.end_page r' = Koncowe.end_page r)) ∧
  (∀ base : string,
     Koncowe.build_structures
       [Koncowe.canvas_without_id; Koncowe.canvas_without_id;
        Koncowe.canvas_with_id "p3"; Koncowe.canvas_with_id "p4";
        Koncowe.canvas_without_id; Koncowe.canvas_without_id]
       6 base [3%Z] =
     [ Koncowe.structure_of
         (Koncowe.Range 3 6 "zakres od strony 3"
            (Py.rstrip_slash base +:+ "/range/r0") [JStr "p3"; JStr "p4"]) ]).
Proof.
  split; [|intros base; reflexivity].
  intros cs tp base cp i c Hs Hr Hi r first count.
  destruct (range_at_bounds cs tp base cp Hs Hr i c Hi) as [Hst Hen].
  pose proof (cover_in_range tp cp Hr i c Hi) as Hc.
  fold r in Hst, Hen.
  assert (Hslice : Koncowe.range_canvas_ids r =
            omap (λ canvas : gmap string json, canvas !! "@id")
                 (take count (drop first cs))).
  { unfold r. rewrite range_canvas_ids_slice. fold r.
    rewrite slice_take_drop by lia. unfold count, first. rewrite Hst.
    do 3 f_equal. lia. }
  split_and!; [done| |done].
  intros v. unfold r at 1. rewrite range_canvas_ids_slice. fold r.
  rewrite list_elem_of_omap. split.
  - intros (canvas & [j Hj]%list_elem_of_lookup & Hv).
    rewrite slice_lookup in Hj by lia. case_decide; [|done].
    exists (c + Z.of_nat j)%Z, canvas. split_and!; [lia..| |done].
    rewrite <- Hj. f_equal. lia.
  - intros (p & canvas & Hp & Hcanvas & Hv). exists canvas. split; [|done].
    apply list_elem_of_lookup. exists (Z.to_nat (p - c)).
    rewrite slice_lookup by lia. rewrite decide_True by lia.
    rewrite <- Hcanvas. f_equal. lia.
Qed.

Lemma C6_canvases_with_id_key_witness :
  let cs := [Koncowe.canvas_with_id "p1"; Koncowe.canvas_without_id] in
  let r := Koncowe.range_at cs 2 "m" [1%Z] 0 1 in
  Koncowe.range_canvas_ids r =
    omap (λ canvas : gmap string json, canvas !! "@id") (take 2 (drop 0 cs)).
Proof.
  intros cs r.
  apply (proj1 C6_canvases_with_id_key cs 2%Z "m" [1%Z] 0%nat 1%Z).
  - repeat constructor.
  - repeat constructor; lia.
  - reflexivity.
Defined.

(** ** Strings *)



Section StripFacts.
Variable p : ascii → bool.



Lemma lstrip_all (s : string) :
  Py.lstrip p s = EmptyString ↔ Forall (λ c, p c = true) (list_ascii_of_string s).
Proof.
  induction s as [|a s IH]; simpl; [by split|].
  destruct (p a) eqn:Ea.
  - rewrite IH. split; [by constructor|by inversion 1].
  - split; [done|]. inversion 1; congruence.
Qed.

Lemma rstrip_empty (s : string) :
  Py.rstrip p s = EmptyString ↔ Forall (λ c, p c = true) (list_ascii_of_string s).
Proof.
  induction s as [|a s IH]; simpl; [by split|].
  destruct (Py.rstrip p s) as [|b r] eqn:E.
  - destruct (p a) eqn:Ea.
    + split; [|done]. intros _. constructor; [done|]. by apply IH.
    + split; [done|]. inversion 1; congruence.
  - split; [done|]. inversion 1 as [|?? _ Hs]. by apply IH in Hs.
Qed.

(** Stripping on the left leaves nothing that [rstrip] would empty, unless
    everything is stripped. *)
Lemma rstrip_lstrip_empty (s : string) :
  Py.rstrip p (Py.lstrip p s) = EmptyString → Py.lstrip p s = EmptyString.
Proof.
  induction s as [|a s IH]; simpl; [done|].
  destruct (p a) eqn:Ea; [done|]. simpl.
  destruct (Py.rstrip p s); [by rewrite Ea|done].
Qed.
End StripFacts.

(** A base identifier is blank for [strip] exactly when all its
    characters are white space. *)
Lemma strip_blank (s : string) :
  Py.strip s = EmptyString ↔
  Forall (λ c, Py.isspace c = true) (list_ascii_of_string s).
Proof.
  unfold Py.strip. split.
  - intros H. by apply lstrip_all, rstrip_lstrip_empty.
  - intros H. apply lstrip_all in H. by rewrite H.
Qed.

(** ** The checked pages *)

Lemma Sorted_le_NoDup_lt (l : list Z) :
  Sorted Z.le l → NoDup l → Sorted Z.lt l.
Proof.
  intros Hs%Sorted_StronglySorted; [|intros x y z; lia].
  induction Hs as [|x l Hs IH Hall]; intros Hnd; [constructor|].
  apply NoDup_cons in Hnd as [Hx Hnd]. constructor; [by apply IH|].
  destruct l as [|y l]; constructor.
  apply Forall_cons in Hall as [Hxy _].
  assert (x ≠ y) by (intros ->; apply Hx; left). lia.
Qed.

Lemma Sorted_lt_NoDup (l : list Z) : Sorted Z.lt l → NoDup l.
Proof.
  intros Hs%Sorted_StronglySorted; [|intros x y z; lia].
  induction Hs as [|x l Hs IH Hall]; constructor; [|done].
  intros Hx. rewrite List.Forall_forall in Hall.
  apply list_elem_of_In, Hall in Hx. lia.
Qed.

(** A strictly ascending list is determined by its elements. *)
Lemma Sorted_lt_unique (l k : list Z) :
  Sorted Z.lt l → Sorted Z.lt k → (∀ p, p ∈ l ↔ p ∈ k) → l = k.
Proof.
  intros Hl Hk Hlk.
  apply (Sorted_unique_strong Z.lt); [intros; lia|done..|].
  apply NoDup_Permutation; [by apply Sorted_lt_NoDup..|done].
Qed.

(** [cover_pages] of [save_manifest] is strictly ascending and holds the
    page numbers whose box is checked. *)
Lemma checked_pages_spec (check_vars : gmap Z bool) :
  Sorted Z.lt (Koncowe.checked_pages check_vars) ∧
  ∀ p, p ∈ Koncowe.checked_pages check_vars ↔ check_vars !! p = Some true.
Proof.
  unfold Koncowe.checked_pages. split.
  - apply Sorted_le_NoDup_lt.
    + apply Sorted_merge_sort. intros x y. lia.
    + rewrite merge_sort_Permutation.
      eapply sublist_NoDup; [apply (NoDup_fst_map_to_list check_vars)|].
      apply fmap_sublist, sublist_filter.
  - intros p. rewrite merge_sort_Permutation, list_elem_of_fmap. split.
    + intros ([k b] & -> & [Hb Hin]%list_elem_of_filter). simpl in *. subst b.
      by apply elem_of_map_to_list in Hin.
    + intros Hp. exists (p, true). split; [done|].
      apply list_elem_of_filter. split; [done|]. by apply elem_of_map_to_list.
Qed.

(** ** Saving *)

Section SaveFacts.
Import Py Koncowe.

Ltac run_M :=
  unfold save_manifest, update_structures, write_manifest, effective_base_id,
    this, log, set_manifest, dump, raise, mbind, M_bind, mret, M_ret;
  simpl.

(** [update_structures] without covers: the key is removed. *)
Lemma update_structures_no_covers m cv self :
  checked_pages cv = [] →
  update_structures m cv self =
    (Ret (), App (canvases self) (total_pages self) (Some (delete "structures" m))
                 (analysis_results self) (log_box self ++ [LogNoCovers])
                 (written self)).
Proof. intros H. run_M. by rewrite H. Qed.

(** [update_structures] with covers and a usable ['@id']: the key is set
    to the new list. *)
Lemma update_structures_covers m cv self :
  checked_pages cv ≠ [] → id_is_string m →
  ∃ lines,
    update_structures m cv self =
      (Ret (), App (canvases self) (total_pages self)
                   (Some (<["structures" :=
                              JArr (build_structures (canvases self) (total_pages self)
                                      (base_id_of m) (checked_pages cv))]> m))
                   (analysis_results self) (log_box self ++ lines)
                   (written self)) ∧
    (LogDefaultIdWarning ∈ lines ↔
       ∃ b, m !! "@id" = Some (JStr b) ∧ strip b = EmptyString).
Proof.
  intros Hne Hid. run_M. unfold base_id_of.
  destruct (checked_pages cv) as [|c cp] eqn:Ecp; [done|].
  destruct Hid as [Hid|[b Hid]]; rewrite Hid; simpl.
  - eexists [_; _; _]. rewrite <- !app_assoc. split; [done|].
    split; [|by intros (? & ? & _)].
    intros H. repeat (apply elem_of_cons in H as [H|H]; [done|]).
    by apply elem_of_nil in H.
  - destruct (String.eqb (strip b) "") eqn:Eb; simpl.
    + apply String.eqb_eq in Eb.
      eexists [_; _; _; _]. rewrite <- !app_assoc. split; [done|].
      split; [by eauto|]. intros _. do 2 right. left.
    + apply String.eqb_neq in Eb.
      eexists [_; _; _]. rewrite <- !app_assoc. split; [done|].
      split; [|intros (? & ? & ?); by simplify_eq].
      intros H. repeat (apply elem_of_cons in H as [H|H]; [done|]).
      by apply elem_of_nil in H.
Qed.

(** [update_structures] with covers and an ['@id'] that is no string:
    [strip] raises before the manifest is touched. *)
Lemma update_structures_raises m cv self :
  checked_pages cv ≠ [] → ¬ id_is_string m →
  ∃ lines,
    update_structures m cv self =
      (Raise AttributeError,
       App (canvases self) (total_pages self) (manifest self)
           (analysis_results self) (log_box self ++ lines) (written self)).
Proof.
  intros Hne Hid. run_M.
  destruct (checked_pages cv) as [|c cp] eqn:Ecp; [done|].
  destruct (m !! "@id") as [v|] eqn:Ev; [|by destruct Hid; left].
  destruct v; simpl;
    try (eexists [_; _]; by rewrite <- !app_assoc).
  destruct Hid. right. eauto.
Qed.

Lemma write_manifest_run fp ok self :
  ∃ lines,
    write_manifest fp ok self =
      (Ret (), App (canvases self) (total_pages self) (manifest self)
                   (analysis_results self) (log_box self ++ lines)
                   (written self ++
                      if String.eqb fp "" then []
                      else if ok then [(fp, default ∅ (manifest self))] else [])) ∧
    LogDefaultIdWarning ∉ lines.
Proof.
  run_M. destruct (String.eqb fp ""); [|destruct ok]; simpl;
    rewrite ?app_nil_r; eexists [_];
    (split; [done|by intros ?%list_elem_of_singleton]).
Qed.
Lemma save_manifest_unfold cv fp ok self m :
  manifest self = Some m → m ≠ ∅ →
  save_manifest cv fp ok self =
    match update_structures m cv self with
    | (Ret _, self') => write_manifest fp ok self'
    | (Raise e, self') => (Raise e, self')
    end.
Proof.
  intros Hm Hne. unfold save_manifest, mbind, M_bind, this at 1. simpl.
  rewrite Hm, bool_decide_false by done. reflexivity.
Qed.

(** Nothing to save: only the log changes. *)
Lemma save_manifest_falsy cv fp ok self :
  manifest self = None ∨ manifest self = Some ∅ →
  save_manifest cv fp ok self =
    (Ret (), App (canvases self) (total_pages self) (manifest self)
                 (analysis_results self) (log_box self ++ [LogNoManifest])
                 (written self)).
Proof.
  destruct self as [cs tp mf ar lg wr]. simpl.
  intros [->| ->]; unfold save_manifest, mbind, M_bind, this at 1; simpl.
  - done.
  - by rewrite bool_decide_true.
Qed.

(** The run to the end. *)
Lemma save_manifest_returns cv fp ok self m :
  manifest self = Some m → m ≠ ∅ →
  checked_pages cv = [] ∨ id_is_string m →
  let m' := saved_manifest (canvases self) (total_pages self) cv m in
  ∃ lines,
    save_manifest cv fp ok self =
      (Ret (), App (canvases self) (total_pages self) (Some m')
                   (analysis_results self) (log_box self ++ lines)
                   (written self ++
                      if String.eqb fp "" then []
                      else if ok then [(fp, m')] else [])) ∧
    (LogDefaultIdWarning ∈ lines ↔
       checked_pages cv ≠ [] ∧
       ∃ b, m !! "@id" = Some (JStr b) ∧ strip b = EmptyString).
Proof.
  intros Hm Hne Hcase m'. rewrite (save_manifest_unfold _ _ _ _ m) by done.
  destruct (decide (checked_pages cv = [])) as [Hcp|Hcp].
  - rewrite update_structures_no_covers by done.
    destruct (write_manifest_run fp ok
                (App (canvases self) (total_pages self) (Some (delete "structures" m))
                     (analysis_results self) (log_box self ++ [LogNoCovers])
                     (written self))) as (lines & -> & Hw).
    simpl. exists (LogNoCovers :: lines). rewrite <- app_assoc.
    unfold m', saved_manifest. rewrite Hcp. split; [done|].
    split; [|by intros [? _]].
    intros [?|?]%elem_of_cons; done.
  - destruct Hcase as [?|Hid]; [done|].
    destruct (update_structures_covers m cv self Hcp Hid) as (l1 & -> & Hl1).
    match goal with |- context [write_manifest fp ok ?s] =>
      destruct (write_manifest_run fp ok s) as (l2 & -> & Hl2) end.
    simpl. exists (l1 ++ l2). rewrite <- app_assoc.
    unfold m', saved_manifest.
    destruct (checked_pages cv) as [|c cp] eqn:Ecp; [done|]. split; [done|].
    rewrite elem_of_app, Hl1. split; [intros [?|?]; [done|done]|].
    intros [_ ?]. by left.
Qed.

(** The run that raises. *)
Lemma save_manifest_raises cv fp ok self m :
  manifest self = Some m → m ≠ ∅ →
  checked_pages cv ≠ [] → ¬ id_is_string m →
  ∃ lines,
    save_manifest cv fp ok self =
      (Raise AttributeError,
       App (canvases self) (total_pages self) (manifest self)
           (analysis_results self) (log_box self ++ lines) (written self)).
Proof.
  intros Hm Hne Hcp Hid. rewrite (save_manifest_unfold _ _ _ _ m) by done.
  destruct (update_structures_raises m cv self Hcp Hid) as (lines & ->).
  by exists lines.
Qed.
End SaveFacts.

Lemma id_is_string_dec (m : gmap string json) :
  Koncowe.id_is_string m ∨ ¬ Koncowe.id_is_string m.
Proof.
  unfold Koncowe.id_is_string.
  destruct (m !! "@id") as [[]|]; eauto; right; intros [?|[? ?]]; done.
Qed.

Lemma saved_manifest_other_keys cs tp cv (m : gmap string json) (k : string) :
  k ≠ "structures" → Koncowe.saved_manifest cs tp cv m !! k = m !! k.
Proof.
  intros Hk. unfold Koncowe.saved_manifest.
  destruct (Koncowe.checked_pages cv).
  - by rewrite lookup_delete_ne.
  - by rewrite lookup_insert_ne.
Qed.

(** C7. Saving changes the manifest at the key ['structures'] only: every
    other key keeps its value, and the canvases and the page count stay.
    When the save runs to its end on a manifest that is not empty: if some
    box is checked, the key holds the list generated from the checked page
    numbers in ascending order, each once, with the ['@id'] of the manifest
    as base identifier (the default one when it is absent or blank); if no
    box is checked, the key is absent, whether or not it was there before
    (it is not set to an empty array); the document written to the file is
    this manifest.  When the save raises, the manifest stays as it was and
    nothing is written. *)
Theorem C7_save_rewrites_only_structures
    (cv : gmap Z bool) (fp : string) (ok : bool) (self self' : Koncowe.app)
    (m : gmap string json) (o : Py.outcome ()) :
  Koncowe.manifest self = Some m →
  Koncowe.save_manifest cv fp ok self = (o, self') →
  Koncowe.canvases self' = Koncowe.canvases self ∧
  Koncowe.total_pages self' = Koncowe.total_pages self ∧
  ∃ m', Koncowe.manifest self' = Some m' ∧
    (∀ k, k ≠ "structures" → m' !! k = m !! k) ∧
    (Py.raised o = true → m' = m ∧ Koncowe.written self' = Koncowe.written self) ∧
    (o = Py.Ret () → m ≠ ∅ →
       ((∀ p, cv !! p ≠ Some true) → m' !! "structures" = None) ∧
       ((∃ p, cv !! p = Some true) →
          ∃ (cover_pages : list Z) (base_id : string),
            Sorted Z.lt cover_pages ∧
            (∀ p, p ∈ cover_pages ↔ cv !! p = Some true) ∧
            base_id =
              match m !! "@id" with
              | Some (JStr b) =>
                  if String.eqb (Py.strip b) "" then "http://example.com/manifest" else b
              | _ => "http://example.com/manifest"
              end ∧
            m' !! "structures" =
              Some (JArr (Koncowe.build_structures (Koncowe.canvases self)
                            (Koncowe.total_pages self) base_id cover_pages))) ∧
       Koncowe.written self' =
         Koncowe.written self ++
           if String.eqb fp "" then [] else if ok then [(fp, m')] else []).
Proof.
  intros Hm Hrun.
  destruct (checked_pages_spec cv) as [Hsorted Hin].
  assert (Hnone : (∀ p, cv !! p ≠ Some true) → Koncowe.checked_pages cv = []).
  { intros Hno. destruct (Koncowe.checked_pages cv) as [|c cp] eqn:E; [done|].
    destruct (Hno c). apply Hin. left. }
  assert (Hsome : (∃ p, cv !! p = Some true) → Koncowe.checked_pages cv ≠ []).
  { intros [p Hp%Hin] E. rewrite E in Hp. by apply elem_of_nil in Hp. }
  destruct (decide (m = ∅)) as [->|Hne].
  { rewrite save_manifest_falsy in Hrun by eauto. simplify_eq. simpl.
    split_and!; [done..|]. exists ∅. by split_and!. }
  destruct (decide (Koncowe.checked_pages cv = [])) as [Hcp|Hcp];
    [|destruct (id_is_string_dec m) as [Hid|Hid]].
  - destruct (save_manifest_returns cv fp ok self m Hm Hne (or_introl Hcp))
      as (lines & Hsave & _).
    rewrite Hsave in Hrun. simplify_eq. simpl. split_and!; [done..|].
    eexists. split_and!; [done|by intros; apply saved_manifest_other_keys|done|].
    intros _ _. split_and!; [| |done].
    + intros _. unfold Koncowe.saved_manifest. rewrite Hcp. apply lookup_delete_eq.
    + intros Hp%Hsome. done.
  - destruct (save_manifest_returns cv fp ok self m Hm Hne (or_intror Hid))
      as (lines & Hsave & _).
    rewrite Hsave in Hrun. simplify_eq. simpl. split_and!; [done..|].
    eexists. split_and!; [done|by intros; apply saved_manifest_other_keys|done|].
    intros _ _. split_and!; [| |done].
    + intros Hp%Hnone. done.
    + intros _. exists (Koncowe.checked_pages cv), (Koncowe.base_id_of m).
      split_and!; [done..| |].
      * unfold Koncowe.base_id_of. by destruct (m !! "@id") as [[]|].
      * unfold Koncowe.saved_manifest.
        destruct (Koncowe.checked_pages cv) as [|c cp]; [done|].
        apply lookup_insert_eq.
  - destruct (save_manifest_raises cv fp ok self m Hm Hne Hcp Hid)
      as (lines & Hsave).
    rewrite Hsave in Hrun. simplify_eq. simpl. split_and!; [done..|].
    exists m. by split_and!.
Qed.

Lemma C7_save_rewrites_only_structures_witness :
  let m : gmap string json :=
    {[ "@id" := JStr "http://x/"; "label" := JStr "t";
       "structures" := JArr [JStr "old"] ]} in
  let cs := Koncowe.canvas_with_id <$> ["p1"; "p2"; "p3"] in
  let self := Koncowe.App cs 3 (Some m) [] [] [] in
  let cv : gmap Z bool := {[ 1%Z := false; 2%Z := true; 3%Z := true ]} in
  let out := Koncowe.save_manifest cv "manifest.json" true self in
  ∃ m', Koncowe.manifest out.2 = Some m' ∧
    (∀ k, k ≠ "structures" → m' !! k = m !! k) ∧
    m' !! "structures" =
      Some (JArr
        [ JObj {[ "@id" := JStr "http://x/range/r0"; "@type" := JStr "sc:Range";
                  "label" := JStr "zakres od strony 2";
                  "canvases" := JArr [JStr "p2"] ]};
          JObj {[ "@id" := JStr "http://x/range/r1"; "@type" := JStr "sc:Range";
                  "label" := JStr "zakres od strony 3";
                  "canvases" := JArr [JStr "p3"] ]} ]) ∧
    Koncowe.written out.2 = [("manifest.json", m')].
Proof.
  intros m cs self cv out.
  destruct (C7_save_rewrites_only_structures
              cv "manifest.json" true self out.2 m out.1)
    as (_ & _ & m' & Hm' & Hframe & _ & Hkey).
  - reflexivity.
  - apply surjective_pairing.
  - exists m'. split; [exact Hm'|]. split; [exact Hframe|].
    destruct Hkey as (_ & Hchecked & Hwritten).
    + reflexivity.
    + intros H. by apply (f_equal (.!! "@id")) in H.
    + split; [|exact Hwritten].
      destruct Hchecked as (cover_pages & base_id & Hsorted & Hin & -> & ->).
      { by exists 2%Z. }
      assert (cover_pages = [2; 3]%Z) as ->.
      { apply (Sorted_lt_unique cover_pages [2; 3]%Z); [done| |].
        - repeat constructor; lia.
        - intros p. rewrite Hin. split.
          + intros Hp. destruct (decide (p = 1%Z)) as [->|]; [done|].
            destruct (decide (p = 2%Z)) as [->|]; [left|].
            destruct (decide (p = 3%Z)) as [->|]; [right; left|].
            unfold cv in Hp.
            by rewrite !lookup_insert_ne, lookup_singleton_ne in Hp.
          + intros [->|[->|[]%elem_of_nil]%elem_of_cons]%elem_of_cons; reflexivity. }
      reflexivity.
Defined.






(** ** The batch analysis *)

Section AnalysisFacts.
Import Py Koncowe.
Local Open Scope Z_scope.
Context {image_bytes : Type}.
Variable py_repr : json → string.
Variable requests_get : string → option image_bytes.
Variable clip_probs : image_bytes → option (list Q).

Lemma extended_extended self r1 l1 r2 l2 :
  extended (extended self r1 l1) r2 l2 = extended self (r1 ++ r2) (l1 ++ l2).
Proof. unfold extended. simpl. by rewrite <- !app_assoc. Qed.

(** [app4.py] classifies as [app4_koncowe.py] does. *)
Lemma App4_classify content :
  App4.classify clip_probs content =
    match Koncowe.classify clip_probs content with
    | Koncowe.Classified p c => App4.Classified p c
    | Koncowe.ClassifyError => App4.MessageSet
    end.
Proof.
  unfold App4.classify, Koncowe.classify.
  destruct (clip_probs content) as [probs|]; [|done]. by destruct (argmax probs).
Qed.

Ltac run_page :=
  unfold Koncowe.page_result, Koncowe.analyse_page, App4.analyse_page,
    Koncowe.fetch_and_classify, App4.fetch_and_classify,
    lift, append_result, log, mbind, M_bind, mret, M_ret;
  simpl.

Ltac page_cases :=
  repeat (match goal with
          | |- context [if ?b then _ else _] => destruct b eqn:?
          | |- context [match requests_get ?u with _ => _ end] =>
              destruct (requests_get u) eqn:?
          | |- context [App4.classify ?f ?c] => rewrite (App4_classify c)
          | |- context [match Koncowe.classify ?f ?c with _ => _ end] =>
              destruct (Koncowe.classify f c) eqn:?
          end; simpl);
  first [ by eexists [_]
        | exists []; unfold extended; by rewrite app_nil_r ].

(** A turn of the loop of [app4_koncowe.py] appends the result of the page. *)
Lemma analyse_page_run start_page ic self url :
  Json.image_service_id ic.2 = Ret url →
  ∃ lines,
    Koncowe.analyse_page py_repr requests_get clip_probs start_page ic self =
      (Ret (), extended self
                 [Koncowe.page_result py_repr requests_get clip_probs start_page ic]
                 lines).
Proof.
  intros Hurl. run_page. rewrite Hurl. destruct url; simpl; page_cases.
Qed.

(** A turn of the loop of [app4.py] appends the same result. *)
Lemma App4_analyse_page_run start_page ic self url :
  Json.image_service_id ic.2 = Ret url →
  ∃ lines,
    App4.analyse_page py_repr requests_get clip_probs start_page ic self =
      (Ret (), extended self
                 [Koncowe.page_result py_repr requests_get clip_probs start_page ic]
                 lines).
Proof.
  intros Hurl. run_page. rewrite Hurl.
  destruct url; simpl; page_cases.
Qed.

(** The whole loop, for any body that appends the result of its page. *)
Lemma for_each_pages (body : nat * gmap string json → M unit) start_page
    (l : list (nat * gmap string json)) self :
  (∀ ic self, ic ∈ l → ∃ lines,
      body ic self =
        (Ret (), extended self
                   [Koncowe.page_result py_repr requests_get clip_probs start_page ic]
                   lines)) →
  ∃ lines,
    for_each l body self =
      (Ret (), extended self
                 (Koncowe.page_result py_repr requests_get clip_probs start_page <$> l)
                 lines).
Proof.
  revert self. induction l as [|ic l IH]; intros self Hbody.
  - exists []. unfold extended. simpl. rewrite !app_nil_r. by destruct self.
  - destruct (Hbody ic self) as (l1 & H1); [by left|].
    destruct (IH (extended self
                    [Koncowe.page_result py_repr requests_get clip_probs start_page ic]
                    l1)) as (l2 & H2).
    { intros ic' self' Hin. apply Hbody. by right. }
    exists (l1 ++ l2). simpl. unfold mbind, M_bind. rewrite H1, H2.
    by rewrite extended_extended.
Qed.
End AnalysisFacts.

Section BatchFacts.
Import Py Koncowe.
Local Open Scope Z_scope.
Context {image_bytes : Type}.
Variable py_repr : json → string.
Variable requests_get : string → option image_bytes.
Variable clip_probs : image_bytes → option (list Q).

Lemma enumerate_lookup {A : Type} (l : list A) (j : nat) :
  enumerate l !! j = (λ x, (j, x)) <$> l !! j.
Proof. apply list_lookup_imap. Qed.

Lemma enumerate_elem {A : Type} (l : list A) (ic : nat * A) :
  ic ∈ enumerate l → ic.2 ∈ l.
Proof.
  intros (i & x & -> & Hx)%elem_of_lookup_imap. by eapply list_elem_of_lookup_2.
Qed.

(** Both variants of [run_analysis] leave one result per canvas of the
    slice, in order, when no image service lookup raises. *)
Lemma run_analysis_results start_page end_page self :
  Forall (λ canvas, raised (Json.image_service_id canvas) = false)
         (slice (canvases self) (start_page - 1) end_page) →
  let results :=
    page_result py_repr requests_get clip_probs start_page
      <$> enumerate (slice (canvases self) (start_page - 1) end_page) in
  (∃ lines,
     Koncowe.run_analysis py_repr requests_get clip_probs start_page end_page self =
       (Ret (), App (canvases self) (total_pages self) (manifest self)
                    results (log_box self ++ lines) (written self))) ∧
  (∃ lines,
     App4.run_analysis py_repr requests_get clip_probs start_page end_page self =
       (Ret (), App (canvases self) (total_pages self) (manifest self)
                    results (log_box self ++ lines) (written self))).
Proof.
  intros Hok results. rewrite List.Forall_forall in Hok.
  assert (Hurl : ∀ ic : nat * gmap string json,
            ic ∈ enumerate (slice (canvases self) (start_page - 1) end_page) →
            ∃ url, Json.image_service_id ic.2 = Ret url).
  { intros ic Hin%enumerate_elem%list_elem_of_In%Hok.
    destruct (Json.image_service_id ic.2); [eauto|done]. }
  set (self0 := App (canvases self) (total_pages self) (manifest self) []
                    (log_box self ++ [LogAnalysisStart start_page end_page])
                    (written self)).
  split.
  - destruct (for_each_pages py_repr requests_get clip_probs
                (Koncowe.analyse_page py_repr requests_get clip_probs start_page)
                start_page
                (enumerate (slice (canvases self) (start_page - 1) end_page))
                self0) as (lines & Hrun).
    { intros ic self' Hin. destruct (Hurl ic Hin) as [url Hu].
      by eapply analyse_page_run. }
    exists (LogAnalysisStart start_page end_page :: lines).
    unfold Koncowe.run_analysis, mbind, M_bind, this, log, set_analysis_results.
    simpl. fold self0. rewrite Hrun. unfold extended. simpl.
    by rewrite <- app_assoc.
  - destruct (for_each_pages py_repr requests_get clip_probs
                (App4.analyse_page py_repr requests_get clip_probs start_page)
                start_page
                (enumerate (slice (canvases self) (start_page - 1) end_page))
                self0) as (lines & Hrun).
    { intros ic self' Hin. destruct (Hurl ic Hin) as [url Hu].
      by eapply App4_analyse_page_run. }
    exists (LogAnalysisStart start_page end_page :: lines).
    unfold App4.run_analysis, mbind, M_bind, this, log, set_analysis_results.
    simpl. fold self0. rewrite Hrun. unfold extended. simpl.
    by rewrite <- app_assoc.
Qed.


Lemma page_result_page_num start_page ic :
  page_num (page_result py_repr requests_get clip_probs start_page ic) =
    start_page + Z.of_nat ic.1.
Proof.
  unfold page_result.
  repeat (match goal with
          | |- context [match ?x with _ => _ end] => destruct x
          end; simpl); done.
Qed.
End BatchFacts.



(** ** The hybrid verdict *)

Section HybridFacts.
Import Py OcrClip.
Context {image_bytes : Type}.
Variable py_repr : json → string.
Variable requests_get : string → option image_bytes.
Variable clip_probs : image_bytes → option (list Q).
Variable ocr : image_bytes → analiza_ocr.

(** A page whose OCR analysis fails is skipped, whatever CLIP says. *)
Lemma ocen_strone_ocr_error w id content :
  ocr content = BladOcr → ocen_strone clip_probs ocr w id content = w.
Proof.
  intros H. unfold ocen_strone. rewrite H.
  by destruct (klasyfikuj_obraz_clip clip_probs content).
Qed.

End HybridFacts.



(** * Further properties of the scripts *)

(** ** What [save_manifest] does with the canvases *)

Section Partition.
Import Koncowe.
Local Open Scope Z_scope.
Variable cs : list (gmap string json).
Variable tp : Z.
Variable base : string.
Variable cp : list Z.
Hypothesis ascending : Sorted Z.lt cp.
Hypothesis in_range : Forall (λ c, 1 ≤ c ≤ tp) cp.
Hypothesis all_pages : tp = Z.of_nat (length cs).

Lemma canvases_of_structure (r : range) :
  Structures.canvases_of (structure_of r) = range_canvas_ids r.
Proof.
  unfold Structures.canvases_of, structure_of.
  rewrite !lookup_insert_ne by done. by rewrite lookup_singleton_eq.
Qed.

(** The entries left out have no identifier to contribute. *)
Lemma concat_not_omitted (rs : list range) :
  concat (range_canvas_ids <$> filter (λ r, omitted r = false) rs) =
  concat (range_canvas_ids <$> rs).
Proof.
  induction rs as [|r rs IH]; [done|].
  rewrite filter_cons. destruct (decide (omitted r = false)) as [Hr|Hr].
  - by rewrite !fmap_cons, !concat_cons, IH.
  - rewrite IH, fmap_cons, concat_cons. unfold omitted in Hr.
    by destruct (range_canvas_ids r).
Qed.

(** From any cover page on, the ranges list the identifiers of the rest
    of the document, page by page. *)
Lemma ranges_from (m k : nat) (c : Z) :
  length cp = (k + S m)%nat → cp !! k = Some c →
  concat (range_canvas_ids <$> drop k (generated_ranges cs tp base cp)) =
    omap (λ canvas : gmap string json, canvas !! "@id") (drop (Z.to_nat (c - 1)) cs).
Proof.
  revert k c. induction m as [|m IH]; intros k c Hlen Hk.
  - rewrite (drop_S _ (range_at cs tp base cp k c)) by
      (by rewrite generated_ranges_lookup, Hk).
    rewrite drop_ge by (rewrite generated_ranges_length; lia).
    rewrite fmap_cons, concat_cons, fmap_nil, concat_nil, app_nil_r.
    rewrite range_canvas_ids_slice, end_page_range_at.
    rewrite lookup_ge_None_2 by lia.
    pose proof (cover_in_range tp cp in_range k c Hk).
    rewrite slice_take_drop by lia. rewrite take_ge; [done|].
    rewrite length_drop. lia.
  - destruct (lookup_lt_is_Some_2 cp (S k)) as [c' Hk']; [lia|].
    rewrite (drop_S _ (range_at cs tp base cp k c)) by
      (by rewrite generated_ranges_lookup, Hk).
    rewrite fmap_cons, concat_cons, (IH (S k) c') by (done || lia).
    rewrite range_canvas_ids_slice, end_page_range_at, Hk'.
    pose proof (cover_in_range tp cp in_range k c Hk).
    pose proof (cover_in_range tp cp in_range (S k) c' Hk').
    pose proof (ascending_lookup_lt cp k (S k) c c' ascending Hk Hk' ltac:(lia)).
    rewrite slice_take_drop by lia. rewrite <- omap_app. f_equal.
    replace (Z.to_nat (c' - 1)) with (Z.to_nat (c - 1) + Z.to_nat (c' - 1 - (c - 1)))%nat
      by lia.
    rewrite <- drop_drop. apply take_drop.
Qed.
End Partition.


(** X1. For a strictly ascending list of cover pages within the document,
    the identifier lists of the entries of [structures], one after the
    other, are the identifiers of the canvases from the first cover page to
    the last page, in page order: each such canvas that has an ['@id'] is
    in one entry, once, and no canvas before the first cover page is in
    any. *)
Theorem X1_structures_partition_the_canvases
    (cs : list (gmap string json)) (base : string) (cp : list Z) (c0 : Z) :
  Sorted Z.lt cp →
  Forall (λ c, (1 ≤ c ≤ Z.of_nat (length cs))%Z) cp →
  cp !! 0%nat = Some c0 →
  concat (Structures.canvases_of
            <$> Koncowe.build_structures cs (Z.of_nat (length cs)) base cp) =
    omap (λ canvas : gmap string json, canvas !! "@id") (drop (Z.to_nat (c0 - 1)) cs).
Proof.
  intros Hs Hr H0.
  rewrite build_structures_generated, <- list_fmap_compose.
  rewrite (list_fmap_ext _ Koncowe.range_canvas_ids _
             (λ _ r _, canvases_of_structure r)).
  rewrite concat_not_omitted.
  destruct cp as [|c cp'] eqn:E; [done|]. rewrite <- E in *.
  rewrite <- (ranges_from cs _ base cp Hs Hr eq_refl (length cp') 0 c0); try done.
  rewrite E. simpl. lia.
Qed.

Lemma X1_structures_partition_the_canvases_witness :
  let cs := [Koncowe.canvas_with_id "p1"; Koncowe.canvas_with_id "p2";
             Koncowe.canvas_without_id; Koncowe.canvas_with_id "p4"] in
  concat (Structures.canvases_of
            <$> Koncowe.build_structures cs (Z.of_nat (length cs)) "m" [2; 3]%Z) =
    omap (λ canvas : gmap string json, canvas !! "@id") (drop (Z.to_nat (2 - 1)) cs).
Proof.
  intros cs. apply (X1_structures_partition_the_canvases cs "m" [2; 3]%Z 2%Z).
  - repeat constructor; lia.
  - repeat constructor; simpl; lia.
  - reflexivity.
Defined.

Section Unique.
Import Koncowe.
Variable cs : list (gmap string json).
Variable tp : Z.
Variable base : string.
Variable cp : list Z.

Lemma generated_ranges_NoDup : NoDup (generated_ranges cs tp base cp).
Proof.
  apply NoDup_alt. intros i j r Hi Hj.
  rewrite generated_ranges_lookup in Hi, Hj.
  destruct (cp !! i) as [c|] eqn:Ei; [|done].
  destruct (cp !! j) as [d|] eqn:Ej; [|done].
  simpl in Hi, Hj. apply (range_id_inj cs tp base cp i j c d). congruence.
Qed.

Lemma label_of_structure (r : range) :
  Structures.label_of (structure_of r) = Some (JStr (label r)).
Proof.
  unfold Structures.label_of, structure_of.
  rewrite !lookup_insert_ne by done. apply lookup_insert_eq.
Qed.

Lemma range_label_inj (i j : nat) (c d : Z) :
  label (range_at cs tp base cp i c) = label (range_at cs tp base cp j d) → c = d.
Proof.
  unfold range_at. simpl. intros H.
  apply String.app_inj in H. by apply pretty_Z_inj in H.
Qed.
End Unique.

(** X2. Whatever the canvases, the base identifier and the list of cover
    pages, no two entries of [structures] have the same ['@id']; and when
    no page occurs twice in the list of cover pages, no two entries have
    the same ['label']. *)
Theorem X2_structure_ids_and_labels_unique
    (cs : list (gmap string json)) (tp : Z) (base : string) (cp : list Z) :
  NoDup (Koncowe.structure_id <$> Koncowe.build_structures cs tp base cp) ∧
  (NoDup cp →
   NoDup (Structures.label_of <$> Koncowe.build_structures cs tp base cp)).
Proof.
  rewrite build_structures_generated, <- !list_fmap_compose. split.
  - apply NoDup_fmap_2_strong; [|apply NoDup_filter, generated_ranges_NoDup].
    intros r1 r2 [_ (i & c & Hi & ->)%generated_ranges_elem]%list_elem_of_filter
                 [_ (j & d & Hj & ->)%generated_ranges_elem]%list_elem_of_filter Heq.
    unfold compose in Heq. rewrite !structure_id_of in Heq.
    assert (i = j) as ->.
    { apply (range_id_inj cs tp base cp i j c d). by injection Heq. }
    congruence.
  - intros Hnd. apply NoDup_fmap_2_strong; [|apply NoDup_filter, generated_ranges_NoDup].
    intros r1 r2 [_ (i & c & Hi & ->)%generated_ranges_elem]%list_elem_of_filter
                 [_ (j & d & Hj & ->)%generated_ranges_elem]%list_elem_of_filter Heq.
    unfold compose in Heq. rewrite !label_of_structure in Heq.
    assert (c = d) as ->.
    { apply (range_label_inj cs tp base cp i j c d). congruence. }
    by rewrite (NoDup_lookup cp i j d Hnd Hi Hj).
Qed.

(** ** The classifier *)

Section Argmax.
Import Koncowe.

(** [argmax_from] keeps the first index of the largest entry seen. *)
Lemma argmax_from_spec (l pre : list Q) (best : nat) (top : Q) :
  pre !! best = Some top →
  (∀ x, x ∈ pre → (x <= top)%Q) →
  (∀ j y, (j < best)%nat → pre !! j = Some y → (y < top)%Q) →
  ∃ v, (pre ++ l) !! argmax_from best top (length pre) l = Some v ∧
    (∀ x, x ∈ pre ++ l → (x <= v)%Q) ∧
    (∀ j y, (j < argmax_from best top (length pre) l)%nat →
            (pre ++ l) !! j = Some y → (y < v)%Q).
Proof.
  revert pre best top. induction l as [|x l IH]; intros pre best top Hb Hmax Hfirst.
  - simpl. rewrite app_nil_r. eauto.
  - simpl. rewrite (cons_middle x pre l), app_assoc.
    replace (S (length pre)) with (length (pre ++ [x]))
      by (rewrite length_app; simpl; lia).
    destruct (Qle_bool x top) eqn:E.
    + apply Qle_bool_iff in E. apply IH.
      * by apply lookup_app_l_Some.
      * intros y [Hy| ->%list_elem_of_singleton]%elem_of_app; auto.
      * intros j y Hj Hy. apply (Hfirst j y Hj).
        rewrite lookup_app_l in Hy; [done|].
        apply lookup_lt_Some in Hb. lia.
    + assert (top < x)%Q as Hlt.
      { apply Qnot_le_lt. intros H%Qle_bool_iff. congruence. }
      apply IH.
      * by apply list_lookup_middle.
      * intros y [Hy| ->%list_elem_of_singleton]%elem_of_app.
        -- apply Qlt_le_weak. eapply Qle_lt_trans; [by apply Hmax|done].
        -- apply Qle_refl.
      * intros j y Hj Hy. rewrite lookup_app_l in Hy by lia.
        eapply Qle_lt_trans; [|done]. apply Hmax. by eapply list_elem_of_lookup_2.
Qed.

Lemma argmax_spec (l : list Q) :
  match argmax l with
  | None => l = []
  | Some best =>
      ∃ v first, l !! best = Some v ∧ l !! 0%nat = Some first ∧
        (∀ x, x ∈ l → (x <= v)%Q) ∧
        (best = 0%nat ↔ ∀ x, x ∈ l → (x <= first)%Q)
  end.
Proof.
  destruct l as [|x l]; [done|]. simpl.
  destruct (argmax_from_spec l [x] 0 x) as (v & Hv & Hmax & Hfirst).
  - done.
  - intros y ->%list_elem_of_singleton. apply Qle_refl.
  - intros j y Hj. lia.
  - simpl in Hv, Hmax, Hfirst. exists v, x. split_and!; [done..|]. split.
    + intros E. rewrite E in Hv. simpl in Hv. by simplify_eq.
    + intros Hx. destruct (argmax_from 0 x 1 l) as [|b] eqn:E; [done|].
      exfalso. apply (Qlt_not_le x v).
      * apply (Hfirst 0%nat x); [lia|done].
      * apply Hx. by eapply list_elem_of_lookup_2.
Qed.
End Argmax.

(** X3. When [classify] returns a probability and a verdict (in
    [app4_koncowe.py], in [app4.py], and as [klasyfikuj_obraz_clip] in
    [ocr_and_clip.py]), the probability is an entry of the row of the
    model and no entry is larger; the verdict is "cover" exactly when no
    entry is larger than the first one, so a tie with the first
    description counts as a cover. *)
Theorem X3_classification_is_the_first_maximum
    {image_bytes : Type} (clip_probs : image_bytes → option (list Q))
    (content : image_bytes) (p : Q) (c : bool) :
  Koncowe.classify clip_probs content = Koncowe.Classified p c ∨
  App4.classify clip_probs content = App4.Classified p c ∨
  (∃ k, OcrClip.klasyfikuj_obraz_clip clip_probs content = OcrClip.OcenaClip k p c) →
  ∃ probs first,
    clip_probs content = Some probs ∧ probs !! 0%nat = Some first ∧
    p ∈ probs ∧ (∀ x, x ∈ probs → (x <= p)%Q) ∧
    (c = true ↔ ∀ x, x ∈ probs → (x <= first)%Q).
Proof.
  unfold Koncowe.classify, App4.classify, OcrClip.klasyfikuj_obraz_clip.
  intros H. destruct (clip_probs content) as [probs|];
    [|by destruct H as [H|[H|[k H]]]].
  pose proof (argmax_spec probs) as Hspec.
  destruct (Koncowe.argmax probs) as [best|];
    [|by destruct H as [H|[H|[k H]]]].
  destruct Hspec as (v & first & Hv & H0 & Hmax & Hcover).
  rewrite (list_lookup_total_correct _ _ _ Hv) in H.
  assert (p = v ∧ c = bool_decide (best = 0%nat)) as [-> ->].
  { destruct H as [H|[H|[k H]]]; by simplify_eq. }
  exists probs, first. split_and!; [done..|by eapply list_elem_of_lookup_2|done|].
  by rewrite bool_decide_eq_true.
Qed.

Lemma X3_classification_is_the_first_maximum_witness :
  ∃ probs first,
    (λ _ : unit, Some [(1 # 2)%Q; (1 # 2)%Q]) () = Some probs ∧
    probs !! 0%nat = Some first ∧
    (1 # 2)%Q ∈ probs ∧ (∀ x, x ∈ probs → (x <= 1 # 2)%Q) ∧
    (true = true ↔ ∀ x, x ∈ probs → (x <= first)%Q).
Proof.
  apply (X3_classification_is_the_first_maximum
           (λ _ : unit, Some [(1 # 2)%Q; (1 # 2)%Q]) () (1 # 2)%Q true).
  left. reflexivity.
Defined.

(** ** The loop of [run_analysis] when a lookup raises *)

Section AbortFacts.
Import Py Koncowe.
Local Open Scope Z_scope.
Context {image_bytes : Type}.
Variable py_repr : json → string.
Variable requests_get : string → option image_bytes.
Variable clip_probs : image_bytes → option (list Q).

Lemma for_each_app {A : Type} (l1 l2 : list A) (body : A → M unit) (self : app) :
  for_each (l1 ++ l2) body self =
    match for_each l1 body self with
    | (Ret _, self') => for_each l2 body self'
    | (Raise e, self') => (Raise e, self')
    end.
Proof.
  revert self. induction l1 as [|x l1 IH]; intros self; [done|].
  simpl. unfold mbind, M_bind. destruct (body x self) as [[[]|e] self']; [apply IH|done].
Qed.

(** Any body that appends the result of a page whose lookup returns and
    raises what the lookup raises stops at the first page whose lookup
    raises. *)
Lemma for_each_stops (body : nat * gmap string json → M unit) start_page
    (good : list (gmap string json)) (bad : gmap string json)
    (rest : list (gmap string json)) (e : exn) (self : app) :
  (∀ ic self url, Json.image_service_id ic.2 = Ret url → ∃ lines,
      body ic self =
        (Ret (), extended self [page_result py_repr requests_get clip_probs start_page ic]
                   lines)) →
  (∀ ic self, Json.image_service_id ic.2 = Raise e → body ic self = (Raise e, self)) →
  Forall (λ canvas, raised (Json.image_service_id canvas) = false) good →
  Json.image_service_id bad = Raise e →
  ∃ lines,
    for_each (enumerate (good ++ bad :: rest)) body self =
      (Raise e, extended self
                  (page_result py_repr requests_get clip_probs start_page
                     <$> enumerate good) lines).
Proof.
  intros Hret Hraise Hgood Hbad. unfold enumerate at 1.
  rewrite imap_app, for_each_app. fold (enumerate good).
  destruct (for_each_pages py_repr requests_get clip_probs body start_page
              (enumerate good) self) as (lines & ->).
  { intros ic self' Hin%enumerate_elem.
    rewrite List.Forall_forall in Hgood. apply list_elem_of_In, Hgood in Hin.
    destruct (Json.image_service_id ic.2) as [url|] eqn:E; [|done].
    by apply (Hret ic self' url). }
  exists lines. simpl. unfold mbind, M_bind. by rewrite Hraise.
Qed.
End AbortFacts.

(** X4. When the image service lookup of a canvas of the analysed slice
    raises (it stands outside the [try] of the loop), [run_analysis] ends
    with that exception at this canvas, in [app4_koncowe.py] and in
    [app4.py] alike: [analysis_results] holds the results of the pages
    before it and of no later page, and the canvases, the page count and
    the manifest are as before. *)
Theorem X4_analysis_stops_at_the_first_raising_lookup
    {image_bytes : Type} (py_repr : json → string)
    (requests_get : string → option image_bytes)
    (clip_probs : image_bytes → option (list Q))
    (start_page end_page : Z) (self : Koncowe.app)
    (good : list (gmap string json)) (bad : gmap string json)
    (rest : list (gmap string json)) (e : Py.exn) :
  Py.slice (Koncowe.canvases self) (start_page - 1) end_page = good ++ bad :: rest →
  Forall (λ canvas, Py.raised (Json.image_service_id canvas) = false) good →
  Json.image_service_id bad = Py.Raise e →
  let results :=
    Koncowe.page_result py_repr requests_get clip_probs start_page
      <$> Koncowe.enumerate good in
  let out := Koncowe.run_analysis py_repr requests_get clip_probs
               start_page end_page self in
  let out4 := App4.run_analysis py_repr requests_get clip_probs
                start_page end_page self in
  (out.1 = Py.Raise e ∧ Koncowe.analysis_results out.2 = results ∧
   Koncowe.canvases out.2 = Koncowe.canvases self ∧
   Koncowe.total_pages out.2 = Koncowe.total_pages self ∧
   Koncowe.manifest out.2 = Koncowe.manifest self) ∧
  (out4.1 = Py.Raise e ∧ Koncowe.analysis_results out4.2 = results ∧
   Koncowe.canvases out4.2 = Koncowe.canvases self ∧
   Koncowe.total_pages out4.2 = Koncowe.total_pages self ∧
   Koncowe.manifest out4.2 = Koncowe.manifest self).
Proof.
  intros Hslice Hgood Hbad results out out4. split.
  - unfold out, Koncowe.run_analysis, mbind, Koncowe.M_bind, Koncowe.this,
      Koncowe.log, Koncowe.set_analysis_results.
    simpl. rewrite Hslice.
    match goal with |- context [Koncowe.for_each _ ?b ?s] =>
      destruct (for_each_stops py_repr requests_get clip_probs b start_page
                  good bad rest e s) as (lines & ->)
    end; [..|done].
    + intros ic self' url Hurl. by eapply analyse_page_run.
    + intros ic self' Hr. unfold Koncowe.analyse_page, Koncowe.lift, mbind,
        Koncowe.M_bind. by rewrite Hr.
    + done.
    + done.
  - unfold out4, App4.run_analysis, mbind, Koncowe.M_bind, Koncowe.this,
      Koncowe.log, Koncowe.set_analysis_results.
    simpl. rewrite Hslice.
    match goal with |- context [Koncowe.for_each _ ?b ?s] =>
      destruct (for_each_stops py_repr requests_get clip_probs b start_page
                  good bad rest e s) as (lines & ->)
    end; [..|done].
    + intros ic self' url Hurl. by eapply App4_analyse_page_run.
    + intros ic self' Hr. unfold App4.analyse_page, Koncowe.lift, mbind,
        Koncowe.M_bind. by rewrite Hr.
    + done.
    + done.
Qed.

Lemma X4_analysis_stops_at_the_first_raising_lookup_witness :
  let py_repr := λ _ : json, "?" in
  let requests_get := λ _ : string, @None unit in
  let clip_probs := λ _ : unit, @None (list Q) in
  let good := [Koncowe.canvas_with_id "p1"] in
  let bad : gmap string json := {[ "images" := JArr [] ]} in
  let self := Koncowe.App [Koncowe.canvas_with_id "p1"; bad; Koncowe.canvas_with_id "p3"]
                3 None [] [] [] in
  let results :=
    Koncowe.page_result py_repr requests_get clip_probs 1 <$> Koncowe.enumerate good in
  let out := Koncowe.run_analysis py_repr requests_get clip_probs 1 3 self in
  let out4 := App4.run_analysis py_repr requests_get clip_probs 1 3 self in
  (out.1 = Py.Raise Py.IndexError ∧ Koncowe.analysis_results out.2 = results ∧
   Koncowe.canvases out.2 = Koncowe.canvases self ∧
   Koncowe.total_pages out.2 = Koncowe.total_pages self ∧
   Koncowe.manifest out.2 = Koncowe.manifest self) ∧
  (out4.1 = Py.Raise Py.IndexError ∧ Koncowe.analysis_results out4.2 = results ∧
   Koncowe.canvases out4.2 = Koncowe.canvases self ∧
   Koncowe.total_pages out4.2 = Koncowe.total_pages self ∧
   Koncowe.manifest out4.2 = Koncowe.manifest self).
Proof.
  intros py_repr requests_get clip_probs good bad self.
  apply (X4_analysis_stops_at_the_first_raising_lookup
           py_repr requests_get clip_probs 1 3 self good bad
           [Koncowe.canvas_with_id "p3"] Py.IndexError).
  - reflexivity.
  - repeat constructor.
  - reflexivity.
Defined.

(** ** The state of the application across its methods *)

Section Frame.
Import Py Koncowe.
Local Open Scope Z_scope.
Context {image_bytes : Type}.
Variable py_repr : json → string.
Variable requests_get : string → option image_bytes.
Variable clip_probs : image_bytes → option (list Q).

(** A loop whose body leaves the document alone leaves it alone. *)
Lemma for_each_frame {A : Type} (l : list A) (body : A → M unit) (self : app) :
  (∀ x s, canvases (body x s).2 = canvases s ∧
          total_pages (body x s).2 = total_pages s ∧
          manifest (body x s).2 = manifest s) →
  canvases (for_each l body self).2 = canvases self ∧
  total_pages (for_each l body self).2 = total_pages self ∧
  manifest (for_each l body self).2 = manifest self.
Proof.
  intros Hbody. revert self. induction l as [|x l IH]; intros self; [done|].
  simpl. unfold mbind, M_bind. pose proof (Hbody x self) as Hx.
  destruct (body x self) as [[[]|e] self']; simpl in *; [|done].
  destruct (IH self') as (-> & -> & ->). done.
Qed.

Lemma analyse_page_frame start_page ic self :
  let out := Koncowe.analyse_page py_repr requests_get clip_probs start_page ic self in
  canvases out.2 = canvases self ∧ total_pages out.2 = total_pages self ∧
  manifest out.2 = manifest self.
Proof.
  unfold Koncowe.analyse_page, Koncowe.fetch_and_classify, lift, append_result, log,
    mbind, M_bind, mret, M_ret. simpl.
  destruct (Json.image_service_id ic.2) as [url|e]; simpl; [|done].
  destruct (Json.truthy url); [|done]. destruct url; simpl; try done.
  destruct (requests_get _); simpl; [|done]. by destruct (Koncowe.classify _ _).
Qed.


(** [run_analysis] never touches the canvases, the page count or the
    manifest, however it ends. *)
Lemma run_analysis_frame start_page end_page self :
  let out := Koncowe.run_analysis py_repr requests_get clip_probs
               start_page end_page self in
  canvases out.2 = canvases self ∧ total_pages out.2 = total_pages self ∧
  manifest out.2 = manifest self.
Proof.
  unfold Koncowe.run_analysis, mbind, M_bind, this, log, set_analysis_results. simpl.
  match goal with |- context [for_each ?l ?b ?s] =>
    destruct (for_each_frame l b s) as (-> & -> & ->); [|done]
  end.
  intros x s. apply analyse_page_frame.
Qed.

End Frame.

Section Fetch.
Import Py Koncowe Gui.
Local Open Scope Z_scope.


End Fetch.




(** ** The range check of [start_analysis] *)

Section Range.
Import Py Koncowe Gui.
Local Open Scope Z_scope.

Lemma checked_range_inr total_pages start_text end_text start_page end_page :
  checked_range total_pages start_text end_text = inr (start_page, end_page) ↔
  start_text = Some start_page ∧ end_text = Some end_page ∧
  1 ≤ start_page ≤ end_page ∧ end_page ≤ total_pages.
Proof.
  unfold checked_range. split.
  - destruct start_text as [s|]; [|done]. destruct end_text as [e|]; [|done].
    repeat case_bool_decide; simpl; try done. intros ?. simplify_eq.
    split_and!; (done || lia).
  - intros (-> & -> & ? & ?).
    rewrite !bool_decide_true by lia. simpl. by rewrite bool_decide_false by lia.
Qed.
End Range.

(** X7. In a state whose page count is the number of canvases and whose
    image service lookups do not raise, [start_analysis] runs the analysis
    exactly when both entries are integers with
    [1 <= start <= end <= total_pages]; then the run returns and leaves
    [end - start + 1] results, the [j]-th numbered [start + j]; in every
    other case it logs a line and changes nothing. *)
Theorem X7_start_analysis_checks_the_range
    {image_bytes : Type} (py_repr : json → string)
    (requests_get : string → option image_bytes)
    (clip_probs : image_bytes → option (list Q))
    (start_text end_text : option Z) (self : Koncowe.app) :
  Gui.coherent self →
  Forall (λ canvas, Py.raised (Json.image_service_id canvas) = false)
         (Koncowe.canvases self) →
  let out := Gui.start_analysis py_repr requests_get clip_probs
               start_text end_text self in
  out.2.1 = Py.Ret () ∧
  ((∃ start_page end_page,
      start_text = Some start_page ∧ end_text = Some end_page ∧
      (1 ≤ start_page ≤ end_page)%Z ∧ (end_page ≤ Koncowe.total_pages self)%Z ∧
      out.1 = [] ∧
      Z.of_nat (length (Koncowe.analysis_results out.2.2)) =
        (end_page - start_page + 1)%Z ∧
      ∀ (j : nat) r, Koncowe.analysis_results out.2.2 !! j = Some r →
                     Koncowe.page_num r = (start_page + Z.of_nat j)%Z) ∨
   (out.1 ≠ [] ∧ out.2.2 = self ∧
    ¬ ∃ start_page end_page,
        start_text = Some start_page ∧ end_text = Some end_page ∧
        (1 ≤ start_page ≤ end_page)%Z ∧ (end_page ≤ Koncowe.total_pages self)%Z)).
Proof.
  intros [Htp _] Hok out. unfold out, Gui.start_analysis.
  destruct (Gui.checked_range _ _ _) as [lines|[start_page end_page]] eqn:E.
  - split; [done|]. right. split_and!; [|done|].
    + simpl. unfold Gui.checked_range in E.
      destruct start_text, end_text; repeat case_match; by simplify_eq.
    + intros (s & e & Hs & He & Hr1 & Hr2).
      pose proof (proj2 (checked_range_inr (Koncowe.total_pages self)
                           start_text end_text s e)) as H.
      rewrite H in E by done. done.
  - apply checked_range_inr in E as (-> & -> & Hr1 & Hr2). simpl.
    destruct (run_analysis_results py_repr requests_get clip_probs
                start_page end_page self) as [(lines & ->) _].
    { by apply Forall_slice. }
    split; [done|]. left. exists start_page, end_page. simpl.
    do 5 (split; [done|]). split.
    + rewrite length_fmap. unfold Koncowe.enumerate. rewrite length_imap.
      rewrite slice_length by lia. lia.
    + intros j r Hj. rewrite list_lookup_fmap, enumerate_lookup in Hj.
      destruct (Py.slice _ _ _ !! j) as [canvas|]; [|done].
      simpl in Hj. simplify_eq. by rewrite page_result_page_num.
Qed.

Lemma X7_start_analysis_checks_the_range_witness :
  let py_repr := λ _ : json, "?" in
  let requests_get := λ _ : string, @None unit in
  let clip_probs := λ _ : unit, @None (list Q) in
  let self := Koncowe.App [Koncowe.canvas_with_id "p1"; Koncowe.canvas_with_id "p2"]
                2 None [] [] [] in
  let out := Gui.start_analysis py_repr requests_get clip_probs
               (Some 2%Z) (Some 2%Z) self in
  out.2.1 = Py.Ret () ∧
  ((∃ start_page end_page,
      Some 2%Z = Some start_page ∧ Some 2%Z = Some end_page ∧
      (1 ≤ start_page ≤ end_page)%Z ∧ (end_page ≤ Koncowe.total_pages self)%Z ∧
      out.1 = [] ∧
      Z.of_nat (length (Koncowe.analysis_results out.2.2)) =
        (end_page - start_page + 1)%Z ∧
      ∀ (j : nat) r, Koncowe.analysis_results out.2.2 !! j = Some r →
                     Koncowe.page_num r = (start_page + Z.of_nat j)%Z) ∨
   (out.1 ≠ [] ∧ out.2.2 = self ∧
    ¬ ∃ start_page end_page,
        Some 2%Z = Some start_page ∧ Some 2%Z = Some end_page ∧
        (1 ≤ start_page ≤ end_page)%Z ∧ (end_page ≤ Koncowe.total_pages self)%Z)).
Proof.
  intros py_repr requests_get clip_probs self.
  apply (X7_start_analysis_checks_the_range py_repr requests_get clip_probs
           (Some 2%Z) (Some 2%Z) self).
  - split; [reflexivity|]. intros m Hm. discriminate Hm.
  - repeat constructor.
Defined.

(** ** The summary and the editor *)

Section Summary.
Import Py Koncowe Gui.
Local Open Scope Z_scope.

Lemma insert_by_page_last (p : page_data) (l : list page_data) :
  Forall (λ q, page_num q ≤ page_num p) l → insert_by_page p l = l ++ [p].
Proof.
  induction 1 as [|q l Hq _ IH]; simpl; [done|].
  rewrite decide_False by lia. by rewrite IH.
Qed.

(** Sorting what is kept of a list in ascending page order changes
    nothing. *)
Lemma sort_by_page_filter (P : page_data → Prop) `{!∀ p, Decision (P p)}
    (l : list page_data) :
  (∀ (i j : nat) a b, (i < j)%nat → l !! i = Some a → l !! j = Some b →
                      page_num a < page_num b) →
  sort_by_page (filter P l) = filter P l.
Proof.
  induction l as [|x l IH] using rev_ind; intros Hasc; [done|].
  assert (IH' : sort_by_page (filter P l) = filter P l).
  { apply IH. intros i j a b Hij Hi Hj.
    apply (Hasc i j a b Hij); by apply lookup_app_l_Some. }
  rewrite filter_app, filter_cons, filter_nil.
  destruct (decide (P x)); [|by rewrite app_nil_r].
  unfold sort_by_page in *. rewrite foldl_app. simpl. rewrite IH'.
  apply insert_by_page_last. apply Forall_forall.
  intros q [_ Hq]%list_elem_of_filter.
  apply list_elem_of_lookup in Hq as [i Hi].
  apply Z.lt_le_incl, (Hasc i (length l) q x).
  - by apply lookup_lt_Some in Hi.
  - by apply lookup_app_l_Some.
  - by apply list_lookup_middle.
Qed.

Lemma filter_page_sorted (P : page_data → Prop) `{!∀ p, Decision (P p)}
    (l : list page_data) :
  (∀ (i j : nat) a b, (i < j)%nat → l !! i = Some a → l !! j = Some b →
                      page_num a < page_num b) →
  Sorted Z.lt (page_num <$> filter P l).
Proof.
  intros Hasc. apply StronglySorted_Sorted.
  induction l as [|x l IH]; [constructor|].
  assert (Hl : StronglySorted Z.lt (page_num <$> filter P l)).
  { apply IH. intros i j a b Hij Hi Hj. apply (Hasc (S i) (S j) a b); [lia|done..]. }
  rewrite filter_cons. case_decide; [|done].
  rewrite fmap_cons. constructor; [done|].
  apply Forall_forall. intros n (y & -> & [_ Hy]%list_elem_of_filter)%list_elem_of_fmap.
  apply list_elem_of_lookup in Hy as [i Hi].
  apply (Hasc 0%nat (S i) x y); [lia|done..].
Qed.

Lemma slice_lookup_Some {A : Type} (l : list A) (a b : Z) (j : nat) (x : A) :
  0 ≤ a → slice l a b !! j = Some x → l !! (Z.to_nat a + j)%nat = Some x.
Proof.
  intros Ha. unfold slice. rewrite (slice_index_nonneg _ a) by lia.
  intros [Hj _]%lookup_take_Some. rewrite lookup_drop in Hj.
  pose proof (lookup_lt_Some _ _ _ Hj).
  by replace (Z.to_nat a) with (Z.to_nat (Z.min a (Z.of_nat (length l)))) by lia.
Qed.

Lemma results_map_lookup (l : list page_data) (p : Z) (r : page_data) :
  NoDup (page_num <$> l) →
  results_map l !! p = Some r ↔ r ∈ l ∧ page_num r = p.
Proof.
  intros Hnd. unfold results_map. rewrite <- elem_of_list_to_map.
  - rewrite list_elem_of_fmap. split.
    + intros (y & ? & Hy). rewrite elem_of_reverse in Hy. by simplify_eq.
    + intros [Hr <-]. exists r. by rewrite elem_of_reverse.
  - rewrite <- list_fmap_compose.
    apply (NoDup_fmap_2_strong _ (reverse l));
      [|rewrite reverse_Permutation; by apply NoDup_fmap_1 in Hnd].
    intros x y Hx Hy Heq. rewrite elem_of_reverse in Hx, Hy. simpl in Heq.
    apply list_elem_of_lookup in Hx as [i Hi], Hy as [j Hj].
    assert (i = j) as ->; [|congruence].
    apply (NoDup_lookup _ i j (page_num x) Hnd); rewrite list_lookup_fmap.
    + by rewrite Hi.
    + rewrite Hj. simpl. by rewrite Heq.
Qed.

(** The boxes of the editor: one per canvas, checked where the result of
    the page says "cover". *)
Lemma open_editor_lookup (self : app) (cv : gmap Z bool) (p : Z) :
  open_editor self = Some cv →
  cv !! p =
    if decide (1 ≤ p ≤ Z.of_nat (length (canvases self)))
    then Some (match results_map (analysis_results self) !! p with
               | Some result_data => is_cover result_data
               | None => false
               end)
    else None.
Proof.
  unfold open_editor. destruct (analysis_results self) as [|r rs]; [done|].
  intros [= <-]. case_decide as Hp.
  - apply elem_of_list_to_map_1.
    + apply NoDup_alt. intros i j x. rewrite !list_lookup_fmap, !list_lookup_imap.
      destruct (canvases self !! i), (canvases self !! j); simpl; try done.
      intros ??. simplify_eq. lia.
    + apply elem_of_lookup_imap.
      destruct (lookup_lt_is_Some_2 (canvases self) (Z.to_nat (p - 1))) as [c Hc]; [lia|].
      exists (Z.to_nat (p - 1)), c. split; [|done].
      by replace (Z.of_nat (Z.to_nat (p - 1)) + 1) with p by lia.
  - apply not_elem_of_list_to_map_1.
    intros ([q b] & -> & (i & c & Heq & Hi)%elem_of_lookup_imap)%list_elem_of_fmap.
    apply lookup_lt_Some in Hi. simplify_eq. simpl in Hp. lia.
Qed.

Lemma checked_pages_deselect_all (cv : gmap Z bool) :
  checked_pages (deselect_all cv) = [].
Proof.
  destruct (checked_pages (deselect_all cv)) as [|p l] eqn:E; [done|].
  assert (Hp : p ∈ checked_pages (deselect_all cv)) by (rewrite E; by left).
  apply (proj2 (checked_pages_spec _)) in Hp.
  unfold deselect_all in Hp. rewrite lookup_fmap in Hp.
  by destruct (cv !! p).
Qed.
End Summary.

Section AfterAnalysis.
Import Py Koncowe Gui.
Local Open Scope Z_scope.
Context {image_bytes : Type}.
Variable py_repr : json → string.
Variable requests_get : string → option image_bytes.
Variable clip_probs : image_bytes → option (list Q).

(** The results of a run are in ascending page order. *)
Lemma results_ascending start_page (l : list (gmap string json)) (i j : nat) a b :
  (i < j)%nat →
  (page_result py_repr requests_get clip_probs start_page <$> enumerate l) !! i = Some a →
  (page_result py_repr requests_get clip_probs start_page <$> enumerate l) !! j = Some b →
  page_num a < page_num b.
Proof.
  intros Hij. rewrite !list_lookup_fmap, !enumerate_lookup.
  destruct (l !! i), (l !! j); simpl; try done.
  intros ??. simplify_eq. rewrite !page_result_page_num. simpl. lia.
Qed.

Lemma results_NoDup start_page (l : list (gmap string json)) :
  NoDup (page_num <$>
           (page_result py_repr requests_get clip_probs start_page <$> enumerate l)).
Proof.
  apply NoDup_alt. intros i j x. rewrite !list_lookup_fmap, !enumerate_lookup.
  destruct (l !! i), (l !! j); simpl; try done.
  rewrite !page_result_page_num. simpl. intros ??. simplify_eq. lia.
Qed.
End AfterAnalysis.

(** X8. After a run of [run_analysis] whose image service lookups do not
    raise (in [app4_koncowe.py] and in [app4.py]), [show_summary] reports
    the pages classified as covers in the order in which they were
    analysed, which is ascending page order already: sorting them changes
    nothing.  It reports that there is none exactly when no page of the
    run was classified as a cover. *)
Theorem X8_summary_lists_the_covers_in_page_order
    {image_bytes : Type} (py_repr : json → string)
    (requests_get : string → option image_bytes)
    (clip_probs : image_bytes → option (list Q))
    (start_page end_page : Z) (self : Koncowe.app) :
  Forall (λ canvas, Py.raised (Json.image_service_id canvas) = false)
         (Py.slice (Koncowe.canvases self) (start_page - 1) end_page) →
  let covers :=
    filter (λ p, Koncowe.is_cover p = true)
      (Koncowe.page_result py_repr requests_get clip_probs start_page
         <$> Koncowe.enumerate
               (Py.slice (Koncowe.canvases self) (start_page - 1) end_page)) in
  let summary :=
    [Gui.LineSummaryHeader]
    ++ match covers with
       | [] => [Gui.LineSummaryNoCovers]
       | _ => Gui.LineSummaryCount (length covers)
              :: ((λ cover, Gui.LineSummaryCover (Koncowe.id_text cover)
                              (Koncowe.prob cover)) <$> covers)
       end
    ++ [Gui.LineSummaryDone] in
  Gui.show_summary
    (Koncowe.run_analysis py_repr requests_get clip_probs start_page end_page self).2
    = summary ∧
  Gui.show_summary
    (App4.run_analysis py_repr requests_get clip_probs start_page end_page self).2
    = summary ∧
  Sorted Z.lt (Koncowe.page_num <$> covers).
Proof.
  intros Hok covers summary.
  destruct (run_analysis_results py_repr requests_get clip_probs
              start_page end_page self Hok) as [(l1 & ->) (l2 & ->)].
  assert (Hsort : Gui.sort_by_page covers = covers).
  { apply sort_by_page_filter. apply results_ascending. }
  split_and!.
  - unfold Gui.show_summary. simpl. fold covers. by rewrite Hsort.
  - unfold Gui.show_summary. simpl. fold covers. by rewrite Hsort.
  - apply filter_page_sorted, results_ascending.
Qed.

Lemma X8_summary_lists_the_covers_in_page_order_witness :
  let py_repr := λ _ : json, "?" in
  let requests_get := λ _ : string, @None unit in
  let clip_probs := λ _ : unit, @None (list Q) in
  let self := Koncowe.App [Koncowe.canvas_with_id "p1"; Koncowe.canvas_with_id "p2"]
                2 None [] [] [] in
  let covers :=
    filter (λ p, Koncowe.is_cover p = true)
      (Koncowe.page_result py_repr requests_get clip_probs 1
         <$> Koncowe.enumerate (Py.slice (Koncowe.canvases self) (1 - 1) 2)) in
  let summary :=
    [Gui.LineSummaryHeader]
    ++ match covers with
       | [] => [Gui.LineSummaryNoCovers]
       | _ => Gui.LineSummaryCount (length covers)
              :: ((λ cover, Gui.LineSummaryCover (Koncowe.id_text cover)
                              (Koncowe.prob cover)) <$> covers)
       end
    ++ [Gui.LineSummaryDone] in
  Gui.show_summary
    (Koncowe.run_analysis py_repr requests_get clip_probs 1 2 self).2 = summary ∧
  Gui.show_summary
    (App4.run_analysis py_repr requests_get clip_probs 1 2 self).2 = summary ∧
  Sorted Z.lt (Koncowe.page_num <$> covers).
Proof.
  intros py_repr requests_get clip_probs self.
  apply (X8_summary_lists_the_covers_in_page_order
           py_repr requests_get clip_probs 1 2 self).
  repeat constructor.
Defined.



(** X10. After a run of [run_analysis] from a start page that is at least
    1 and with lookups that do not raise, the editor opens with exactly
    the pages checked that the run classified as covers: a page is checked
    if and only if it is a page of the analysed slice whose result says
    "cover"; the pages outside the slice are there and unchecked. *)
Theorem X10_editor_starts_from_the_analysis
    {image_bytes : Type} (py_repr : json → string)
    (requests_get : string → option image_bytes)
    (clip_probs : image_bytes → option (list Q))
    (start_page end_page : Z) (self : Koncowe.app) (cv : gmap Z bool) :
  (1 ≤ start_page)%Z →
  Forall (λ canvas, Py.raised (Json.image_service_id canvas) = false)
         (Py.slice (Koncowe.canvases self) (start_page - 1) end_page) →
  Gui.open_editor
    (Koncowe.run_analysis py_repr requests_get clip_probs start_page end_page self).2
    = Some cv →
  ∀ p, p ∈ Koncowe.checked_pages cv ↔
       ∃ (j : nat) canvas,
         Py.slice (Koncowe.canvases self) (start_page - 1) end_page !! j = Some canvas ∧
         p = (start_page + Z.of_nat j)%Z ∧
         Koncowe.is_cover
           (Koncowe.page_result py_repr requests_get clip_probs start_page (j, canvas))
           = true.
Proof.
  intros Hstart Hok Hopen p.
  destruct (run_analysis_results py_repr requests_get clip_probs
              start_page end_page self Hok) as [(lines & Hrun) _].
  rewrite Hrun in Hopen.
  rewrite (proj2 (checked_pages_spec cv) p), (open_editor_lookup _ cv p Hopen).
  simpl.
  set (sl := Py.slice (Koncowe.canvases self) (start_page - 1) end_page) in *.
  set (results := Koncowe.page_result py_repr requests_get clip_probs start_page
                    <$> Koncowe.enumerate sl).
  split.
  - case_decide as Hp; [|done].
    destruct (Gui.results_map results !! p) as [r|] eqn:Er; [|done].
    intros [= Hc].
    apply results_map_lookup in Er as [Hr Hnum]; [|apply results_NoDup].
    apply list_elem_of_fmap in Hr as ([j canvas] & -> & Hin).
    apply list_elem_of_lookup in Hin as [i Hi].
    rewrite enumerate_lookup in Hi.
    destruct (sl !! i) as [canvas'|] eqn:Ei; [|done]. simpl in Hi. simplify_eq.
    exists j, canvas. rewrite page_result_page_num. done.
  - intros (j & canvas & Hj & -> & Hc).
    assert (Hin : Koncowe.page_result py_repr requests_get clip_probs start_page
                    (j, canvas) ∈ results).
    { apply list_elem_of_fmap. exists (j, canvas). split; [done|].
      apply (list_elem_of_lookup_2 _ j). by rewrite enumerate_lookup, Hj. }
    assert (Hmap : Gui.results_map results !! (start_page + Z.of_nat j)%Z =
                     Some (Koncowe.page_result py_repr requests_get clip_probs
                             start_page (j, canvas))).
    { apply results_map_lookup; [apply results_NoDup|]. split; [done|].
      by rewrite page_result_page_num. }
    rewrite Hmap.
    apply slice_lookup_Some in Hj; [|lia]. apply lookup_lt_Some in Hj.
    rewrite decide_True by lia. by rewrite Hc.
Qed.

Lemma X10_editor_starts_from_the_analysis_witness :
  let py_repr := λ _ : json, "?" in
  let requests_get := λ _ : string, @None unit in
  let clip_probs := λ _ : unit, @None (list Q) in
  let self := Koncowe.App [Koncowe.canvas_with_id "p1"; Koncowe.canvas_with_id "p2"]
                2 None [] [] [] in
  2%Z ∈ Koncowe.checked_pages ({[ 1%Z := false; 2%Z := false ]} : gmap Z bool) ↔
    ∃ (j : nat) canvas,
      Py.slice (Koncowe.canvases self) (2 - 1) 2 !! j = Some canvas ∧
      2%Z = (2 + Z.of_nat j)%Z ∧
      Koncowe.is_cover
        (Koncowe.page_result py_repr requests_get clip_probs 2 (j, canvas)) = true.
Proof.
  intros py_repr requests_get clip_probs self.
  apply (X10_editor_starts_from_the_analysis py_repr requests_get clip_probs 2 2 self
           {[ 1%Z := false; 2%Z := false ]}).
  - lia.
  - repeat constructor.
  - reflexivity.
Defined.

(** X11. After "deselect all" no page is checked, and a save on a
    manifest that is not empty then returns and leaves the manifest
    without the key ['structures'], whatever its ['@id'] is. *)
Theorem X11_deselect_all_then_save_removes_structures
    (cv : gmap Z bool) (fp : string) (ok : bool) (self : Koncowe.app)
    (m : gmap string json) :
  Koncowe.manifest self = Some m → m ≠ ∅ →
  let out := Koncowe.save_manifest (Gui.deselect_all cv) fp ok self in
  Koncowe.checked_pages (Gui.deselect_all cv) = [] ∧
  Gui.edited cv (Gui.deselect_all cv) ∧
  out.1 = Py.Ret () ∧
  Koncowe.manifest out.2 = Some (delete "structures" m).
Proof.
  intros Hm Hne out.
  pose proof (checked_pages_deselect_all cv) as Hcp.
  destruct (save_manifest_returns (Gui.deselect_all cv) fp ok self m Hm Hne
              (or_introl Hcp)) as (lines & Hs & _).
  unfold out. rewrite Hs. simpl. split_and!; [done| |done|].
  - unfold Gui.edited, Gui.deselect_all. apply dom_fmap_L.
  - unfold Koncowe.saved_manifest. by rewrite Hcp.
Qed.

Lemma X11_deselect_all_then_save_removes_structures_witness :
  let cv : gmap Z bool := {[ 1%Z := true ]} in
  let m : gmap string json := {[ "@id" := JNum 7; "structures" := JArr [] ]} in
  let self := Koncowe.App [Koncowe.canvas_with_id "p1"] 1 (Some m) [] [] [] in
  let out := Koncowe.save_manifest (Gui.deselect_all cv) "f.json" true self in
  Koncowe.checked_pages (Gui.deselect_all cv) = [] ∧
  Gui.edited cv (Gui.deselect_all cv) ∧
  out.1 = Py.Ret () ∧
  Koncowe.manifest out.2 = Some (delete "structures" m).
Proof.
  intros cv m self.
  apply (X11_deselect_all_then_save_removes_structures cv "f.json" true self m).
  - reflexivity.
  - intros H. by apply (f_equal (.!! "@id")) in H.
Defined.

(** ** The OCR heuristic *)

Section OcrFacts.
Import Py OcrClip Ocr.
Local Open Scope Z_scope.

(** The loop over the indices collects what the comprehension over the
    confidences collects. *)
Lemma heights_loop_comprehension (d : ocr_data) (indices : list nat)
    (confs : list (option Z)) (all_heights : list Z) :
  Forall2 (λ i c, conf d !! i = Some c) indices confs →
  heights_loop d indices all_heights =
    (λ r, all_heights ++ r) <$> heights_comprehension d (zip indices confs).
Proof.
  intros H. revert all_heights.
  induction H as [|i c indices confs Hi _ IH]; intros all_heights; simpl.
  - by rewrite app_nil_r.
  - rewrite Hi. destruct c as [c|]; [|done].
    case_bool_decide; [|apply IH].
    destruct (text d !! i) as [t|]; [|done].
    destruct (String.eqb (strip t) ""); [apply IH|].
    destruct (height d !! i) as [h|]; [|done].
    rewrite IH. destruct (heights_comprehension d (zip indices confs)); simpl; [|done].
    by rewrite <- app_assoc.
Qed.

Lemma enumerate_zip {A : Type} (l : list A) :
  Koncowe.enumerate l = zip (seq 0 (length l)) l.
Proof.
  apply list_eq. intros i. rewrite enumerate_lookup.
  rewrite lookup_zip_with.
  destruct (l !! i) as [x|] eqn:E.
  - rewrite lookup_seq_lt by (by eapply lookup_lt_Some). done.
  - rewrite lookup_seq_ge by (by apply lookup_ge_None). done.
Qed.

Lemma count_loop_filter (median_height : Q) (all_heights : list Z) :
  count_loop median_height all_heights =
    length (filter (λ h, is_large median_height h = true) all_heights).
Proof.
  unfold count_loop.
  assert (H : ∀ n, foldl (λ large_text_count h,
                            if is_large median_height h then S large_text_count
                            else large_text_count) n all_heights =
                   (n + length (filter (λ h, is_large median_height h = true)
                                       all_heights))%nat); [|by rewrite H].
  induction all_heights as [|h l IH]; intros n; simpl; [lia|].
  rewrite IH, filter_cons. destruct (is_large median_height h) eqn:E.
  - rewrite decide_True by done. simpl. lia.
  - by rewrite decide_False by done.
Qed.

(** What the comprehension keeps. *)
Lemma heights_comprehension_elem (d : ocr_data) (l : list (nat * option Z))
    (all_heights : list Z) :
  heights_comprehension d l = Some all_heights →
  ∀ h, h ∈ all_heights ↔
       ∃ (i : nat) c t, (i, Some c) ∈ l ∧ c > 60 ∧ text d !! i = Some t ∧
                        strip t ≠ EmptyString ∧ height d !! i = Some h.
Proof.
  revert all_heights. induction l as [|[i c] l IH]; intros all_heights H h.
  - simpl in H. simplify_eq. split.
    + by intros ?%elem_of_nil.
    + by intros (? & ? & ? & ?%elem_of_nil & _).
  - simpl in H. destruct c as [c|]; [|done].
    assert (Hskip : ∀ hs, heights_comprehension d l = Some hs →
              (c > 60 → ∀ t, text d !! i = Some t → strip t = EmptyString) →
              h ∈ hs ↔
              ∃ (i' : nat) c' t, (i', Some c') ∈ (i, Some c) :: l ∧ c' > 60 ∧
                text d !! i' = Some t ∧ strip t ≠ EmptyString ∧
                height d !! i' = Some h).
    { intros hs Hhs Hno. rewrite (IH hs Hhs h). split.
      - intros (i' & c' & t & Hin & ?). exists i', c', t. split; [by right|done].
      - intros (i' & c' & t & [Heq|Hin]%elem_of_cons & Hc & Ht & Hs & Hh).
        + simplify_eq. by specialize (Hno Hc t Ht).
        + exists i', c', t. done. }
    case_bool_decide as Hc; [|apply Hskip; [done|intros; lia]].
    destruct (text d !! i) as [t|] eqn:Et; [|done].
    destruct (String.eqb (strip t) "") eqn:Es.
    { apply String.eqb_eq in Es. apply Hskip; [done|]. intros _ t' ?. by simplify_eq. }
    apply String.eqb_neq in Es.
    destruct (height d !! i) as [h0|] eqn:Eh; [|done].
    destruct (heights_comprehension d l) as [hs|] eqn:Ehs; [|done].
    simpl in H. simplify_eq. rewrite elem_of_cons, (IH hs eq_refl h). split.
    + intros [->|(i' & c' & t' & Hin & ?)].
      * exists i, c, t. split; [by left|done].
      * exists i', c', t'. split; [by right|done].
    + intros (i' & c' & t' & [Heq|Hin]%elem_of_cons & Hc' & Ht & Hs & Hh).
      * simplify_eq. by left.
      * right. exists i', c', t'. done.
Qed.

(** The median lies between the smallest and the largest entry. *)
Lemma median_bounds (l : list Z) (lo hi : Z) :
  l ≠ [] → Forall (λ h, lo ≤ h ≤ hi) l →
  (inject_Z lo <= median l)%Q ∧ (median l <= inject_Z hi)%Q.
Proof.
  intros Hne Hall. unfold median.
  assert (Hlen : length (merge_sort Z.le l) = length l).
  { apply Permutation_length, merge_sort_Permutation. }
  assert (Hs : ∀ k, (k < length l)%nat →
            (inject_Z lo <= inject_Z (merge_sort Z.le l !!! k))%Q ∧
            (inject_Z (merge_sort Z.le l !!! k) <= inject_Z hi)%Q).
  { intros k Hk.
    destruct (lookup_lt_is_Some_2 (merge_sort Z.le l) k) as [x Hx]; [lia|].
    rewrite (list_lookup_total_correct _ _ _ Hx).
    assert (Hin : x ∈ l).
    { rewrite <- (merge_sort_Permutation Z.le l). by eapply list_elem_of_lookup_2. }
    rewrite Forall_forall in Hall. apply Hall in Hin.
    rewrite <- !Zle_Qle. lia. }
  assert (0 < length l)%nat by (destruct l; [done|simpl; lia]).
  pose proof (Nat.div_lt (length l) 2 ltac:(lia) ltac:(lia)).
  destruct (Nat.even (length l)).
  - destruct (Hs (length l / 2 - 1)%nat ltac:(lia)) as [? ?].
    destruct (Hs (length l / 2)%nat ltac:(lia)) as [? ?].
    unfold Qdiv. change (/ 2)%Q with (1 # 2)%Q. split; lra.
  - by apply Hs.
Qed.
End OcrFacts.

(** X12. On the dictionary of the OCR engine, whose lists [text] and
    [conf] have the same length, the heuristic written with two loops
    ([ocr_and_clip.py]) and the one written with comprehensions
    ([laion_grupowanie_zdjec.py], [laion_and_ocr!.py]) return the same
    result, errors included. *)
Theorem X12_ocr_loop_and_comprehension_agree (data : option Ocr.ocr_data) :
  (∀ d, data = Some d → length (Ocr.text d) = length (Ocr.conf d)) →
  Ocr.analizuj_petla data = Ocr.analizuj_skladane data.
Proof.
  intros Hlen. destruct data as [d|]; [|done].
  specialize (Hlen d eq_refl). unfold Ocr.analizuj_petla, Ocr.analizuj_skladane.
  rewrite (heights_loop_comprehension d _ (Ocr.conf d)).
  - rewrite Hlen, <- enumerate_zip.
    destruct (Ocr.heights_comprehension d _) as [[|h hs]|]; simpl; [done| |done].
    by rewrite count_loop_filter.
  - rewrite Hlen. apply Forall2_same_length_lookup_2; [by rewrite length_seq|].
    intros i j c Hj Hc. apply lookup_seq in Hj as [-> _]. done.
Qed.

Lemma X12_ocr_loop_and_comprehension_agree_witness :
  let data := Some (Ocr.OcrData ["TYTUL"; " "; "tekst"] [Some 95; Some 90; Some 70]%Z
                                [120; 30; 12]%Z) in
  Ocr.analizuj_petla data = Ocr.analizuj_skladane data.
Proof.
  intros data. apply (X12_ocr_loop_and_comprehension_agree data).
  intros d [= <-]. reflexivity.
Defined.

(** X13. When the heuristic of [laion_grupowanie_zdjec.py] returns
    without error, with "box" meaning an index whose confidence is above
    60 and whose text is not blank: it reports "no text" exactly when
    there is no box; one box higher than 50 pixels is enough for "large
    text found"; and when no box is higher than 50 pixels nor higher than
    four times the smallest box, no large text is found. *)
Theorem X13_large_text_thresholds (d : Ocr.ocr_data) :
  Ocr.analizuj_skladane (Some d) ≠ OcrClip.BladOcr →
  let box (h : Z) : Prop :=
    ∃ (i : nat) c t, Ocr.conf d !! i = Some (Some c) ∧ (c > 60)%Z ∧
      Ocr.text d !! i = Some t ∧ Py.strip t ≠ EmptyString ∧
      Ocr.height d !! i = Some h in
  let analiza := Ocr.analizuj_skladane (Some d) in
  (analiza = OcrClip.BrakTekstu ↔ ¬ ∃ h, box h) ∧
  ((∃ h, box h ∧ (h > 50)%Z) → OcrClip.znaleziono_duzy_tekst analiza = true) ∧
  (∀ lo hi : Z, (∀ h, box h → (lo ≤ h ≤ hi)%Z) → (hi ≤ 50)%Z → (hi ≤ 4 * lo)%Z →
                OcrClip.znaleziono_duzy_tekst analiza = false).
Proof.
  intros Hok box analiza. unfold analiza, Ocr.analizuj_skladane in *.
  destruct (Ocr.heights_comprehension d _) as [hs|] eqn:E; [|done].
  pose proof (heights_comprehension_elem d _ hs E) as Hel.
  assert (Hbox : ∀ h, h ∈ hs ↔ box h).
  { intros h. rewrite (Hel h). unfold box. split.
    - intros (i & c & t & (j & x & Heq & Hj)%elem_of_lookup_imap & ?).
      simplify_eq. eauto 10.
    - intros (i & c & t & Hi & ?). exists i, c, t. split; [|done].
      apply elem_of_lookup_imap. eauto. }
  destruct hs as [|h0 hs'] eqn:Ehs.
  { split_and!.
    - split; [|done]. intros _ [h Hh%Hbox]. by apply elem_of_nil in Hh.
    - intros (h & Hh%Hbox & _). by apply elem_of_nil in Hh.
    - done. }
  rewrite <- Ehs in *. clear Hel. split_and!.
  - split; [done|]. intros Hno. destruct Hno. exists h0. apply Hbox.
    rewrite Ehs. by left.
  - intros (h & Hh%Hbox & Hlarge). simpl. apply bool_decide_eq_true.
    assert (Hin : h ∈ filter (λ h, Ocr.is_large (Ocr.median hs) h = true) hs).
    { apply list_elem_of_filter. split; [|done]. unfold Ocr.is_large.
      rewrite bool_decide_true; [done|]. unfold Ocr.MIN_LARGE_TEXT_HEIGHT_PIXELS. lia. }
    destruct (filter _ hs); [by apply elem_of_nil in Hin|simpl; lia].
  - intros lo hi Hall Hhi Hlo. simpl. apply bool_decide_eq_false.
    destruct (median_bounds hs lo hi) as [Hm _].
    { by rewrite Ehs. }
    { apply Forall_forall. intros h Hh%Hbox. by apply Hall. }
    assert (Hnone : filter (λ h, Ocr.is_large (Ocr.median hs) h = true) hs = []).
    { destruct (filter _ hs) as [|h hs''] eqn:Ef; [done|]. exfalso.
      assert (Hin : h ∈ filter (λ h, Ocr.is_large (Ocr.median hs) h = true) hs)
        by (rewrite Ef; by left).
      apply list_elem_of_filter in Hin as [Hl Hin].
      apply Hbox, Hall in Hin. unfold Ocr.is_large in Hl.
      rewrite bool_decide_false in Hl
        by (unfold Ocr.MIN_LARGE_TEXT_HEIGHT_PIXELS; lia).
      simpl in Hl. apply negb_true_iff in Hl.
      assert (inject_Z h <= Ocr.median hs * Ocr.LARGE_TEXT_TO_NORMAL_RATIO)%Q as Hle.
      { assert (h ≤ 4 * lo)%Z as Hh by lia.
        rewrite Zle_Qle, inject_Z_mult in Hh.
        change (inject_Z 4) with 4%Q in Hh.
        change Ocr.LARGE_TEXT_TO_NORMAL_RATIO with 4%Q. lra. }
      apply Qle_bool_iff in Hle. congruence. }
    rewrite Hnone. simpl. lia.
Qed.

Lemma X13_large_text_thresholds_witness :
  let d := Ocr.OcrData ["TYTUL"; " "; "tekst"] [Some 95; Some 90; Some 70]%Z
                       [120; 30; 12]%Z in
  let box (h : Z) : Prop :=
    ∃ (i : nat) c t, Ocr.conf d !! i = Some (Some c) ∧ (c > 60)%Z ∧
      Ocr.text d !! i = Some t ∧ Py.strip t ≠ EmptyString ∧
      Ocr.height d !! i = Some h in
  let analiza := Ocr.analizuj_skladane (Some d) in
  (analiza = OcrClip.BrakTekstu ↔ ¬ ∃ h, box h) ∧
  ((∃ h, box h ∧ (h > 50)%Z) → OcrClip.znaleziono_duzy_tekst analiza = true) ∧
  (∀ lo hi : Z, (∀ h, box h → (lo ≤ h ≤ hi)%Z) → (hi ≤ 50)%Z → (hi ≤ 4 * lo)%Z →
                OcrClip.znaleziono_duzy_tekst analiza = false).
Proof.
  intros d. apply (X13_large_text_thresholds d). by vm_compute.
Defined.

(** ** The batches of [laion_grupowanie_zdjec.py] *)

Section WsadFacts.
Import Py OcrClip Grupowanie Wsad.
Local Open Scope Z_scope.
Context {image_bytes image : Type}.
Variable py_repr : json → string.
Variable requests_get : string → option image_bytes.
Variable image_open : image_bytes → option image.
Variable clip_probs_wsad : list image → option (list (list Q)).
Variable analizuj_strukture_tekstu_ocr : image_bytes → analiza_ocr.
Variable procent : Q → string.

(** A batch whose CLIP results are all errors adds nothing. *)
Lemma analizuj_wsad_bledy (w : wyniki) (batch_danych : list (dane image_bytes)) (n : nat) :
  analizuj_wsad py_repr analizuj_strukture_tekstu_ocr procent w batch_danych
    (replicate n BladClip) = w.
Proof.
  unfold analizuj_wsad. revert n.
  induction batch_danych as [|d l IH]; intros [|n]; simpl; done.
Qed.

(** The batch classifier answers for every image, with results only or
    with errors only. *)
Lemma klasyfikuj_obraz_clip_wsadowo_cases (images : list image) :
  klasyfikuj_obraz_clip_wsadowo clip_probs_wsad images =
    replicate (length images) BladClip ∨
  ∃ probs,
    clip_probs_wsad images = Some probs ∧
    Forall2 (λ (i : nat) ocena,
               ∃ prawdopodobienstwa_obrazu najlepszy_indeks,
                 probs !! i = Some prawdopodobienstwa_obrazu ∧
                 Koncowe.argmax prawdopodobienstwa_obrazu = Some najlepszy_indeks ∧
                 ocena = OcenaClip najlepszy_indeks
                           (prawdopodobienstwa_obrazu !!! najlepszy_indeks)
                           (bool_decide (najlepszy_indeks = 0%nat)))
            (seq 0 (length images))
            (klasyfikuj_obraz_clip_wsadowo clip_probs_wsad images).
Proof.
  unfold klasyfikuj_obraz_clip_wsadowo.
  destruct (clip_probs_wsad images) as [probs|]; [|by left].
  destruct (mapM _ (seq 0 (length images))) as [wyniki|] eqn:E; [|by left].
  right. exists probs. split; [done|].
  apply mapM_Some_1 in E. eapply Forall2_impl; [done|].
  intros i ocena H. simpl in H.
  destruct (probs !! i) as [row|]; [|done]. simpl in H.
  destruct (Koncowe.argmax row) as [best|] eqn:Eb; [|done]. simpl in H.
  simplify_eq. by exists row, best.
Qed.
End WsadFacts.

(** X14. [klasyfikuj_obraz_clip_wsadowo] returns one entry per image,
    and never a mix: either every entry is the error dictionary, or none
    is and the entry of the image at index [i] is the first largest
    probability of row [i] with its index. *)
Theorem X14_batch_classifier_is_all_or_nothing
    {image : Type} (clip_probs_wsad : list image → option (list (list Q)))
    (images : list image) :
  let wyniki := Wsad.klasyfikuj_obraz_clip_wsadowo clip_probs_wsad images in
  length wyniki = length images ∧
  (wyniki = replicate (length images) OcrClip.BladClip ∨
   (Forall (λ ocena, ocena ≠ OcrClip.BladClip) wyniki ∧
    ∃ probs, clip_probs_wsad images = Some probs ∧
      ∀ (i : nat) ocena, wyniki !! i = Some ocena →
        ∃ row best, probs !! i = Some row ∧ Koncowe.argmax row = Some best ∧
          ocena = OcrClip.OcenaClip best (row !!! best) (bool_decide (best = 0%nat)))).
Proof.
  intros wyniki.
  destruct (klasyfikuj_obraz_clip_wsadowo_cases clip_probs_wsad images)
    as [H|(probs & Hp & H)]; fold wyniki in H.
  - rewrite H. split; [apply length_replicate|by left].
  - split; [by rewrite <- (Forall2_length _ _ _ H), length_seq|].
    right. split.
    + eapply Forall2_Forall_r; [done|]. apply Forall_forall.
      intros i _ ocena (row & best & _ & _ & ->). done.
    + exists probs. split; [done|]. intros i ocena Hi.
      destruct (Forall2_lookup_r _ _ _ _ _ H Hi) as (j & Hj & Hrow).
      apply lookup_seq in Hj as [-> _]. done.
Qed.

(** X15. When the CLIP call on a batch fails for a single image (the
    model raises, or a row is missing or empty), the whole batch is lost:
    no page of the batch goes to any of the three lists, whatever the OCR
    analysis would find on it. *)
Theorem X15_failed_batch_reports_no_page
    {image_bytes image : Type} (py_repr : json → string)
    (image_open : image_bytes → option image)
    (clip_probs_wsad : list image → option (list (list Q)))
    (ocr : image_bytes → OcrClip.analiza_ocr) (procent : Q → string)
    (w : OcrClip.wyniki) (batch_danych : list (Grupowanie.dane image_bytes))
    (images : list image) :
  mapM (λ d, image_open (Grupowanie.dane_image_bytes d)) batch_danych = Some images →
  OcrClip.BladClip ∈ Wsad.klasyfikuj_obraz_clip_wsadowo clip_probs_wsad images →
  Wsad.przetworz_wsad py_repr image_open clip_probs_wsad ocr procent w batch_danych
    = Some w.
Proof.
  intros Hopen Hin. unfold Wsad.przetworz_wsad. rewrite Hopen. simpl. f_equal.
  destruct (klasyfikuj_obraz_clip_wsadowo_cases clip_probs_wsad images)
    as [->|(probs & _ & H)].
  - apply analizuj_wsad_bledy.
  - exfalso. apply list_elem_of_lookup in Hin as [i Hi].
    destruct (Forall2_lookup_r _ _ _ _ _ H Hi) as (j & _ & row & best & _ & _ & ?).
    done.
Qed.

Lemma X15_failed_batch_reports_no_page_witness :
  let w := OcrClip.Wyniki [] [] [] in
  Wsad.przetworz_wsad (λ _ : json, "?") (λ b : unit, Some b)
    (λ _ : list unit, @None (list (list Q)))
    (λ _ : unit, OcrClip.AnalizaOcr 3) (λ _ : Q, "%") w
    [Grupowanie.Dane () (JStr "1") 1] = Some w.
Proof.
  intros w.
  apply (X15_failed_batch_reports_no_page (λ _ : json, "?") (λ b : unit, Some b)
           (λ _ : list unit, @None (list (list Q)))
           (λ _ : unit, OcrClip.AnalizaOcr 3) (λ _ : Q, "%") w
           [Grupowanie.Dane () (JStr "1") 1] [()]).
  - reflexivity.
  - apply list_elem_of_singleton. reflexivity.
Defined.

(** ** The lists of the hybrid loops *)

Section HybridLoop.
Import Py OcrClip Hybrid.
Context {image_bytes : Type}.
Variable py_repr : json → string.
Variable requests_get : string → option image_bytes.
Variable clip_probs : image_bytes → option (list Q).
Variable ocr : image_bytes → analiza_ocr.

Lemma consistent_S (n : nat) (w : wyniki) : consistent n w → consistent (S n) w.
Proof. intros (? & ? & ? & ?). split_and!; [done..|lia]. Qed.

Lemma ocen_strone_consistent (n : nat) (w : wyniki) (id : string) (content : image_bytes) :
  consistent n w → consistent (S n) (ocen_strone clip_probs ocr w id content).
Proof.
  intros Hw. pose proof (consistent_S n w Hw) as Hw'.
  destruct Hw as (Hc & Ho & Hk & Hn). unfold ocen_strone.
  destruct (klasyfikuj_obraz_clip clip_probs content) as [k p c|]; [|done].
  destruct (ocr content) as [|m|]; [| |done]; simpl;
    destruct c; try destruct (bool_decide _); simpl; try done;
    (split_and!; simpl;
     [ first [ by apply sublist_app | by apply sublist_inserts_r ]
     | first [ by apply sublist_app | by apply sublist_inserts_r ]
     | intros x [Hx| ->%list_elem_of_singleton]%elem_of_app;
       rewrite ?elem_of_app, ?list_elem_of_singleton;
       [destruct (Hk x Hx); auto|auto]
     | rewrite length_app; simpl; lia ]).
Qed.

Lemma analizuj_strone_consistent (n : nat) (w w' : wyniki) ic :
  analizuj_strone py_repr requests_get clip_probs ocr w ic = Ret w' →
  consistent n w → consistent (S n) w'.
Proof.
  unfold analizuj_strone.
  destruct (Json.image_service_id ic.2) as [url|]; simpl; [|done].
  destruct (Json.truthy url); [|intros [= <-]; apply consistent_S].
  destruct url; try done.
  destruct (requests_get _); intros [= <-]; [apply ocen_strone_consistent|apply consistent_S].
Qed.

Lemma petla_consistent (l : list (nat * gmap string json)) (n : nat) (w w' : wyniki) :
  petla py_repr requests_get clip_probs ocr w l = Ret w' →
  consistent n w → consistent (n + length l) w'.
Proof.
  revert n w. induction l as [|ic l IH]; intros n w; simpl.
  - intros [= <-]. by rewrite Nat.add_0_r.
  - destruct (analizuj_strone _ _ _ _ w ic) as [w1|] eqn:E; simpl; [|done].
    intros Hl Hw. replace (n + S (length l))%nat with (S n + length l)%nat by lia.
    apply (IH _ w1); [done|]. by eapply analizuj_strone_consistent.
Qed.
End HybridLoop.

(** X16. When [analizuj_manifest] of [ocr_and_clip.py] (and of
    [laion_and_ocr!.py]) runs to its end, the pages of the CLIP list and
    those of the OCR list are in the final list, in the same order; every
    page of the final list is in one of the two; and the final list has
    at most as many pages as were examined. *)
Theorem X16_final_list_is_the_union
    {image_bytes : Type} (py_repr : json → string)
    (requests_get : string → option image_bytes)
    (clip_probs : image_bytes → option (list Q))
    (ocr : image_bytes → OcrClip.analiza_ocr)
    (canvases : list (gmap string json)) (limit_stron : Z) (w : OcrClip.wyniki) :
  OcrClip.analizuj_manifest py_repr requests_get clip_probs ocr canvases limit_stron
    = Py.Ret (Some w) →
  OcrClip.wyniki_clip_okladki w `sublist_of` OcrClip.wyniki_koncowe_okladki w ∧
  OcrClip.wyniki_ocr_okladki w `sublist_of` OcrClip.wyniki_koncowe_okladki w ∧
  (∀ id, id ∈ OcrClip.wyniki_koncowe_okladki w ↔
         id ∈ OcrClip.wyniki_clip_okladki w ∨ id ∈ OcrClip.wyniki_ocr_okladki w) ∧
  (length (OcrClip.wyniki_koncowe_okladki w)
     ≤ length (Py.slice canvases 0 limit_stron))%nat.
Proof.
  unfold OcrClip.analizuj_manifest. destruct canvases as [|c cs]; [done|].
  destruct (OcrClip.petla _ _ _ _ _ _) as [w'|] eqn:E; simpl; [|done].
  intros [= ->].
  apply (petla_consistent _ _ _ _ _ 0) in E as (Hc & Ho & Hk & Hn).
  - split_and!; [done..| |].
    + intros id. split; [apply Hk|].
      intros [H|H]; eapply elem_of_sublist; eauto.
    + unfold Koncowe.enumerate in Hn. by rewrite length_imap in Hn.
  - split_and!; simpl; [done..| |lia]. by intros id ?%elem_of_nil.
Qed.

Lemma X16_final_list_is_the_union_witness :
  let w := OcrClip.Wyniki [] [] [] in
  let canvases := [Koncowe.canvas_with_id "p1"] in
  OcrClip.wyniki_clip_okladki w `sublist_of` OcrClip.wyniki_koncowe_okladki w ∧
  OcrClip.wyniki_ocr_okladki w `sublist_of` OcrClip.wyniki_koncowe_okladki w ∧
  (∀ id, id ∈ OcrClip.wyniki_koncowe_okladki w ↔
         id ∈ OcrClip.wyniki_clip_okladki w ∨ id ∈ OcrClip.wyniki_ocr_okladki w) ∧
  (length (OcrClip.wyniki_koncowe_okladki w) ≤ length (Py.slice canvases 0 5))%nat.
Proof.
  intros w canvases.
  apply (X16_final_list_is_the_union (λ _ : json, "?") (λ _ : string, @None unit)
           (λ _ : unit, @None (list Q)) (λ _ : unit, OcrClip.BrakTekstu)
           canvases 5 w).
  reflexivity.
Defined.

Section Pending.
Import Py OcrClip Grupowanie Wsad.
Local Open Scope Z_scope.
Context {image_bytes image : Type}.
Variable py_repr : json → string.
Variable requests_get : string → option image_bytes.
Variable image_open : image_bytes → option image.
Variable clip_probs_wsad : list image → option (list (list Q)).
Variable ocr : image_bytes → analiza_ocr.
Variable procent : Q → string.

Lemma petla_app (n : nat) (rozmiar_wsadu : Z) st (l1 l2 : list (nat * gmap string json)) :
  petla py_repr requests_get image_open clip_probs_wsad ocr procent
        n rozmiar_wsadu st (l1 ++ l2) =
    match petla py_repr requests_get image_open clip_probs_wsad ocr procent
                n rozmiar_wsadu st l1 with
    | Koniec st' =>
        petla py_repr requests_get image_open clip_probs_wsad ocr procent
              n rozmiar_wsadu st' l2
    | Wyjatek e => Wyjatek e
    | NieObraz => NieObraz
    end.
Proof.
  revert st. induction l1 as [|ic l1 IH]; intros st; simpl; [done|].
  destruct (obrot _ _ _ _ _ _ _ _ _ _) as [st'| |]; [apply IH|done..].
Qed.

(** As long as the batch cannot fill up and the last canvas is not
    reached, the loop only collects. *)
Lemma petla_bez_wsadu (n : nat) (rozmiar_wsadu : Z) (l : list (gmap string json))
    (k : nat) (w : wyniki) (batch_danych : list (dane image_bytes)) :
  (k + length l < n)%nat →
  Z.of_nat (length batch_danych + length l) < rozmiar_wsadu ∨ rozmiar_wsadu < 0 →
  Forall (λ canvas, ∃ v, Json.image_service_id canvas = Ret v ∧
                         (Json.truthy v = true → ∃ url, v = JStr url)) l →
  ∃ batch_danych',
    petla py_repr requests_get image_open clip_probs_wsad ocr procent
          n rozmiar_wsadu (w, batch_danych) (imap (λ i x, ((k + i)%nat, x)) l)
      = Koniec (w, batch_danych').
Proof.
  intros Hk Hr Hl. revert k batch_danych Hk Hr.
  induction Hl as [|canvas l (v & Hv & Hstr) _ IH]; intros k batch_danych Hk Hr.
  { by exists batch_danych. }
  rewrite imap_cons.
  rewrite (imap_ext _ (λ i x, ((S k + i)%nat, x)))
    by (intros; simpl; f_equal; lia).
  simpl in Hk, Hr. simpl. unfold obrot. simpl. rewrite Hv.
  destruct (Json.truthy v) eqn:Et.
  - destruct (Hstr eq_refl) as [url ->].
    match goal with |- context [bool_decide (Z.of_nat (length ?b) = _)] =>
      set (batch := b) end.
    assert (Hb : (length batch ≤ S (length batch_danych))%nat).
    { unfold batch. destruct (requests_get _); [|lia].
      rewrite length_app. simpl. lia. }
    rewrite bool_decide_false by lia. rewrite bool_decide_false by lia. simpl.
    apply (IH (S k) batch); lia.
  - apply (IH (S k) batch_danych); lia.
Qed.
End Pending.

(** X17. In [laion_grupowanie_zdjec.py] the test that starts the
    processing of a batch stands behind the [continue] of a canvas without
    image service.  So when the last analysed canvas has no image service
    and the batch size is larger than the number of pages before it, the
    images downloaded for those pages are never analysed: the function
    ends with three empty lists, whatever the pages show. *)
Theorem X17_pending_batch_is_dropped
    {image_bytes image : Type} (py_repr : json → string)
    (requests_get : string → option image_bytes)
    (image_open : image_bytes → option image)
    (clip_probs_wsad : list image → option (list (list Q)))
    (ocr : image_bytes → OcrClip.analiza_ocr) (procent : Q → string)
    (canvases : list (gmap string json)) (limit_stron rozmiar_wsadu : Z)
    (l : list (gmap string json)) (last : gmap string json) (v : json) :
  Py.slice canvases 0 limit_stron = l ++ [last] →
  Forall (λ canvas, ∃ v, Json.image_service_id canvas = Py.Ret v ∧
                         (Json.truthy v = true → ∃ url, v = JStr url)) l →
  Json.image_service_id last = Py.Ret v → Json.truthy v = false →
  (Z.of_nat (length l) < rozmiar_wsadu)%Z →
  Wsad.analizuj_manifest py_repr requests_get image_open clip_probs_wsad ocr procent
    canvases limit_stron rozmiar_wsadu
    = Wsad.Koniec (Some (OcrClip.Wyniki [] [] [])).
Proof.
  intros Hslice Hl Hv Ht Hr. unfold Wsad.analizuj_manifest.
  destruct canvases as [|c cs].
  { unfold Py.slice in Hslice. rewrite drop_nil, take_nil in Hslice. by destruct l. }
  rewrite Hslice, enumerate_snoc, petla_app.
  destruct (petla_bez_wsadu py_repr requests_get image_open clip_probs_wsad ocr procent
              (length (l ++ [last])) rozmiar_wsadu l 0 (OcrClip.Wyniki [] [] []) [])
    as (batch & Hp).
  - rewrite length_app. simpl. lia.
  - left. simpl. lia.
  - done.
  - change (imap (λ i x, ((0 + i)%nat, x)) l) with (Koncowe.enumerate l) in Hp.
    rewrite Hp. simpl. unfold Wsad.obrot. simpl. by rewrite Hv, Ht.
Qed.

Lemma X17_pending_batch_is_dropped_witness :
  let page : gmap string json :=
    {[ "images" :=
         JArr [JObj {[ "resource" :=
                         JObj {[ "service" := JObj {[ "@id" := JStr "http://i" ]} ]} ]}] ]} in
  Wsad.analizuj_manifest (λ _ : json, "?") (λ _ : string, Some ()) (λ b : unit, Some b)
    (λ images : list unit, Some ((λ _, [1%Q; 0%Q]) <$> images))
    (λ _ : unit, OcrClip.AnalizaOcr 3) (λ _ : Q, "%")
    [page; Koncowe.canvas_with_id "p2"] 5 8
    = Wsad.Koniec (Some (OcrClip.Wyniki [] [] [])).
Proof.
  intros page.
  apply (X17_pending_batch_is_dropped (λ _ : json, "?") (λ _ : string, Some ())
           (λ b : unit, Some b)
           (λ images : list unit, Some ((λ _, [1%Q; 0%Q]) <$> images))
           (λ _ : unit, OcrClip.AnalizaOcr 3) (λ _ : Q, "%")
           [page; Koncowe.canvas_with_id "p2"] 5 8
           [page] (Koncowe.canvas_with_id "p2") JNull).
  - reflexivity.
  - constructor; [|constructor].
    exists (JStr "http://i"). split; [reflexivity|]. intros _. by exists "http://i".
  - reflexivity.
  - reflexivity.
  - simpl. lia.
Defined.

(** ** The log of the two desktop variants *)

(** X18. For a page whose image service is a non-empty string, both
    desktop variants append the neutral result when the page fails, but
    they do not log the same: when the download fails both log the
    "skipped" line; when the image is there and the classifier fails,
    [app4_koncowe.py] logs nothing (it tests for the key ['error']), while
    [app4.py] logs the "skipped" line, the update with the set that its
    [classify] returns having raised. *)
Theorem X18_failed_page_in_the_log
    {image_bytes : Type} (py_repr : json → string)
    (requests_get : string → option image_bytes)
    (clip_probs : image_bytes → option (list Q))
    (start_page : Z) (j : nat) (canvas : gmap string json) (url : string)
    (self : Koncowe.app) :
  Json.image_service_id canvas = Py.Ret (JStr url) → url ≠ EmptyString →
  let image_url := Py.rstrip_slash url +:+ "/full/1200,/0/default.jpg" in
  let page_num := (start_page + Z.of_nat j)%Z in
  let pd := Koncowe.new_page_data py_repr page_num canvas in
  let run := Koncowe.analyse_page py_repr requests_get clip_probs start_page
               (j, canvas) self in
  let run4 := App4.analyse_page py_repr requests_get clip_probs start_page
                (j, canvas) self in
  (requests_get image_url = None →
     run = (Py.Ret (), Koncowe.extended self [pd] [Koncowe.LogSkippedPage page_num]) ∧
     run4 = run) ∧
  (∀ content, requests_get image_url = Some content →
     Koncowe.classify clip_probs content = Koncowe.ClassifyError →
     run = (Py.Ret (), Koncowe.extended self [pd] []) ∧
     run4 = (Py.Ret (), Koncowe.extended self [pd] [Koncowe.LogSkippedPage page_num])).
Proof.
  intros Hurl Hne image_url page_num pd run run4.
  apply String.eqb_neq in Hne.
  unfold run, run4, Koncowe.analyse_page, App4.analyse_page,
    Koncowe.fetch_and_classify, App4.fetch_and_classify,
    Koncowe.lift, Koncowe.append_result, Koncowe.log, mbind, Koncowe.M_bind,
    mret, Koncowe.M_ret.
  simpl. rewrite Hurl. simpl. rewrite Hne. simpl. fold image_url. split.
  - intros ->. done.
  - intros content -> Hc. rewrite App4_classify, Hc. simpl.
    unfold Koncowe.extended. simpl. by rewrite !app_nil_r.
Qed.

Lemma X18_failed_page_in_the_log_witness :
  let py_repr := λ _ : json, "?" in
  let requests_get := λ _ : string, Some () in
  let clip_probs := λ _ : unit, @None (list Q) in
  let canvas : gmap string json :=
    {[ "images" :=
         JArr [JObj {[ "resource" :=
                         JObj {[ "service" := JObj {[ "@id" := JStr "http://i/" ]} ]} ]}] ]} in
  let self := Koncowe.App [canvas] 1 None [] [] [] in
  let image_url := Py.rstrip_slash "http://i/" +:+ "/full/1200,/0/default.jpg" in
  let page_num := (1 + Z.of_nat 0)%Z in
  let pd := Koncowe.new_page_data py_repr page_num canvas in
  let run := Koncowe.analyse_page py_repr requests_get clip_probs 1 (0%nat, canvas) self in
  let run4 := App4.analyse_page py_repr requests_get clip_probs 1 (0%nat, canvas) self in
  (requests_get image_url = None →
     run = (Py.Ret (), Koncowe.extended self [pd] [Koncowe.LogSkippedPage page_num]) ∧
     run4 = run) ∧
  (∀ content, requests_get image_url = Some content →
     Koncowe.classify clip_probs content = Koncowe.ClassifyError →
     run = (Py.Ret (), Koncowe.extended self [pd] []) ∧
     run4 = (Py.Ret (), Koncowe.extended self [pd] [Koncowe.LogSkippedPage page_num])).
Proof.
  intros py_repr requests_get clip_probs canvas self.
  apply (X18_failed_page_in_the_log py_repr requests_get clip_probs 1 0 canvas
           "http://i/" self).
  - reflexivity.
  - discriminate.
Defined.

(** ** The batch size *)

Section BatchSize.
Import Py OcrClip Grupowanie Wsad Strona.
Local Open Scope Z_scope.
Context {image_bytes image : Type}.
Variable py_repr : json → string.
Variable requests_get : string → option image_bytes.
Variable image_open : image_bytes → option image.
Variable clip_probs_wsad : list image → option (list (list Q)).
Variable ocr : image_bytes → analiza_ocr.
Variable procent : Q → string.
Variable obraz : image_bytes → image.
Variable wiersz : image → list Q.
Hypothesis image_open_obraz : ∀ b, image_open b = Some (obraz b).
Hypothesis clip_probs_wiersz :
  ∀ images, clip_probs_wsad images = Some (wiersz <$> images).
Hypothesis wiersz_not_empty : ∀ im, wiersz im ≠ [].

Lemma klasyfikuj_obraz_clip_wsadowo_wiersze (images : list image) :
  klasyfikuj_obraz_clip_wsadowo clip_probs_wsad images =
    (λ im, ocena_wiersza (wiersz im)) <$> images.
Proof.
  unfold klasyfikuj_obraz_clip_wsadowo. rewrite clip_probs_wiersz.
  rewrite (mapM_Some_2 _ _ ((λ im, ocena_wiersza (wiersz im)) <$> images)); [done|].
  apply Forall2_same_length_lookup_2; [by rewrite length_seq, length_fmap|].
  intros i j ocena Hj Ho. apply lookup_seq in Hj as [-> _]. simpl in *.
  rewrite list_lookup_fmap in Ho. rewrite list_lookup_fmap.
  destruct (images !! i) as [im|]; [|done]. simpl in *. simplify_eq.
  unfold ocena_wiersza. pose proof (wiersz_not_empty im).
  destruct (wiersz im) eqn:E; done.
Qed.

(** A batch is processed entry by entry. *)
Lemma przetworz_wsad_foldl (w : wyniki) (batch_danych : list (dane image_bytes)) :
  przetworz_wsad py_repr image_open clip_probs_wsad ocr procent w batch_danych =
    Some (foldl (analizuj_dane py_repr ocr procent obraz wiersz) w batch_danych).
Proof.
  unfold przetworz_wsad.
  rewrite (mapM_Some_2 _ _ ((λ d, obraz (dane_image_bytes d)) <$> batch_danych)).
  2:{ apply Forall2_fmap_r, Forall_Forall2_diag, Forall_forall.
      intros d _. apply image_open_obraz. }
  simpl. f_equal. rewrite klasyfikuj_obraz_clip_wsadowo_wiersze.
  unfold analizuj_wsad. rewrite <- list_fmap_compose. revert w.
  induction batch_danych as [|d l IH]; intros w; [done|]. simpl. apply IH.
Qed.

(** One turn of the outer loop, whether or not it processes the batch. *)
Lemma obrot_foldl (n : nat) (rozmiar_wsadu : Z) st (ic : nat * gmap string json) :
  (∃ v, Json.image_service_id ic.2 = Ret v ∧
        (Json.truthy v = true → ∃ url, v = JStr url)) →
  ∃ st',
    obrot py_repr requests_get image_open clip_probs_wsad ocr procent
          n rozmiar_wsadu st ic = Koniec st' ∧
    foldl (analizuj_dane py_repr ocr procent obraz wiersz) st'.1 st'.2 =
      foldl (analizuj_dane py_repr ocr procent obraz wiersz)
            (foldl (analizuj_dane py_repr ocr procent obraz wiersz) st.1 st.2)
            (option_list (pobierz requests_get ic)) ∧
    (Z.of_nat ic.1 = Z.of_nat n - 1 →
     (∃ url, Json.image_service_id ic.2 = Ret (JStr url) ∧ url ≠ EmptyString) →
     st'.2 = []).
Proof.
  intros (v & Hv & Hstr). unfold obrot, pobierz. rewrite Hv.
  destruct (Json.truthy v) eqn:Et.
  - destruct (Hstr eq_refl) as [url ->]. rewrite Et.
    set (batch := match requests_get _ with
                  | Some content => st.2 ++ [_]
                  | None => st.2
                  end).
    assert (Hb : batch = st.2 ++ option_list
                   (match requests_get
                            (rstrip_slash url +:+ "/full/1200,/0/default.jpg") with
                    | Some content =>
                        Some (Dane content
                                (default (JStr "[Brak etykiety]") (ic.2 !! "label"))
                                (Z.of_nat ic.1 + 1))
                    | None => None
                    end)).
    { unfold batch. destruct (requests_get _); simpl; by rewrite ?app_nil_r. }
    destruct (bool_decide (Z.of_nat (length batch) = rozmiar_wsadu)
              || bool_decide (Z.of_nat ic.1 = Z.of_nat n - 1)) eqn:Ef.
    + rewrite przetworz_wsad_foldl. eexists. split; [done|]. simpl.
      split; [|done]. by rewrite Hb, foldl_app.
    + eexists. split; [done|]. simpl. split; [by rewrite Hb, foldl_app|].
      intros Hlast _. apply orb_false_iff in Ef as [_ Ef].
      by rewrite bool_decide_true in Ef.
  - exists st. split; [done|]. split.
    + by destruct v; try done; rewrite Et.
    + intros _ (url & Hu & Hne). rewrite Hu in Hv. simplify_eq.
      simpl in Et. apply negb_false_iff, String.eqb_eq in Et. done.
Qed.

(** The whole loop: what the lists and the pending batch amount to does
    not depend on when the batches were processed, and a last canvas with
    an image service leaves no batch pending. *)
Lemma petla_foldl (n : nat) (rozmiar_wsadu : Z) (l : list (gmap string json)) :
  ∀ (k : nat) st,
  Forall (λ canvas, ∃ v, Json.image_service_id canvas = Ret v ∧
                         (Json.truthy v = true → ∃ url, v = JStr url)) l →
  ∃ st',
    petla py_repr requests_get image_open clip_probs_wsad ocr procent
          n rozmiar_wsadu st (imap (λ i x, ((k + i)%nat, x)) l) = Koniec st' ∧
    foldl (analizuj_dane py_repr ocr procent obraz wiersz) st'.1 st'.2 =
      foldl (analizuj_dane py_repr ocr procent obraz wiersz)
            (foldl (analizuj_dane py_repr ocr procent obraz wiersz) st.1 st.2)
            (omap (pobierz requests_get) (imap (λ i x, ((k + i)%nat, x)) l)) ∧
    (l ≠ [] → (k + length l)%nat = n →
     (∀ canvas, last l = Some canvas →
        ∃ url, Json.image_service_id canvas = Ret (JStr url) ∧ url ≠ EmptyString) →
     st'.2 = []).
Proof.
  induction l as [|canvas l IH]; intros k st Hl.
  { exists st. by split_and!. }
  apply Forall_cons in Hl as [Hc Hl].
  rewrite imap_cons.
  rewrite (imap_ext _ (λ i x, ((S k + i)%nat, x)))
    by (intros; simpl; f_equal; lia).
  destruct (obrot_foldl n rozmiar_wsadu st ((k + 0)%nat, canvas) Hc)
    as (st1 & Hturn & HF1 & Hlast1).
  destruct (IH (S k) st1 Hl) as (st' & Hrun & HF & Hlast).
  exists st'. split_and!.
  - simpl. simpl in Hturn. rewrite Hturn. done.
  - rewrite HF, HF1. simpl.
    destruct (pobierz requests_get ((k + 0)%nat, canvas)); done.
  - intros _ Hn Hend. destruct l as [|c' l'].
    + simpl in Hrun. simplify_eq. apply Hlast1.
      * simpl in *. lia.
      * by apply Hend.
    + apply Hlast; [done|simpl in *; lia|]. intros c Hc'. by apply Hend.
Qed.
End BatchSize.

(** X19. In [laion_grupowanie_zdjec.py], when every image opens, the
    model answers each batch with one non-empty row per image that depends
    on that image alone, no image service lookup raises and the last
    analysed canvas has an image service, the three lists do not depend on
    the batch size: each downloaded page is analysed exactly once, in page
    order, whatever [rozmiar_wsadu] is. *)
Theorem X19_batch_size_does_not_change_the_lists
    {image_bytes image : Type} (py_repr : json → string)
    (requests_get : string → option image_bytes)
    (image_open : image_bytes → option image)
    (clip_probs_wsad : list image → option (list (list Q)))
    (ocr : image_bytes → OcrClip.analiza_ocr) (procent : Q → string)
    (obraz : image_bytes → image) (wiersz : image → list Q)
    (canvases : list (gmap string json)) (limit_stron : Z) :
  (∀ b, image_open b = Some (obraz b)) →
  (∀ images, clip_probs_wsad images = Some (wiersz <$> images)) →
  (∀ im, wiersz im ≠ []) →
  Forall (λ canvas, ∃ v, Json.image_service_id canvas = Py.Ret v ∧
                         (Json.truthy v = true → ∃ url, v = JStr url))
         (Py.slice canvases 0 limit_stron) →
  (∀ canvas, last (Py.slice canvases 0 limit_stron) = Some canvas →
     ∃ url, Json.image_service_id canvas = Py.Ret (JStr url) ∧ url ≠ EmptyString) →
  ∀ rozmiar_wsadu,
    Wsad.analizuj_manifest py_repr requests_get image_open clip_probs_wsad ocr procent
      canvases limit_stron rozmiar_wsadu =
    match canvases with
    | [] => Wsad.Koniec None
    | _ =>
        Wsad.Koniec
          (Some (foldl (Strona.analizuj_dane py_repr ocr procent obraz wiersz)
                       (OcrClip.Wyniki [] [] [])
                       (omap (Strona.pobierz requests_get)
                             (Koncowe.enumerate (Py.slice canvases 0 limit_stron)))))
    end.
Proof.
  intros Hopen Hclip Hrow Hok Hlast rozmiar_wsadu. unfold Wsad.analizuj_manifest.
  destruct canvases as [|c cs]; [done|].
  set (l := Py.slice (c :: cs) 0 limit_stron) in *.
  destruct (petla_foldl py_repr requests_get image_open clip_probs_wsad ocr procent
              obraz wiersz Hopen Hclip Hrow (length l) rozmiar_wsadu l 0
              (OcrClip.Wyniki [] [] [], []) Hok) as (st' & Hrun & HF & Hend).
  change (imap (λ i x, ((0 + i)%nat, x)) l) with (Koncowe.enumerate l) in *.
  rewrite Hrun. f_equal. f_equal. simpl in HF. rewrite <- HF.
  destruct l as [|c' l'] eqn:El; [simpl in Hrun; by simplify_eq|].
  rewrite Hend; done.
Qed.

Lemma X19_batch_size_does_not_change_the_lists_witness :
  let page : gmap string json :=
    {[ "images" :=
         JArr [JObj {[ "resource" :=
                         JObj {[ "service" := JObj {[ "@id" := JStr "http://i" ]} ]} ]}] ]} in
  let py_repr := λ _ : json, "?" in
  let requests_get := λ _ : string, Some () in
  let image_open := λ b : unit, Some b in
  let wiersz := λ _ : unit, [1%Q; 0%Q] in
  let clip_probs_wsad := λ images : list unit, Some (wiersz <$> images) in
  let ocr := λ _ : unit, OcrClip.BrakTekstu in
  let procent := λ _ : Q, "%" in
  let canvases := [page; Koncowe.canvas_with_id "p2"; page] in
  ∃ w, ∀ rozmiar_wsadu,
    Wsad.analizuj_manifest py_repr requests_get image_open clip_probs_wsad ocr procent
      canvases 5 rozmiar_wsadu = Wsad.Koniec (Some w).
Proof.
  intros page py_repr requests_get image_open wiersz clip_probs_wsad ocr procent
    canvases.
  eexists. intros rozmiar_wsadu.
  apply (X19_batch_size_does_not_change_the_lists py_repr requests_get image_open
           clip_probs_wsad ocr procent (λ b : unit, b) wiersz canvases 5).
  - reflexivity.
  - reflexivity.
  - discriminate.
  - repeat constructor.
    + exists (JStr "http://i"). split; [reflexivity|]. intros _. by exists "http://i".
    + exists JNull. split; [reflexivity|]. discriminate.
    + exists (JStr "http://i"). split; [reflexivity|]. intros _. by exists "http://i".
  - intros canvas [= <-]. exists "http://i". split; [reflexivity|discriminate].
Defined.

(** ** The buttons *)

Section Buttons.
Import Py Koncowe Gui Ui.
Local Open Scope Z_scope.

Lemma save_manifest_frame cv fp ok self :
  let out := save_manifest cv fp ok self in
  canvases out.2 = canvases self ∧ total_pages out.2 = total_pages self ∧
  analysis_results out.2 = analysis_results self.
Proof.
  destruct (manifest self) as [m|] eqn:Em.
  2:{ simpl. by rewrite save_manifest_falsy by (by left). }
  destruct (decide (m = ∅)) as [->|Hne].
  { simpl. by rewrite save_manifest_falsy by (by right). }
  destruct (decide (checked_pages cv = [])) as [Hcp|Hcp];
    [|destruct (id_is_string_dec m) as [Hid|Hid]].
  - destruct (save_manifest_returns cv fp ok self m Em Hne (or_introl Hcp))
      as (lines & -> & _). done.
  - destruct (save_manifest_returns cv fp ok self m Em Hne (or_intror Hid))
      as (lines & -> & _). done.
  - destruct (save_manifest_raises cv fp ok self m Em Hne Hcp Hid) as (lines & ->).
    done.
Qed.




Section Steps.
Variable run_analysis : Z → Z → M unit.



(** Once every widget is disabled, only the editor windows still react. *)
Lemma step_dead g g' :
  step run_analysis g g' → ui g = all_disabled →
  ui g' = all_disabled ∧
  canvases (attrs g') = canvases (attrs g) ∧
  total_pages (attrs g') = total_pages (attrs g) ∧
  analysis_results (attrs g') = analysis_results (attrs g).
Proof.
  intros Hstep Hg.
  destruct Hstep; try done;
    try (match goal with H : _ (ui g) = NORMAL |- _ => by rewrite Hg in H end).
  destruct (save_manifest_frame check_vars file_path write_ok (attrs g))
    as (Hc & Ht & Hr).
  fold out in Hc, Ht, Hr. simpl. by rewrite Hc, Ht, Hr.
Qed.

Lemma rtc_step_dead g g' :
  rtc (step run_analysis) g g' → ui g = all_disabled →
  ui g' = all_disabled ∧
  canvases (attrs g') = canvases (attrs g) ∧
  total_pages (attrs g') = total_pages (attrs g) ∧
  analysis_results (attrs g') = analysis_results (attrs g).
Proof.
  induction 1 as [|g g1 g2 Hstep _ IH]; [done|]. intros Hg.
  destruct (step_dead g g1 Hstep Hg) as (Hu & Hc & Ht & Hr).
  destruct (IH Hu) as (? & ? & ? & ?). split_and!; congruence.
Qed.
End Steps.
End Buttons.



(** X21. When the thread of [run_analysis] ends with an exception (an
    image service lookup that raises), [show_summary] is never called and
    the widgets stay as [start_analysis] disabled them: from then on no
    button of the main window reacts, and the canvases, the page count
    and the results never change again; only editor windows that were
    open before still react. *)
Theorem X21_raising_analysis_leaves_the_window_disabled
    {image_bytes : Type} (py_repr : json → string)
    (requests_get : string → option image_bytes)
    (clip_probs : image_bytes → option (list Q))
    (g g' : Ui.window) (start_text end_text : option Z)
    (start_page end_page : Z) (e : Py.exn) (self' : Koncowe.app) :
  let run := Koncowe.run_analysis py_repr requests_get clip_probs in
  let dead := Ui.Window self' (Ui.toggle_ui Ui.DISABLED (Ui.attrs g) (Ui.ui g))
                (Ui.editors g) in
  Ui.analyze_btn (Ui.ui g) = Ui.NORMAL →
  Gui.checked_range (Koncowe.total_pages (Ui.attrs g)) start_text end_text
    = inr (start_page, end_page) →
  run start_page end_page (Ui.attrs g) = (Py.Raise e, self') →
  rtc (Ui.step run) dead g' →
  Ui.step run g dead ∧
  Ui.ui g' = Ui.all_disabled ∧
  Koncowe.canvases (Ui.attrs g') = Koncowe.canvases (Ui.attrs g) ∧
  Koncowe.total_pages (Ui.attrs g') = Koncowe.total_pages (Ui.attrs g) ∧
  Koncowe.analysis_results (Ui.attrs g') = Koncowe.analysis_results self'.
Proof.
  intros run dead Hbtn Hrange Hrun Hreach. split.
  { by eapply Ui.click_analyze_raises. }
  destruct (rtc_step_dead run dead g' Hreach eq_refl) as (Hu & Hc & Ht & Hr).
  destruct (run_analysis_frame py_repr requests_get clip_probs start_page end_page
              (Ui.attrs g)) as (Hc' & Ht' & _).
  fold run in Hc', Ht'. rewrite Hrun in Hc', Ht'. simpl in *.
  split_and!; congruence.
Qed.

Lemma X21_raising_analysis_leaves_the_window_disabled_witness :
  let py_repr := λ _ : json, "?" in
  let requests_get := λ _ : string, @None unit in
  let clip_probs := λ _ : unit, @None (list Q) in
  let run := Koncowe.run_analysis py_repr requests_get clip_probs in
  let bad : gmap string json := {[ "images" := JArr [] ]} in
  let self := Koncowe.App [bad] 1 None [] [] [] in
  let g := Ui.Window self (Ui.toggle_ui Ui.NORMAL self Ui.initial) [] in
  let self' := (run 1%Z 1%Z self).2 in
  let dead := Ui.Window self' (Ui.toggle_ui Ui.DISABLED (Ui.attrs g) (Ui.ui g))
                (Ui.editors g) in
  Ui.step run g dead ∧
  Ui.ui dead = Ui.all_disabled ∧
  Koncowe.canvases (Ui.attrs dead) = Koncowe.canvases (Ui.attrs g) ∧
  Koncowe.total_pages (Ui.attrs dead) = Koncowe.total_pages (Ui.attrs g) ∧
  Koncowe.analysis_results (Ui.attrs dead) = Koncowe.analysis_results self'.
Proof.
  intros py_repr requests_get clip_probs run bad self g self' dead.
  apply (X21_raising_analysis_leaves_the_window_disabled py_repr requests_get clip_probs
           g dead (Some 1%Z) (Some 1%Z) 1%Z 1%Z Py.IndexError self').
  - reflexivity.
  - reflexivity.
  - reflexivity.
  - apply rtc_refl.
Defined.
